(** * fapolicyd rule list: a shallow embedding of [src/library/rules.c]

    The development follows the C file top to bottom: the C library
    routines it relies on, the data declared in the headers it includes,
    the rule store, the rule parser, the directory tests, the pattern
    detector and the rule evaluator.  Theorems come last.

    Conventions.
    - A value of type [string] is the contents of a C string, that is the
      bytes before the terminating NUL; a [char *] that may be [NULL] is an
      [option string].
    - Allocation ([malloc], [strdup]) is taken to succeed, and a string is
      shorter than 2^32 bytes, so that an [unsigned int] holds its length.
    - A call that leaves the C abstract machine (a [NULL] dereference, a
      store past the end of an array) is the outcome [Fault]; a call of
      [exit] is the outcome [Exit]. *)

From Stdlib Require Import ZArith List Bool Ascii String Lia.
Import ListNotations.

Local Open Scope string_scope.
Local Open Scope Z_scope.

(** ** Outcomes of a C call *)

Inductive outcome (A : Type) : Type :=
| Ret (a : A)            (* the call returns [a] *)
| Exit (status : Z)      (* the call ends the process through [exit] *)
| Fault.                 (* undefined behaviour *)

Arguments Ret {A} a.
Arguments Exit {A} status.
Arguments Fault {A}.

Definition bind {A B : Type} (m : outcome A) (k : A -> outcome B) : outcome B :=
  match m with
  | Ret a => k a
  | Exit st => Exit st
  | Fault => Fault
  end.

Notation "x <- m ;; k" := (bind m (fun x => k))
  (at level 61, m at next level, right associativity).
Notation "' p <- m ;; k" := (bind m (fun p => k))
  (at level 61, p pattern, m at next level, right associativity).

(** ** The C library routines used by rules.c *)

Module CString.

(** [strcmp]: only the sign of the result is specified by C. *)
Fixpoint strcmp (s1 s2 : string) : Z :=
  match s1, s2 with
  | EmptyString, EmptyString => 0
  | EmptyString, String _ _ => -1
  | String _ _, EmptyString => 1
  | String c1 r1, String c2 r2 =>
      if Ascii.eqb c1 c2 then strcmp r1 r2
      else if (nat_of_ascii c1 <? nat_of_ascii c2)%nat then -1 else 1
  end.

(** [strncmp]: as [strcmp], over at most [n] bytes. *)
Fixpoint strncmp (s1 s2 : string) (n : nat) {struct n} : Z :=
  match n with
  | O => 0
  | S n' =>
      match s1, s2 with
      | EmptyString, EmptyString => 0
      | EmptyString, String _ _ => -1
      | String _ _, EmptyString => 1
      | String c1 r1, String c2 r2 =>
          if Ascii.eqb c1 c2 then strncmp r1 r2 n'
          else if (nat_of_ascii c1 <? nat_of_ascii c2)%nat then -1 else 1
      end
  end.

Definition strlen (s : string) : nat := String.length s.

(** [strchr(s, c) != NULL] *)
Fixpoint has_char (c : ascii) (s : string) : bool :=
  match s with
  | EmptyString => false
  | String c' r => if Ascii.eqb c' c then true else has_char c r
  end.

(** [p = strchr(s, c); if (p) { *p = 0; p++; }]: the text before the
    first [c], and the text after it. *)
Fixpoint cut_at (c : ascii) (s : string) : option (string * string) :=
  match s with
  | EmptyString => None
  | String c' r =>
      if Ascii.eqb c' c then Some (EmptyString, r)
      else match cut_at c r with
           | Some (k, v) => Some (String c' k, v)
           | None => None
           end
  end.

(** The fields of [s] between single spaces, empty ones included. *)
Fixpoint fields (s : string) : list string :=
  match s with
  | EmptyString => [EmptyString]
  | String c r =>
      if Ascii.eqb c " " then EmptyString :: fields r
      else match fields r with
           | f :: fs => String c f :: fs
           | [] => [String c EmptyString]
           end
  end.

Definition nonempty (s : string) : bool :=
  match s with EmptyString => false | String _ _ => true end.

(** The successive results of [strtok(buf, " ")], [strtok(NULL, " ")], ...
    up to the first [NULL]: the maximal runs of bytes other than space. *)
Definition strtok_all (buf : string) : list string :=
  filter nonempty (fields buf).

Definition isdigit (c : ascii) : bool :=
  ((48 <=? nat_of_ascii c) && (nat_of_ascii c <=? 57))%nat.

(** [isdigit( *p )] *)
Definition starts_with_digit (s : string) : bool :=
  match s with
  | EmptyString => false
  | String c _ => isdigit c
  end.

(** [s[0]], the terminating NUL for the empty string. *)
Definition first_char (s : string) : ascii :=
  match s with
  | EmptyString => zero
  | String c _ => c
  end.

Definition LONG_MAX : Z := 9223372036854775807.

Fixpoint digits_value (acc : Z) (s : string) : Z :=
  match s with
  | EmptyString => acc
  | String c r =>
      if isdigit c
      then digits_value (10 * acc + (Z.of_nat (nat_of_ascii c) - 48)) r
      else acc
  end.

(** [errno = 0; v = strtol(s, NULL, 10)] for an [s] that starts with a
    digit: the value, and whether [errno] was set (ERANGE). *)
Definition strtol10 (s : string) : Z * bool :=
  let v := digits_value 0 s in
  if LONG_MAX <? v then (LONG_MAX, true) else (v, false).

End CString.
Import CString.

(** ** Data declared in the headers rules.c includes *)

(** Modelled from the spec: the enumerations and structures below are
    declared in policy.h, rules.h, subject-attr.h, object-attr.h, event.h
    and process.h, which are outside rules.c.  The members
    are those rules.c names, plus one constructor for the members it does
    not name; section 3 of the specification lists the decisions and the
    classification states. *)

Inductive decision_t : Type :=
| NO_OPINION | ALLOW | DENY
| ALLOW_AUDIT | DENY_AUDIT | ALLOW_SYSLOG | DENY_SYSLOG.

Inductive access_t : Type := OPEN_ACC | EXEC_ACC | ANY_ACC.

Inductive rformat_t : Type := RULE_FMT_ORIG | RULE_FMT_COLON.

Inductive subject_type_t : Type :=
| ALL_SUBJ | AUID | UID | SUBJ_TRUST | PATTERN | COMM | EXE | EXE_DIR
| SUBJ_OTHER (tag : Z).

Inductive object_type_t : Type :=
| ALL_OBJ | PATH | ODIR | FTYPE | OBJ_TRUST
| OBJ_OTHER (tag : Z).

Inductive state_t : Type :=
| STATE_COLLECTING | STATE_PARTIAL | STATE_STATIC_REOPEN
| STATE_STATIC_PARTIAL | STATE_FULL | STATE_NOT_ELF | STATE_BAD_ELF
| STATE_STATIC | STATE_LD_SO | STATE_NORMAL.

Definition decision_eqb (x y : decision_t) : bool :=
  match x, y with
  | NO_OPINION, NO_OPINION | ALLOW, ALLOW | DENY, DENY
  | ALLOW_AUDIT, ALLOW_AUDIT | DENY_AUDIT, DENY_AUDIT
  | ALLOW_SYSLOG, ALLOW_SYSLOG | DENY_SYSLOG, DENY_SYSLOG => true
  | _, _ => false
  end.

Definition access_eqb (x y : access_t) : bool :=
  match x, y with
  | OPEN_ACC, OPEN_ACC | EXEC_ACC, EXEC_ACC | ANY_ACC, ANY_ACC => true
  | _, _ => false
  end.

Definition subject_type_eqb (x y : subject_type_t) : bool :=
  match x, y with
  | ALL_SUBJ, ALL_SUBJ | AUID, AUID | UID, UID | SUBJ_TRUST, SUBJ_TRUST
  | PATTERN, PATTERN | COMM, COMM | EXE, EXE | EXE_DIR, EXE_DIR => true
  | SUBJ_OTHER j, SUBJ_OTHER k => j =? k
  | _, _ => false
  end.

Definition object_type_eqb (x y : object_type_t) : bool :=
  match x, y with
  | ALL_OBJ, ALL_OBJ | PATH, PATH | ODIR, ODIR | FTYPE, FTYPE
  | OBJ_TRUST, OBJ_TRUST => true
  | OBJ_OTHER j, OBJ_OTHER k => j =? k
  | _, _ => false
  end.

Definition state_eqb (x y : state_t) : bool :=
  match x, y with
  | STATE_COLLECTING, STATE_COLLECTING | STATE_PARTIAL, STATE_PARTIAL
  | STATE_STATIC_REOPEN, STATE_STATIC_REOPEN
  | STATE_STATIC_PARTIAL, STATE_STATIC_PARTIAL | STATE_FULL, STATE_FULL
  | STATE_NOT_ELF, STATE_NOT_ELF | STATE_BAD_ELF, STATE_BAD_ELF
  | STATE_STATIC, STATE_STATIC | STATE_LD_SO, STATE_LD_SO
  | STATE_NORMAL, STATE_NORMAL => true
  | _, _ => false
  end.

(** [subject_attr_t]: a type tag and a value, [val] for the numeric types
    and [str] for the string types.  The tag of an unused slot of a rule is
    [UNUSED] (0xFF), which is no member of the enumeration: [None]. *)
Record subject_attr_t : Type := mk_subject_attr {
  subj_type : option subject_type_t;
  subj_val : Z;
  subj_str : option string
}.

(** [object_attr_t]: a type tag, the string [o] and the length [len]. *)
Record object_attr_t : Type := mk_object_attr {
  obj_type : option object_type_t;
  obj_o : option string;
  obj_len : Z
}.

(** [lnode], without the [next] pointer: the store below keeps the nodes
    in a list. *)
Record lnode : Type := mk_lnode {
  r_d : decision_t;
  r_a : access_t;
  r_format : rformat_t;
  r_num : Z;
  s_count : nat;
  o_count : nat;
  r_s : list subject_attr_t;
  r_o : list object_attr_t
}.

(** [llist]: [head] is the first node of [nodes], [cur] is the position of
    the current node ([None] for [NULL]). *)
Record llist : Type := mk_llist {
  nodes : list lnode;
  cur : option nat;
  cnt : Z
}.

(** [struct proc_info], the per-subject pattern state [e->s->info]. *)
Record proc_info : Type := mk_proc_info {
  state : state_t;
  path1 : option string;
  path2 : option string;
  elf_info : Z
}.

(** [event_t]: the fanotify mask [type] and the attribute accessors
    [get_subj_attr(e, t)] and [get_obj_attr(e, t)], [None] for [NULL].
    The pattern state [e->s->info] is mutable and is passed next to the
    event. *)
Record event_t : Type := mk_event {
  e_type : Z;
  get_subj_attr : subject_type_t -> option subject_attr_t;
  get_obj_attr : object_type_t -> option object_attr_t
}.

(** From <linux/fanotify.h>. *)
Definition FAN_OPEN_EXEC_PERM : Z := 0x00040000.

(** What rules.c takes from the rest of the daemon and from the system:
    the numbering of two enumerations (used through [>=] and [<]), the
    field dictionary, the account database, the ELF flag bits, the path of
    the runtime linker and the release of the collected paths. *)
Class Collaborators : Type := {
  MAX_FIELDS : nat;
  subj_code : subject_type_t -> Z;
  state_code : state_t -> Z;
  rformat_code : rformat_t -> Z;
  IS_ELF : Z;
  HAS_DYNAMIC : Z;
  HAS_ERROR : Z;
  SYSTEM_LD_SO : string;
  dec_name_to_val : string -> option decision_t;
  subj_name_to_val : string -> Z -> option subject_type_t;
  obj_name_to_val : string -> option object_type_t;
  getpwnam : string -> option Z;
  clear_proc_info : proc_info -> proc_info
}.

Definition set_state (p : proc_info) (st : state_t) : proc_info :=
  mk_proc_info st (path1 p) (path2 p) (elf_info p).

(** Field updates, written [x->f = v] in C. *)

Definition with_subj_type (x : subject_attr_t) (t : option subject_type_t) :=
  mk_subject_attr t (subj_val x) (subj_str x).
Definition with_subj_val (x : subject_attr_t) (v : Z) :=
  mk_subject_attr (subj_type x) v (subj_str x).
Definition with_subj_str (x : subject_attr_t) (s : option string) :=
  mk_subject_attr (subj_type x) (subj_val x) s.

Definition with_obj_type (x : object_attr_t) (t : option object_type_t) :=
  mk_object_attr t (obj_o x) (obj_len x).
Definition with_obj_o (x : object_attr_t) (s : option string) :=
  mk_object_attr (obj_type x) s (obj_len x).
Definition with_obj_len (x : object_attr_t) (k : Z) :=
  mk_object_attr (obj_type x) (obj_o x) k.

Definition with_d (n : lnode) (v : decision_t) :=
  mk_lnode v (r_a n) (r_format n) (r_num n) (s_count n) (o_count n) (r_s n) (r_o n).
Definition with_a (n : lnode) (v : access_t) :=
  mk_lnode (r_d n) v (r_format n) (r_num n) (s_count n) (o_count n) (r_s n) (r_o n).
Definition with_format (n : lnode) (v : rformat_t) :=
  mk_lnode (r_d n) (r_a n) v (r_num n) (s_count n) (o_count n) (r_s n) (r_o n).
Definition with_num (n : lnode) (v : Z) :=
  mk_lnode (r_d n) (r_a n) (r_format n) v (s_count n) (o_count n) (r_s n) (r_o n).
Definition with_s_count (n : lnode) (v : nat) :=
  mk_lnode (r_d n) (r_a n) (r_format n) (r_num n) v (o_count n) (r_s n) (r_o n).
Definition with_o_count (n : lnode) (v : nat) :=
  mk_lnode (r_d n) (r_a n) (r_format n) (r_num n) (s_count n) v (r_s n) (r_o n).
Definition with_s (n : lnode) (v : list subject_attr_t) :=
  mk_lnode (r_d n) (r_a n) (r_format n) (r_num n) (s_count n) (o_count n) v (r_o n).
Definition with_o (n : lnode) (v : list object_attr_t) :=
  mk_lnode (r_d n) (r_a n) (r_format n) (r_num n) (s_count n) (o_count n) (r_s n) v.

(** [l[i] = f(l[i])] for [i] inside the array. *)
Fixpoint update {A : Type} (l : list A) (i : nat) (f : A -> A) : list A :=
  match l, i with
  | [], _ => []
  | x :: t, O => f x :: t
  | x :: t, S j => x :: update t j f
  end.

(** A slot whose tag is [UNUSED].  [rules_append] writes the two counts and
    the tags of a fresh node and nothing else: the other members are
    whatever [malloc] returned, and are fixed here at 0 and NULL.  The code
    can read such a member before it is written: a numeric field whose
    value starts with no digit and is no user name ([trust=yes]) is counted
    with its [val] as it was, and [check_subject] compares it. *)
Definition unused_subj : subject_attr_t := mk_subject_attr None 0 None.
Definition unused_obj : object_attr_t := mk_object_attr None None 0.

Definition s_at (n : lnode) (i : nat) : subject_attr_t := nth i (r_s n) unused_subj.
Definition o_at (n : lnode) (i : nat) : object_attr_t := nth i (r_o n) unused_obj.

Definition UINT_MOD : Z := 2 ^ 32.

(** ** The rule store *)

Definition rules_create : llist := mk_llist [] None 0.

Definition rules_first (l : llist) : llist :=
  mk_llist (nodes l) (match nodes l with [] => None | _ :: _ => Some O end) (cnt l).

Definition rules_last (l : llist) : llist :=
  match nodes l with
  | [] => l
  | _ :: t => mk_llist (nodes l) (Some (List.length t)) (cnt l)
  end.

(** [l->cur] as a node. *)
Definition rules_get_cur (l : llist) : option lnode :=
  match cur l with
  | None => None
  | Some i => nth_error (nodes l) i
  end.

Definition rules_next (l : llist) : option lnode * llist :=
  match cur l with
  | None => (None, l)
  | Some i =>
      let c := if (S i <? List.length (nodes l))%nat then Some (S i) else None in
      let l' := mk_llist (nodes l) c (cnt l) in
      (rules_get_cur l', l')
  end.

(** [rules_clear]: every node and every string it owns is released, and
    the list is empty again.  The release itself is not modelled. *)
Definition rules_clear (l : llist) : llist := mk_llist [] None 0.

(** [k] calls of [rules_next]. *)
Fixpoint advance (k : nat) (l : llist) : llist :=
  match k with
  | O => l
  | S k' => snd (rules_next (advance k' l))
  end.

Section Rules.

Context {X : Collaborators}.

(** ** The rule parser *)

Definition PATTERN_NORMAL_STR : string := "normal".
Definition PATTERN_NORMAL_VAL : Z := 0.
Definition PATTERN_LD_SO_STR : string := "ld_so".
Definition PATTERN_LD_SO_VAL : Z := 1.
Definition PATTERN_STATIC_STR : string := "static".
Definition PATTERN_STATIC_VAL : Z := 2.

(** The node a call of [rules_append] starts from. *)
Definition fresh_node : lnode :=
  mk_lnode NO_OPINION OPEN_ACC RULE_FMT_ORIG 0 O O
    (repeat unused_subj MAX_FIELDS) (repeat unused_obj MAX_FIELDS).

(** [n->s[i].f = v] *)
Definition set_s (n : lnode) (i : nat) (f : subject_attr_t -> subject_attr_t) : lnode :=
  with_s n (update (r_s n) i f).
Definition set_o (n : lnode) (i : nat) (f : object_attr_t -> object_attr_t) : lnode :=
  with_o n (update (r_o n) i f).

(** [n->s_count++; return 0;] *)
Definition subject_assigned (n : lnode) : outcome (Z * lnode) :=
  Ret (0, with_s_count n (S (s_count n))).

Definition assign_subject (n : lnode) (type : subject_type_t) (ptr2 : string)
    (lineno : Z) : outcome (Z * lnode) :=
  let i := s_count n in
  if (MAX_FIELDS <=? i)%nat then Fault else
  let n := set_s n i (fun x => with_subj_type x (Some type)) in
  if subj_code COMM <=? subj_code type then
    subject_assigned (set_s n i (fun x => with_subj_str x (Some ptr2)))
  else if subject_type_eqb type PATTERN then
    if strcmp ptr2 PATTERN_LD_SO_STR =? 0 then
      subject_assigned (set_s n i (fun x => with_subj_val x PATTERN_LD_SO_VAL))
    else if strcmp ptr2 PATTERN_STATIC_STR =? 0 then
      subject_assigned (set_s n i (fun x => with_subj_val x PATTERN_STATIC_VAL))
    else
      (* "Unknown pattern value" *)
      Ret (2, n)
  else if starts_with_digit ptr2 then
    (* the [long] is stored as it is: the width of [val] is declared in
       subject-attr.h *)
    let '(v, errno) := strtol10 ptr2 in
    let n := set_s n i (fun x => with_subj_val x v) in
    if errno then Ret (2, n) (* "Error converting val" *)
    else subject_assigned n
  else if subject_type_eqb type AUID || subject_type_eqb type UID then
    match getpwnam ptr2 with
    | None => Exit 1 (* "user is unknown" *)
    | Some pw_uid => subject_assigned (set_s n i (fun x => with_subj_val x pw_uid))
    end
  else subject_assigned n.

Definition assign_object (n : lnode) (type : object_type_t) (ptr2 : string)
    (lineno : Z) : outcome (Z * lnode) :=
  let i := o_count n in
  if (MAX_FIELDS <=? i)%nat then Fault else
  let n := set_o n i (fun x => with_obj_type x (Some type)) in
  let n := set_o n i (fun x => with_obj_o x (Some ptr2)) in
  let n :=
    if object_type_eqb type ODIR
    then set_o n i (fun x => with_obj_len x (Z.of_nat (strlen ptr2)))
    else set_o n i (fun x => with_obj_len x 0) in
  Ret (0, with_o_count n (S (o_count n))).

(** [state]: 0 in the subject part, 1 in the object part.  [toks] is what
    the calls of [strtok(NULL, " ")] still have to return. *)
Fixpoint parse_new_format (toks : list string) (state : Z) (n : lnode)
    (lineno : Z) : outcome (Z * lnode) :=
  match toks with
  | [] => Ret (0, n)
  | ptr :: toks' =>
      match cut_at "=" ptr with
      | Some (ptr, ptr2) =>
          if state =? 0 then
            match subj_name_to_val ptr 2 with
            | None => Ret (1, n)
            | Some type =>
                '(rc, n) <- assign_subject n type ptr2 lineno ;;
                if rc =? 3 then Ret (-1, n)
                else parse_new_format toks' state n lineno
            end
          else
            match obj_name_to_val ptr with
            | None => Ret (2, n)
            | Some type =>
                '(_, n) <- assign_object n type ptr2 lineno ;;
                parse_new_format toks' state n lineno
            end
      | None =>
          if (state =? 0) && (strcmp ptr ":" =? 0) then
            parse_new_format toks' 1 n lineno
          else if strcmp ptr "all" =? 0 then
            if state =? 0 then
              '(_, n) <- assign_subject n ALL_SUBJ "" lineno ;;
              parse_new_format toks' state n lineno
            else
              '(_, n) <- assign_object n ALL_OBJ "" lineno ;;
              parse_new_format toks' state n lineno
          else Ret (5, n)
      end
  end.

(** The label [finish_up] of [nv_split]. *)
Definition finish_up (n : lnode) : outcome (Z * lnode) :=
  if (s_count n =? 0)%nat then Ret (6, n)
  else if (o_count n =? 0)%nat then Ret (7, n)
  else Ret (0, n).

(** The [while] loop of [nv_split] over the tokens after the decision. *)
Fixpoint nv_split_fields (toks : list string) (format : rformat_t) (n : lnode)
    (lineno : Z) : outcome (Z * lnode) :=
  match toks with
  | [] => finish_up n
  | ptr :: toks' =>
      match cut_at "=" ptr with
      | Some (ptr, ptr2) =>
          match format with
          | RULE_FMT_COLON =>
              (* parse_new_format(n, lineno); goto finish_up;  the result
                 of parse_new_format is dropped *)
              let rest n :=
                '(_, n) <- parse_new_format toks' 0 n lineno ;;
                finish_up n in
              if strcmp ptr "perm" =? 0 then
                if strcmp ptr2 "execute" =? 0 then rest (with_a n EXEC_ACC)
                else if strcmp ptr2 "any" =? 0 then rest (with_a n ANY_ACC)
                else if negb (strcmp ptr2 "open" =? 0) then Ret (2, n)
                else rest n
              else
                match subj_name_to_val ptr 2 with
                | None => Ret (1, n)
                | Some type =>
                    '(rc, n) <- assign_subject n type ptr2 lineno ;;
                    if rc =? 3 then Ret (-1, n) else rest n
                end
          | RULE_FMT_ORIG =>
              match subj_name_to_val ptr (rformat_code format) with
              | None =>
                  match obj_name_to_val ptr with
                  | None => Ret (3, n)
                  | Some type =>
                      '(_, n) <- assign_object n type ptr2 lineno ;;
                      nv_split_fields toks' format n lineno
                  end
              | Some type =>
                  '(rc, n) <- assign_subject n type ptr2 lineno ;;
                  if rc =? 3 then Ret (-1, n)
                  else nv_split_fields toks' format n lineno
              end
          end
      | None =>
          if strcmp ptr "all" =? 0 then
            if (s_count n =? 0)%nat then
              '(_, n) <- assign_subject n ALL_SUBJ "" lineno ;;
              nv_split_fields toks' format n lineno
            else if (o_count n =? 0)%nat then
              '(_, n) <- assign_object n ALL_OBJ "" lineno ;;
              nv_split_fields toks' format n lineno
            else Ret (4, n)
          else Ret (5, n)
      end
  end.

(** Returns: -1 nothing, 0 OK, >0 error.  When the decision is unknown the
    node is about to be freed and is returned as it stands. *)
Definition nv_split (buf : string) (n : lnode) (lineno : Z) : outcome (Z * lnode) :=
  let format := if has_char ":" buf then RULE_FMT_COLON else RULE_FMT_ORIG in
  let n := with_format n format in
  match strtok_all buf with
  | [] => Ret (-1, n)
  | ptr :: toks =>
      if Ascii.eqb (first_char ptr) "#" then Ret (-1, n)
      else
        match dec_name_to_val ptr with
        | None => Ret (1, n)
        | Some d =>
            let n := with_d n d in
            let n := with_a n OPEN_ACC in
            nv_split_fields toks format n lineno
        end
  end.

(** Returns 0 if success and 1 on rule failure. *)
Definition rules_append (l : llist) (buf : option string) (lineno : Z)
    : outcome (Z * llist) :=
  match buf with
  | None => Ret (1, l)
  | Some buf =>
      '(rc, newnode) <- nv_split buf fresh_node lineno ;;
      if negb (rc =? 0) then
        if rc <? 0 then Ret (0, l) else Ret (1, l)
      else
        let l := rules_last l in
        let newnode := with_num newnode (cnt l) in
        Ret (0, mk_llist (nodes l ++ [newnode])
                         (Some (List.length (nodes l)))
                         ((cnt l + 1) mod UINT_MOD))
  end.

(** ** Directory tests *)

(** In this table, the number is string length. *)
Definition dirs : list (nat * string) :=
  [ (5%nat, "/etc/"); (5%nat, "/usr/"); (5%nat, "/bin/"); (6%nat, "/sbin/");
    (5%nat, "/lib/"); (7%nat, "/lib64/"); (13%nat, "/usr/libexec/") ].

Fixpoint check_dirs_in (tbl : list (nat * string)) (path : string) : Z :=
  match tbl with
  | [] => 0
  | (value, name) :: tbl' =>
      if strncmp path name value =? 0 then 1 else check_dirs_in tbl' path
  end.

(** Returns 0 if no match, 1 if a match; the loop starts at entry [i]. *)
Definition check_dirs (i : nat) (path : string) : Z :=
  check_dirs_in (skipn i dirs) path.

(** Reading through a [char *]. *)
Definition deref {A : Type} (p : option A) : outcome A :=
  match p with
  | Some s => Ret s
  | None => Fault
  end.

(** An [int] length passed where [strncmp] takes a [size_t]. *)
Definition size_of_len (k : Z) : nat :=
  Z.to_nat (if k <? 0 then k + 2 ^ 64 else k).

(** [(o->len == k) && strcmp(o->o, name) == 0] *)
Definition obj_is_macro (o : object_attr_t) (k : Z) (name : string) : outcome bool :=
  if obj_len o =? k then
    s <- deref (obj_o o) ;; Ret (strcmp s name =? 0)
  else Ret false.

Definition obj_dir_test (o obj : object_attr_t) (trusted : bool) : outcome Z :=
  b <- obj_is_macro o 8 "execdirs" ;;
  if b then p <- deref (obj_o obj) ;; Ret (check_dirs 1 p) else
  b <- obj_is_macro o 10 "systemdirs" ;;
  if b then p <- deref (obj_o obj) ;; Ret (check_dirs 0 p) else
  b <- obj_is_macro o 10 "untrusted" ;;
  if b then
    if trusted then Ret 0 else Ret 1
  else
    match obj_o obj with
    | None => Ret 1
    | Some p =>
        s <- deref (obj_o o) ;;
        if negb (strncmp p s (size_of_len (obj_len o)) =? 0) then Ret 0 else Ret 1
    end.

Definition subj_dir_test (s subj : subject_attr_t) (trusted : bool) : outcome Z :=
  str <- deref (subj_str s) ;;
  let len := strlen str in
  if (len =? 8)%nat && (strcmp str "execdirs" =? 0) then
    p <- deref (subj_str subj) ;; Ret (check_dirs 1 p)
  else if (len =? 10)%nat && (strcmp str "systemdirs" =? 0) then
    p <- deref (subj_str subj) ;; Ret (check_dirs 0 p)
  else if (len =? 10)%nat && (strcmp str "untrusted" =? 0) then
    if trusted then Ret 0 else Ret 1
  else
    p <- deref (subj_str subj) ;;
    if negb (strncmp p str len =? 0) then Ret 0 else Ret 1.

(** If subject is trusted function returns true, false otherwise. *)
Definition is_subj_trusted (e : event_t) : bool :=
  match get_subj_attr e SUBJ_TRUST with
  | None => false
  | Some trusted => negb (subj_val trusted =? 0)
  end.

(** If object is trusted function returns true, false otherwise. *)
Definition is_obj_trusted (e : event_t) : bool :=
  match get_obj_attr e OBJ_TRUST with
  | None => false
  | Some trusted => negb (obj_len trusted =? 0)
  end.

(** ** Pattern detection *)

(** [x & FLAG] used as a condition. *)
Definition has_flag (x flag : Z) : bool := negb (Z.land x flag =? 0).

(** The label [make_decision] of [subj_pattern_test]: the [switch], then
    "Done with the paths". *)
Definition make_decision (s : subject_attr_t) (pinfo : proc_info)
    : outcome (Z * proc_info) :=
  let rc :=
    if subj_val s =? PATTERN_NORMAL_VAL then
      if state_eqb (state pinfo) STATE_NORMAL then 1 else 0
    else if subj_val s =? PATTERN_LD_SO_VAL then
      if state_eqb (state pinfo) STATE_LD_SO then 1 else 0
    else if subj_val s =? PATTERN_STATIC_VAL then
      if state_eqb (state pinfo) STATE_STATIC_REOPEN
         || state_eqb (state pinfo) STATE_STATIC_PARTIAL
         || state_eqb (state pinfo) STATE_STATIC then 1 else 0
    else 0 in
  Ret (rc, clear_proc_info pinfo).

(** [pinfo->path1 && strcmp(pinfo->path1, SYSTEM_LD_SO) == 0] *)
Definition path1_is_ld_so (pinfo : proc_info) : bool :=
  match path1 pinfo with
  | None => false
  | Some p => strcmp p SYSTEM_LD_SO =? 0
  end.

(** Returns 0 if no match, 1 if a match, -1 on error. *)
Definition subj_pattern_test (s : subject_attr_t) (e : event_t)
    (pinfo : proc_info) : outcome (Z * proc_info) :=
  if state_code (state pinfo) <? state_code STATE_FULL then
    if elf_info pinfo =? 0 then
      Ret (0, clear_proc_info (set_state pinfo STATE_NOT_ELF))
    else if has_flag (elf_info pinfo) IS_ELF
            && state_eqb (state pinfo) STATE_COLLECTING
            && (Z.land (elf_info pinfo) HAS_DYNAMIC =? 0) then
      make_decision s (set_state pinfo STATE_STATIC_REOPEN)
    else if state_eqb (state pinfo) STATE_STATIC_PARTIAL then
      make_decision s pinfo
    else if has_flag (e_type e) FAN_OPEN_EXEC_PERM && path1_is_ld_so pinfo then
      make_decision s (set_state pinfo STATE_LD_SO)
    else
      (* otherwise, we don't have enough info for a decision *)
      Ret (0, pinfo)
  else if state_eqb (state pinfo) STATE_FULL then
    if has_flag (elf_info pinfo) HAS_ERROR then
      Ret (-1, clear_proc_info (set_state pinfo STATE_BAD_ELF))
    else
      p <- deref (path1 pinfo) ;;
      if strcmp p SYSTEM_LD_SO =? 0
      then make_decision s (set_state pinfo STATE_LD_SO)
      else make_decision s (set_state pinfo STATE_NORMAL)
  else make_decision s pinfo.

(** ** Rule evaluation *)

(** Returns 0 if no match, 1 if a match. *)
Definition check_access (r : lnode) (e : event_t) : Z :=
  if access_eqb (r_a r) ANY_ACC then 1
  else
    let perm := if has_flag (e_type e) FAN_OPEN_EXEC_PERM
                then EXEC_ACC else OPEN_ACC in
    if access_eqb (r_a r) perm then 1 else 0.

(** The [while (cnt < r->s_count)] loop of [check_subject]; [todo] is
    [r->s_count - cnt].  An accessor asked for the tag [UNUSED] knows no
    such attribute and returns [NULL]. *)
Fixpoint check_subject_from (r : lnode) (e : event_t) (todo cnt : nat)
    (pinfo : proc_info) : outcome (Z * proc_info) :=
  match todo with
  | O => Ret (1, pinfo)
  | S todo' =>
      let next := check_subject_from r e todo' (S cnt) in
      let rs := s_at r cnt in
      match subj_type rs with
      | None => next pinfo
      | Some type =>
          if subject_type_eqb type ALL_SUBJ then next pinfo else
          let subj := get_subj_attr e type in
          match subj, subject_type_eqb type PATTERN with
          | None, false => next pinfo
          | _, true =>
              '(rc, pinfo) <- subj_pattern_test rs e pinfo ;;
              if rc =? 0 then Ret (0, pinfo)
              (* If there was an error, consider it a match since deny
                 is likely *)
              else if rc =? -1 then Ret (1, pinfo)
              else next pinfo
          | Some subj, false =>
              if subj_code COMM <=? subj_code type then
                match subj_str subj with
                | None => next pinfo
                | Some str =>
                    if subject_type_eqb type EXE_DIR then
                      rc <- subj_dir_test rs subj (is_subj_trusted e) ;;
                      if rc =? 0 then Ret (0, pinfo) else next pinfo
                    else
                      rstr <- deref (subj_str rs) ;;
                      if subject_type_eqb type EXE
                         && (strcmp rstr "untrusted" =? 0) then
                        if is_subj_trusted e then Ret (0, pinfo)
                        else next pinfo
                      else if negb (strcmp str rstr =? 0) then Ret (0, pinfo)
                      else next pinfo
                end
              else if negb (subj_val subj =? subj_val rs) then Ret (0, pinfo)
              else next pinfo
          end
      end
  end.

(** Returns 0 if no match, 1 if a match, -1 on error. *)
Definition check_subject (r : lnode) (e : event_t) (pinfo : proc_info)
    : outcome (Z * proc_info) :=
  check_subject_from r e (s_count r) O pinfo.

(** [(r->s[cnt].type == EXE || r->s[cnt].type == EXE_DIR) &&
     strcmp(r->s[cnt].str, "untrusted") == 0] *)
Definition paired_subject_untrusted (r : lnode) (cnt : nat) : outcome bool :=
  match subj_type (s_at r cnt) with
  | Some EXE | Some EXE_DIR =>
      str <- deref (subj_str (s_at r cnt)) ;;
      Ret (strcmp str "untrusted" =? 0)
  | _ => Ret false
  end.

(** The [while (cnt < r->o_count)] loop of [check_object]. *)
Fixpoint check_object_from (r : lnode) (e : event_t) (todo cnt : nat)
    : outcome Z :=
  match todo with
  | O => Ret 1
  | S todo' =>
      let next := check_object_from r e todo' (S cnt) in
      let ro := o_at r cnt in
      match obj_type ro with
      | None => next
      | Some type =>
          if object_type_eqb type ALL_OBJ then next else
          match get_obj_attr e type with
          | None => next
          | Some obj =>
              match obj_o obj, object_type_eqb type OBJ_TRUST with
              | None, false => next
              | _, _ =>
                  if object_type_eqb type ODIR then
                    rc <- obj_dir_test ro obj (is_obj_trusted e) ;;
                    if rc =? 0 then Ret 0 else next
                  else
                    b <- (if object_type_eqb type PATH
                          then paired_subject_untrusted r cnt
                          else Ret false) ;;
                    if b then
                      if is_obj_trusted e then Ret 0 else next
                    else if object_type_eqb type OBJ_TRUST then
                      let val := if obj_len obj =? 0 then "0" else "1" in
                      rstr <- deref (obj_o ro) ;;
                      if negb (Ascii.eqb (first_char val) (first_char rstr))
                      then Ret 0 else next
                    else
                      rstr <- deref (obj_o ro) ;;
                      if object_type_eqb type FTYPE
                         && (strcmp rstr "any" =? 0) then next
                      else
                        ostr <- deref (obj_o obj) ;;
                        if negb (strcmp ostr rstr =? 0) then Ret 0 else next
              end
          end
      end
  end.

(** Returns 0 if no match, 1 if a match. *)
Definition check_object (r : lnode) (e : event_t) : outcome Z :=
  check_object_from r e (o_count r) O.

Definition rule_evaluate (r : lnode) (e : event_t) (pinfo : proc_info)
    : outcome (decision_t * proc_info) :=
  (* Check access permission *)
  if check_access r e =? 0 then Ret (NO_OPINION, pinfo) else
  (* Check the subject *)
  '(d, pinfo) <- check_subject r e pinfo ;;
  if d =? 0 then Ret (NO_OPINION, pinfo) else
  (* Check the object *)
  d <- check_object r e ;;
  if d =? 0 then Ret (NO_OPINION, pinfo) else
  Ret (r_d r, pinfo).

(** Modelled from the spec: the loop that walks the store is in the
    daemon's policy module, which is not part of rules.c.  Section 4.4:
    [rule_evaluate] is "applied per rule, in store order, by the caller
    until one rule returns other than NO_OPINION, or the store is
    exhausted"; an exhausted walk is reported here as [NO_OPINION].
    The walk starts with [rules_first] and advances with [rules_next]. *)
Fixpoint walk_from (l : llist) (r : option lnode) (todo : nat) (e : event_t)
    (pinfo : proc_info) : outcome (decision_t * proc_info) :=
  match todo, r with
  | S todo', Some r =>
      '(d, pinfo) <- rule_evaluate r e pinfo ;;
      if negb (decision_eqb d NO_OPINION) then Ret (d, pinfo)
      else
        let '(r', l') := rules_next l in
        walk_from l' r' todo' e pinfo
  | _, _ => Ret (NO_OPINION, pinfo)
  end.

Definition walk (l : llist) (e : event_t) (pinfo : proc_info)
    : outcome (decision_t * proc_info) :=
  let l := rules_first l in
  walk_from l (rules_get_cur l) (List.length (nodes l)) e pinfo.

End Rules.

(** ** Vocabulary of the statements *)

(** [path] starts with one of the directories [ds]. *)
Definition starts_with_one_of (ds : list string) (path : string) : Prop :=
  exists d rest, In d ds /\ path = d ++ rest.

(** A directory field of a rule as [assign_object] and [assign_subject]
    store it, and a candidate path as the accessors hand it over. *)
Definition odir (v : string) : object_attr_t :=
  mk_object_attr (Some ODIR) (Some v) (Z.of_nat (strlen v)).
Definition sdir (v : string) : subject_attr_t :=
  mk_subject_attr (Some EXE_DIR) 0 (Some v).

(** The rule's pattern code [val] names the classification [st]. *)
Definition pattern_matches (val : Z) (st : state_t) : Prop :=
  (val = PATTERN_NORMAL_VAL /\ st = STATE_NORMAL) \/
  (val = PATTERN_LD_SO_VAL /\ st = STATE_LD_SO) \/
  (val = PATTERN_STATIC_VAL /\
   (st = STATE_STATIC_REOPEN \/ st = STATE_STATIC_PARTIAL \/ st = STATE_STATIC)).

(** [k] spaces. *)
Fixpoint blanks (k : nat) : string :=
  match k with
  | O => EmptyString
  | S k' => String " " (blanks k')
  end.

(** Every byte of [s] is a decimal digit. *)
Fixpoint all_digits (s : string) : bool :=
  match s with
  | EmptyString => true
  | String c r => isdigit c && all_digits r
  end.

(** The part of a node the field assignments leave alone. *)
Definition same_head (n n' : lnode) : Prop :=
  r_d n' = r_d n /\ r_a n' = r_a n /\ r_format n' = r_format n /\
  r_num n' = r_num n.

(** The first token of the line is missing or begins with #. *)
Definition nothing_to_parse (buf : string) : Prop :=
  strtok_all buf = [] \/
  exists tok toks, strtok_all buf = tok :: toks /\ first_char tok = "#"%char.

(** The access a [perm=] value stands for. *)
Definition access_of_perm (v : string) : option access_t :=
  if String.eqb v "execute" then Some EXEC_ACC
  else if String.eqb v "any" then Some ANY_ACC
  else if String.eqb v "open" then Some OPEN_ACC
  else None.

(** The run returns a value or ends the program with [exit(1)]: no store
    past an array and no read through a null pointer is reached. *)
Definition defined_run {A : Type} (o : outcome A) : Prop :=
  match o with
  | Ret _ => True
  | Exit st => st = 1
  | Fault => False
  end.

Section Vocabulary.

Context {X : Collaborators}.

(** Two calls of [rule_evaluate] in succession, the second on the pattern
    state the first one left: the two decisions and the final state. *)
Definition evaluate_twice (r : lnode) (e : event_t) (pinfo : proc_info)
    : outcome (decision_t * decision_t * proc_info) :=
  '(d1, pinfo) <- rule_evaluate r e pinfo ;;
  '(d2, pinfo) <- rule_evaluate r e pinfo ;;
  Ret (d1, d2, pinfo).

(** None of the subject fields of the rule is pattern-typed. *)
Definition no_pattern_field (r : lnode) : Prop :=
  forall i, (i < s_count r)%nat -> subj_type (s_at r i) <> Some PATTERN.

(** The stores a program can build with the functions of rules.c. *)
Inductive built : llist -> Prop :=
| built_create : built rules_create
| built_first l : built l -> built (rules_first l)
| built_next l : built l -> built (snd (rules_next l))
| built_append l buf lineno rc l' :
    built l -> rules_append l buf lineno = Ret (rc, l') -> built l'
| built_clear l : built l -> built (rules_clear l).

(** The count is the number of nodes, the nodes carry their position as
    index, and the current node is one of the list (all as [unsigned int]). *)
Definition store_ok (l : llist) : Prop :=
  cnt l = Z.of_nat (List.length (nodes l)) mod UINT_MOD /\
  (forall i n, nth_error (nodes l) i = Some n ->
               r_num n = Z.of_nat i mod UINT_MOD) /\
  (forall i, cur l = Some i -> (i < List.length (nodes l))%nat).

(** The shape of a node the parser has worked on: the counts stay inside
    the two arrays, every counted slot has a type, a subject slot of a
    string type has its string, and an object slot has its string and, for
    a directory, the length of that string. *)
Definition wf_node (n : lnode) : Prop :=
  (s_count n <= MAX_FIELDS)%nat /\ (o_count n <= MAX_FIELDS)%nat /\
  List.length (r_s n) = MAX_FIELDS /\ List.length (r_o n) = MAX_FIELDS /\
  (forall i, (i < s_count n)%nat -> subj_type (s_at n i) <> None) /\
  (forall i t, subj_type (s_at n i) = Some t ->
               subj_code COMM <= subj_code t ->
               subj_str (s_at n i) <> None) /\
  (forall i, (i < o_count n)%nat -> obj_type (o_at n i) <> None) /\
  (forall i t, obj_type (o_at n i) = Some t ->
               exists v, obj_o (o_at n i) = Some v /\
                         obj_len (o_at n i)
                         = if object_type_eqb t ODIR
                           then Z.of_nat (strlen v) else 0).

(** A rule as it sits in a store. *)
Definition rule_ok (n : lnode) : Prop :=
  wf_node n /\ (1 <= s_count n)%nat /\ (1 <= o_count n)%nat.

(** An entry in state FULL without the error flag has its first path. *)
Definition first_path_present (p : proc_info) : Prop :=
  state p = STATE_FULL -> Z.land (elf_info p) HAS_ERROR = 0 ->
  path1 p <> None.

(** The query reaches the decision step of [subj_pattern_test], with the
    entry classified as [st]: through one of the three short cuts of the
    collecting phase, through the analysis of state FULL, or at once for a
    state that is neither below FULL nor FULL. *)
Definition decision_reached (p : proc_info) (e : event_t) (st : state_t)
    : Prop :=
  (state_code (state p) < state_code STATE_FULL /\ elf_info p <> 0 /\
   ((Z.land (elf_info p) IS_ELF <> 0 /\ state p = STATE_COLLECTING /\
     Z.land (elf_info p) HAS_DYNAMIC = 0 /\ st = STATE_STATIC_REOPEN) \/
    (state p = STATE_STATIC_PARTIAL /\ st = STATE_STATIC_PARTIAL) \/
    (~ (Z.land (elf_info p) IS_ELF <> 0 /\ state p = STATE_COLLECTING /\
        Z.land (elf_info p) HAS_DYNAMIC = 0) /\
     state p <> STATE_STATIC_PARTIAL /\
     Z.land (e_type e) FAN_OPEN_EXEC_PERM <> 0 /\
     path1 p = Some SYSTEM_LD_SO /\ st = STATE_LD_SO))) \/
  (state p = STATE_FULL /\ Z.land (elf_info p) HAS_ERROR = 0 /\
   ((path1 p = Some SYSTEM_LD_SO /\ st = STATE_LD_SO) \/
    (exists pth, path1 p = Some pth /\ pth <> SYSTEM_LD_SO /\
                 st = STATE_NORMAL))) \/
  (~ state_code (state p) < state_code STATE_FULL /\
   state p <> STATE_FULL /\ st = state p).

End Vocabulary.

(** ** A sample environment *)

(** Modelled from the spec: the field dictionary, the account database and
    the numbering of the enumerations are outside rules.c (section 6 of the
    specification: Field Dictionary, Identity lookup, Process tracking).
    This instance is used to run the functions on concrete rule lines and
    events: the dictionary knows the keywords of section 4.1, [root] is the
    one known account, string-valued subject types are numbered from [COMM]
    on, the collecting states are numbered below [STATE_FULL], and
    [clear_proc_info] releases the two collected paths. *)
Definition sample_subj_code (t : subject_type_t) : Z :=
  match t with
  | ALL_SUBJ => 0 | AUID => 1 | UID => 2 | SUBJ_TRUST => 5 | PATTERN => 6
  | COMM => 7 | EXE => 8 | EXE_DIR => 9
  | SUBJ_OTHER tag => tag
  end.

Definition sample_state_code (st : state_t) : Z :=
  match st with
  | STATE_COLLECTING => 0 | STATE_PARTIAL => 1 | STATE_STATIC_REOPEN => 2
  | STATE_STATIC_PARTIAL => 3 | STATE_FULL => 4 | STATE_NORMAL => 5
  | STATE_NOT_ELF => 6 | STATE_LD_SO => 7 | STATE_STATIC => 8
  | STATE_BAD_ELF => 9
  end.

Definition sample_dec_name_to_val (name : string) : option decision_t :=
  if String.eqb name "allow" then Some ALLOW
  else if String.eqb name "deny" then Some DENY
  else if String.eqb name "allow_audit" then Some ALLOW_AUDIT
  else if String.eqb name "deny_audit" then Some DENY_AUDIT
  else if String.eqb name "allow_syslog" then Some ALLOW_SYSLOG
  else if String.eqb name "deny_syslog" then Some DENY_SYSLOG
  else None.

Definition sample_subj_name_to_val (name : string) (format : Z)
    : option subject_type_t :=
  if String.eqb name "all" then Some ALL_SUBJ
  else if String.eqb name "auid" then Some AUID
  else if String.eqb name "uid" then Some UID
  else if String.eqb name "trust" then Some SUBJ_TRUST
  else if String.eqb name "pattern" then Some PATTERN
  else if String.eqb name "comm" then Some COMM
  else if String.eqb name "exe" then Some EXE
  else if String.eqb name (if format =? 2 then "dir" else "exe_dir")
  then Some EXE_DIR
  else None.

Definition sample_obj_name_to_val (name : string) : option object_type_t :=
  if String.eqb name "all" then Some ALL_OBJ
  else if String.eqb name "path" then Some PATH
  else if String.eqb name "dir" then Some ODIR
  else if String.eqb name "ftype" then Some FTYPE
  else if String.eqb name "trust" then Some OBJ_TRUST
  else None.

Definition sample : Collaborators := {|
  MAX_FIELDS := 8;
  subj_code := sample_subj_code;
  state_code := sample_state_code;
  rformat_code := fun f => match f with RULE_FMT_ORIG => 1 | RULE_FMT_COLON => 2 end;
  IS_ELF := 1;
  HAS_DYNAMIC := 8;
  HAS_ERROR := 2;
  SYSTEM_LD_SO := "/usr/lib64/ld-2.27.so";
  dec_name_to_val := sample_dec_name_to_val;
  subj_name_to_val := sample_subj_name_to_val;
  obj_name_to_val := sample_obj_name_to_val;
  getpwnam := fun name => if String.eqb name "root" then Some 0 else None;
  clear_proc_info := fun p => mk_proc_info (state p) None None (elf_info p)
|}.

(** ** Sample rules, events and pattern states *)

(** An execute-permission event of uid 1000 running /usr/bin/ls on the
    object /usr/lib64/libc.so.6. *)
Definition sample_event : event_t :=
  mk_event FAN_OPEN_EXEC_PERM
    (fun t => match t with
              | UID => Some (mk_subject_attr (Some UID) 1000 None)
              | EXE => Some (mk_subject_attr (Some EXE) 0 (Some "/usr/bin/ls"))
              | _ => None
              end)
    (fun t => match t with
              | PATH => Some (mk_object_attr (Some PATH)
                                (Some "/usr/lib64/libc.so.6") 0)
              | _ => None
              end).

(** What [nv_split] makes of a line in the sample environment. *)
Definition parsed (buf : string) : lnode :=
  match nv_split (X:=sample) buf (fresh_node (X:=sample)) 1 with
  | Ret (_, n) => n
  | _ => fresh_node (X:=sample)
  end.

Definition deny_uid_rule : lnode :=
  Eval cbv in parsed "deny perm=any uid=1000 : all".
Definition allow_all_rule : lnode :=
  Eval cbv in parsed "allow perm=any all : all".
Definition deny_ld_so_rule : lnode :=
  Eval cbv in parsed "deny perm=any pattern=ld_so : all".
Definition deny_static_rule : lnode :=
  Eval cbv in parsed "deny perm=any pattern=static : all".

(** Pattern states: two paths collected from a dynamically linked start
    through the runtime linker; the same with the error flag set; the first
    event of a statically linked program; a second event of a dynamic
    program not yet complete. *)
Definition full_ld_so : proc_info :=
  mk_proc_info STATE_FULL (Some "/usr/lib64/ld-2.27.so") (Some "/usr/bin/ls") 9.
Definition full_bad_elf : proc_info :=
  mk_proc_info STATE_FULL (Some "/usr/bin/ls") (Some "/usr/lib64/libc.so.6") 3.
Definition collecting_static : proc_info :=
  mk_proc_info STATE_COLLECTING (Some "/usr/bin/busybox") None 1.
Definition partial_dynamic : proc_info :=
  mk_proc_info STATE_PARTIAL (Some "/usr/bin/ls") None 9.

(** Further rules: a legacy line, an executable that must be trusted, an
    object that must be trusted. *)
Definition deny_legacy_rule : lnode :=
  Eval cbv in parsed "deny uid=1000 path=/usr/lib64/libc.so.6".
Definition deny_exe_untrusted_rule : lnode :=
  Eval cbv in parsed "deny perm=any exe=untrusted : all".
Definition deny_trusted_object_rule : lnode :=
  Eval cbv in parsed "deny perm=any all : trust=1".

(** The sample event with a trust attribute on the object. *)
Definition trusted_object_event : event_t :=
  mk_event FAN_OPEN_EXEC_PERM (get_subj_attr sample_event)
    (fun t => match t with
              | OBJ_TRUST => Some (mk_object_attr (Some OBJ_TRUST) None 1)
              | _ => get_obj_attr sample_event t
              end).

(** The store after two appends. *)
Definition sample_store : llist :=
  mk_llist [with_num deny_uid_rule 0; with_num allow_all_rule 1] (Some 1%nat) 2.

(** A settled pattern state. *)
Definition settled_normal : proc_info :=
  mk_proc_info STATE_NORMAL None None 9.

(** * Properties *)

(** ** C strings *)

Lemma strcmp_refl (a : string) : strcmp a a = 0.
Proof.
  induction a as [|c a IH]; simpl; [reflexivity|].
  now rewrite Ascii.eqb_refl.
Qed.

Lemma strcmp_zero (a b : string) : strcmp a b = 0 <-> a = b.
Proof.
  split; [|intros ->; apply strcmp_refl].
  revert b; induction a as [|c a IH]; intros [|c' b]; simpl; try discriminate.
  - reflexivity.
  - destruct (Ascii.eqb c c') eqn:E.
    + apply Ascii.eqb_eq in E. intros H. now rewrite E, (IH b H).
    + destruct (nat_of_ascii c <? nat_of_ascii c')%nat; discriminate.
Qed.

Lemma strcmp_eqb (a b : string) : (strcmp a b =? 0) = String.eqb a b.
Proof.
  destruct (String.eqb a b) eqn:E.
  - apply String.eqb_eq in E. apply Z.eqb_eq. now apply strcmp_zero.
  - apply Z.eqb_neq. intros H. apply strcmp_zero in H.
    apply String.eqb_neq in E. contradiction.
Qed.

(** [strncmp(p, d, strlen(d)) == 0] says that [p] starts with [d]. *)
Lemma strncmp_prefix (d p : string) :
  strncmp p d (strlen d) = 0 <-> exists rest, p = d ++ rest.
Proof.
  unfold strlen. revert p; induction d as [|c d IH]; intros p; simpl.
  - split; [intros _; now exists p | reflexivity].
  - destruct p as [|c' p].
    + split; [discriminate | intros [rest H]; discriminate].
    + destruct (Ascii.eqb c' c) eqn:E.
      * apply Ascii.eqb_eq in E; subst c'. rewrite IH.
        split; intros [rest H]; exists rest; [now rewrite H | now injection H].
      * split.
        -- destruct (nat_of_ascii c' <? nat_of_ascii c)%nat; discriminate.
        -- intros [rest H]. injection H as H1 _.
           apply Ascii.eqb_neq in E. contradiction.
Qed.

(** ** Directory macros *)

Lemma check_dirs_in_bool (tbl : list (nat * string)) (path : string) :
  check_dirs_in tbl path = 1 \/ check_dirs_in tbl path = 0.
Proof.
  induction tbl as [|[v name] tbl IH]; simpl; [now right|].
  destruct (strncmp path name v =? 0); [now left | exact IH].
Qed.

Lemma check_dirs_in_match (tbl : list (nat * string)) (path : string) :
  Forall (fun e => fst e = strlen (snd e)) tbl ->
  check_dirs_in tbl path = 1 <-> starts_with_one_of (map snd tbl) path.
Proof.
  induction 1 as [|[v name] tbl Hv Htbl IH]; simpl.
  - split; [discriminate | intros (d & rest & [] & _)].
  - simpl in Hv; subst v.
    destruct (strncmp path name (strlen name) =? 0) eqn:E.
    + apply Z.eqb_eq, strncmp_prefix in E. destruct E as [rest E].
      split; [intros _ | reflexivity].
      exists name, rest. split; [now left | exact E].
    + rewrite IH. apply Z.eqb_neq in E.
      split; intros (d & rest & Hin & Hp).
      * exists d, rest. split; [now right | exact Hp].
      * destruct Hin as [<- | Hin].
        -- exfalso. apply E. apply strncmp_prefix. now exists rest.
        -- now exists d, rest.
Qed.

Lemma dirs_lengths : Forall (fun e => fst e = strlen (snd e)) dirs.
Proof. repeat constructor. Qed.

Lemma check_dirs_match (i : nat) (path : string) :
  check_dirs i path = 1 <-> starts_with_one_of (map snd (skipn i dirs)) path.
Proof.
  unfold check_dirs. apply check_dirs_in_match.
  apply Forall_forall. intros e He.
  pose proof dirs_lengths as H. rewrite Forall_forall in H. apply H.
  rewrite <- (firstn_skipn i dirs). apply in_or_app. now right.
Qed.

(** C8.  With the value [execdirs] the directory tests report a match
    exactly for the paths that start with one of /usr/, /bin/, /sbin/,
    /lib/, /lib64/, /usr/libexec/; with the value [systemdirs] exactly for
    the paths that start with /etc/ or one of those.  This holds for the
    object test and for the subject test, whatever the trust flag.
    /etc/passwd matches systemdirs and not execdirs, /usr/bin/ls matches
    both. *)
Theorem C8_execdirs_systemdirs :
  let exec_list :=
    ["/usr/"; "/bin/"; "/sbin/"; "/lib/"; "/lib64/"; "/usr/libexec/"] in
  let system_list := "/etc/" :: exec_list in
  let odir v := mk_object_attr (Some ODIR) (Some v) (Z.of_nat (strlen v)) in
  let sdir v := mk_subject_attr (Some EXE_DIR) 0 (Some v) in
  (forall path trusted,
      exists rc_oe rc_os rc_se rc_ss,
        obj_dir_test (odir "execdirs") (odir path) trusted = Ret rc_oe /\
        obj_dir_test (odir "systemdirs") (odir path) trusted = Ret rc_os /\
        subj_dir_test (sdir "execdirs") (sdir path) trusted = Ret rc_se /\
        subj_dir_test (sdir "systemdirs") (sdir path) trusted = Ret rc_ss /\
        rc_se = rc_oe /\ rc_ss = rc_os /\
        (rc_oe = 1 \/ rc_oe = 0) /\ (rc_os = 1 \/ rc_os = 0) /\
        (rc_oe = 1 <-> starts_with_one_of exec_list path) /\
        (rc_os = 1 <-> starts_with_one_of system_list path)) /\
  obj_dir_test (odir "systemdirs") (odir "/etc/passwd") false = Ret 1 /\
  obj_dir_test (odir "execdirs") (odir "/etc/passwd") false = Ret 0 /\
  obj_dir_test (odir "systemdirs") (odir "/usr/bin/ls") false = Ret 1 /\
  obj_dir_test (odir "execdirs") (odir "/usr/bin/ls") false = Ret 1 /\
  subj_dir_test (sdir "systemdirs") (sdir "/etc/passwd") false = Ret 1 /\
  subj_dir_test (sdir "execdirs") (sdir "/etc/passwd") false = Ret 0 /\
  subj_dir_test (sdir "systemdirs") (sdir "/usr/bin/ls") false = Ret 1 /\
  subj_dir_test (sdir "execdirs") (sdir "/usr/bin/ls") false = Ret 1.
Proof.
  intros exec_list system_list odir sdir.
  split; [|repeat split; reflexivity].
  intros path trusted.
  exists (check_dirs 1 path), (check_dirs 0 path),
         (check_dirs 1 path), (check_dirs 0 path).
  repeat split; try reflexivity;
    try apply check_dirs_in_bool;
    try (apply (check_dirs_match 1 path)); try (apply (check_dirs_match 0 path)).
Qed.

(** ** Plain directory values *)

Lemma size_of_len_strlen (v : string) : size_of_len (Z.of_nat (strlen v)) = strlen v.
Proof.
  unfold size_of_len.
  destruct (Z.of_nat (strlen v) <? 0) eqn:E; [apply Z.ltb_lt in E; lia|].
  apply Nat2Z.id.
Qed.

Lemma obj_is_macro_other (v name : string) (k : Z) :
  v <> name -> obj_is_macro (odir v) k name = Ret false.
Proof.
  intros H. unfold obj_is_macro, odir; simpl.
  destruct (Z.of_nat (strlen v) =? k); [|reflexivity].
  rewrite strcmp_eqb. apply String.eqb_neq in H. now rewrite H.
Qed.

Lemma obj_dir_test_plain (v path : string) (trusted : bool) :
  v <> "execdirs" -> v <> "systemdirs" -> v <> "untrusted" ->
  obj_dir_test (odir v) (odir path) trusted
  = Ret (if strncmp path v (strlen v) =? 0 then 1 else 0).
Proof.
  intros H1 H2 H3. unfold obj_dir_test.
  rewrite (obj_is_macro_other v "execdirs" 8 H1); simpl.
  rewrite (obj_is_macro_other v "systemdirs" 10 H2); simpl.
  rewrite (obj_is_macro_other v "untrusted" 10 H3); simpl.
  rewrite size_of_len_strlen.
  now destruct (strncmp path v (strlen v) =? 0).
Qed.

Lemma subj_dir_test_plain (v path : string) (trusted : bool) :
  v <> "execdirs" -> v <> "systemdirs" -> v <> "untrusted" ->
  subj_dir_test (sdir v) (sdir path) trusted
  = Ret (if strncmp path v (strlen v) =? 0 then 1 else 0).
Proof.
  intros H1 H2 H3. unfold subj_dir_test; simpl.
  rewrite !strcmp_eqb.
  apply String.eqb_neq in H1, H2, H3. rewrite H1, H2, H3, !andb_false_r.
  now destruct (strncmp path v (strlen v) =? 0).
Qed.

(** C7, as the code has it.  For a directory value that is none of
    [execdirs], [systemdirs], [untrusted], the object test and the subject
    test report a match exactly when the candidate path starts with the
    stored value, byte for byte and with no look at path segments.  So
    /usr/ matches /usr/bin/ls and also /usr/local2/x, and /usr/lib
    matches /usr/libfoo. *)
Theorem C7_plain_value_is_byte_prefix (v path : string) (trusted : bool)
    (Hexec : v <> "execdirs") (Hsys : v <> "systemdirs")
    (Huntr : v <> "untrusted") :
  exists rc,
    obj_dir_test (odir v) (odir path) trusted = Ret rc /\
    subj_dir_test (sdir v) (sdir path) trusted = Ret rc /\
    (rc = 1 \/ rc = 0) /\
    (rc = 1 <-> exists rest, path = v ++ rest).
Proof.
  exists (if strncmp path v (strlen v) =? 0 then 1 else 0).
  split; [now apply obj_dir_test_plain|].
  split; [now apply subj_dir_test_plain|].
  destruct (strncmp path v (strlen v) =? 0) eqn:E.
  - apply Z.eqb_eq, strncmp_prefix in E.
    split; [now left|]. split; [intros _; exact E | reflexivity].
  - apply Z.eqb_neq in E.
    split; [now right|]. split; [discriminate|].
    intros H. exfalso. apply E. now apply strncmp_prefix.
Qed.

Lemma C7_plain_value_witness :
  (exists rc,
     obj_dir_test (odir "/usr/") (odir "/usr/bin/ls") false = Ret rc /\
     subj_dir_test (sdir "/usr/") (sdir "/usr/bin/ls") false = Ret rc /\
     (rc = 1 \/ rc = 0) /\
     (rc = 1 <-> exists rest, "/usr/bin/ls" = "/usr/" ++ rest)) /\
  (exists rc,
     obj_dir_test (odir "/usr/lib") (odir "/usr/libfoo") false = Ret rc /\
     subj_dir_test (sdir "/usr/lib") (sdir "/usr/libfoo") false = Ret rc /\
     (rc = 1 \/ rc = 0) /\
     (rc = 1 <-> exists rest, "/usr/libfoo" = "/usr/lib" ++ rest)).
Proof.
  split.
  - apply (C7_plain_value_is_byte_prefix "/usr/" "/usr/bin/ls" false);
      discriminate.
  - apply (C7_plain_value_is_byte_prefix "/usr/lib" "/usr/libfoo" false);
      discriminate.
Defined.

(** The stored value /usr/ does match /usr/local2/x, in the object test
    and in the subject test. *)
Lemma C7_usr_matches_usr_local2 :
  obj_dir_test (odir "/usr/") (odir "/usr/local2/x") false = Ret 1 /\
  subj_dir_test (sdir "/usr/") (sdir "/usr/local2/x") false = Ret 1 /\
  ~ (obj_dir_test (odir "/usr/") (odir "/usr/local2/x") false = Ret 0).
Proof. repeat split. discriminate. Qed.

(** ** The value [untrusted] *)

(** C3, the code at fault.  "untrusted" has nine bytes and both tests
    compare the length of the rule value with 10 before they compare the
    value with "untrusted", so the trust branch is never taken: the value
    falls through to the plain prefix test.  The result is a match exactly
    for the paths that start with the bytes "untrusted", whatever the trust
    flag.  With an object that is not trusted and the path /tmp/x the tests
    report no match; with a trusted object and the path untrusted/x they
    report a match.  The first conjunct is the slot [assign_object] builds
    for [dir=untrusted]. *)
Theorem C3_untrusted_value_ignores_trust :
  (exists n,
     assign_object (X:=sample) (fresh_node (X:=sample)) ODIR "untrusted" 1
       = Ret (0, n) /\
     o_at n 0 = odir "untrusted" /\ obj_len (o_at n 0) = 9) /\
  (forall path trusted,
     exists rc,
       obj_dir_test (odir "untrusted") (odir path) trusted = Ret rc /\
       subj_dir_test (sdir "untrusted") (sdir path) trusted = Ret rc /\
       (rc = 1 <-> exists rest, path = "untrusted" ++ rest)) /\
  obj_dir_test (odir "untrusted") (odir "/tmp/x") false = Ret 0 /\
  subj_dir_test (sdir "untrusted") (sdir "/tmp/x") false = Ret 0 /\
  obj_dir_test (odir "untrusted") (odir "untrusted/x") true = Ret 1 /\
  subj_dir_test (sdir "untrusted") (sdir "untrusted/x") true = Ret 1.
Proof.
  split; [eexists; repeat split|].
  split; [|repeat split].
  intros path trusted.
  exists (if strncmp path "untrusted" 9 =? 0 then 1 else 0).
  split; [|split].
  - unfold obj_dir_test; cbn -[strncmp].
    change (Pos.to_nat 9) with 9%nat.
    now destruct (strncmp path "untrusted" 9 =? 0).
  - unfold subj_dir_test; cbn -[strncmp].
    now destruct (strncmp path "untrusted" 9 =? 0).
  - pose proof (strncmp_prefix "untrusted" path) as P.
    change (strlen "untrusted") with 9%nat in P.
    destruct (strncmp path "untrusted" 9 =? 0) eqn:E.
    + apply Z.eqb_eq in E. split; [intros _; now apply P | reflexivity].
    + apply Z.eqb_neq in E. split; [discriminate|].
      intros H. exfalso. apply E. now apply P.
Qed.

(** ** The pattern detector *)

Lemma state_eqb_eq (a b : state_t) : state_eqb a b = true <-> a = b.
Proof. destruct a, b; simpl; split; intros H; try reflexivity; discriminate. Qed.

Lemma state_eqb_refl (a : state_t) : state_eqb a a = true.
Proof. now apply state_eqb_eq. Qed.

Lemma subject_type_eqb_eq (a b : subject_type_t) :
  subject_type_eqb a b = true <-> a = b.
Proof.
  destruct a, b; simpl; split; intros H;
    try reflexivity; try discriminate.
  - apply Z.eqb_eq in H. now subst.
  - injection H as ->. apply Z.eqb_refl.
Qed.

Section PatternDetector.

Context {X : Collaborators}.

Lemma make_decision_spec (s : subject_attr_t) (p : proc_info) :
  exists rc,
    make_decision s p = Ret (rc, clear_proc_info p) /\
    (rc = 1 \/ rc = 0) /\
    (rc = 1 <-> pattern_matches (subj_val s) (state p)).
Proof.
  unfold make_decision, pattern_matches,
    PATTERN_NORMAL_VAL, PATTERN_LD_SO_VAL, PATTERN_STATIC_VAL.
  eexists; split; [reflexivity|].
  destruct (subj_val s =? 0) eqn:E0;
    [apply Z.eqb_eq in E0 | apply Z.eqb_neq in E0].
  { destruct (state p); simpl; (split; [auto|]);
      split; intros H; try discriminate; try reflexivity;
      try (left; split; [assumption | reflexivity]);
      destruct H as [[_ H] | [[H _] | [H _]]]; try discriminate; lia. }
  destruct (subj_val s =? 1) eqn:E1;
    [apply Z.eqb_eq in E1 | apply Z.eqb_neq in E1].
  { destruct (state p); simpl; (split; [auto|]);
      split; intros H; try discriminate; try reflexivity;
      try (right; left; split; [assumption | reflexivity]);
      destruct H as [[H _] | [[_ H] | [H _]]]; try discriminate; lia. }
  destruct (subj_val s =? 2) eqn:E2;
    [apply Z.eqb_eq in E2 | apply Z.eqb_neq in E2].
  { destruct (state p); simpl; (split; [auto|]);
      split; intros H; try discriminate; try reflexivity;
      try (right; right; split; [assumption | tauto]);
      destruct H as [[H _] | [[H _] | [_ [H | [H | H]]]]];
      try discriminate; lia. }
  split; [auto|]. split; [discriminate|].
  intros [[H _] | [[H _] | [H _]]]; lia.
Qed.

Lemma not_below_FULL (p : proc_info) :
  state p = STATE_FULL -> (state_code (state p) <? state_code STATE_FULL) = false.
Proof. intros ->. apply Z.ltb_irrefl. Qed.

(** C6.  A query in state FULL.  With the error flag among the collected
    ELF flags the state is set to BAD_ELF, [clear_proc_info] is applied and
    -1 is returned.  Without it, and with a first path collected, the state
    is set to LD_SO when that path is the runtime linker's and to NORMAL
    otherwise, the rule's pattern code is compared with it (1 on a match,
    0 otherwise), and [clear_proc_info] is applied to the entry before the
    result is returned. *)
Theorem C6_full_state_classification (s : subject_attr_t) (e : event_t)
    (pinfo : proc_info) (Hfull : state pinfo = STATE_FULL) :
  (Z.land (elf_info pinfo) HAS_ERROR <> 0 ->
     subj_pattern_test s e pinfo
     = Ret (-1, clear_proc_info (set_state pinfo STATE_BAD_ELF))) /\
  (Z.land (elf_info pinfo) HAS_ERROR = 0 ->
     forall p, path1 pinfo = Some p ->
       exists rc st,
         subj_pattern_test s e pinfo
         = Ret (rc, clear_proc_info (set_state pinfo st)) /\
         (st = STATE_LD_SO <-> p = SYSTEM_LD_SO) /\
         (st = STATE_NORMAL <-> p <> SYSTEM_LD_SO) /\
         (rc = 1 \/ rc = 0) /\
         (rc = 1 <-> pattern_matches (subj_val s) st)).
Proof.
  unfold subj_pattern_test, has_flag.
  rewrite (not_below_FULL pinfo Hfull), Hfull. simpl.
  split.
  - intros H. apply Z.eqb_neq in H. now rewrite H.
  - intros H p Hp. rewrite H, Hp. simpl.
    destruct (strcmp p SYSTEM_LD_SO =? 0) eqn:E.
    + apply Z.eqb_eq, strcmp_zero in E.
      destruct (make_decision_spec s (set_state pinfo STATE_LD_SO))
        as (rc & Hrc & Hb & Hm).
      exists rc, STATE_LD_SO. repeat split; try assumption;
        try discriminate; try (apply Hm); try tauto.
    + apply Z.eqb_neq in E. rewrite strcmp_zero in E.
      destruct (make_decision_spec s (set_state pinfo STATE_NORMAL))
        as (rc & Hrc & Hb & Hm).
      exists rc, STATE_NORMAL. repeat split; try assumption;
        try discriminate; try (apply Hm); try tauto.
Qed.

End PatternDetector.

Section PatternContract.

Context {X : Collaborators}.

Lemma set_state_same (p : proc_info) : set_state p (state p) = p.
Proof. now destruct p. Qed.

(** What a query says when it ends in the decision step with the
    classification [st]. *)
Lemma decision_leaf (s : subject_attr_t) (pinfo : proc_info) (st : state_t)
    (rc : Z) (p' : proc_info) :
  make_decision s (set_state pinfo st) = Ret (rc, p') ->
  ~ (state pinfo = STATE_FULL /\ Z.land (elf_info pinfo) HAS_ERROR <> 0) ->
  (rc = 1 \/ rc = 0 \/ rc = -1) /\
  (rc = -1 <->
   state pinfo = STATE_FULL /\ Z.land (elf_info pinfo) HAS_ERROR <> 0) /\
  (rc = 1 ->
   exists st', p' = clear_proc_info (set_state pinfo st') /\
               pattern_matches (subj_val s) st').
Proof.
  intros H Hno.
  destruct (make_decision_spec s (set_state pinfo st)) as (rc0 & E & Hb & Hm).
  rewrite E in H. injection H as <- <-.
  split; [tauto|]. split.
  - split; [intros ->; destruct Hb; discriminate | intros F; contradiction].
  - intros H1. exists st. split; [reflexivity | now apply Hm].
Qed.

Lemma has_flag_true (x flag : Z) : has_flag x flag = true <-> Z.land x flag <> 0.
Proof.
  unfold has_flag. rewrite negb_true_iff. apply Z.eqb_neq.
Qed.

Lemma has_flag_false (x flag : Z) : has_flag x flag = false <-> Z.land x flag = 0.
Proof.
  unfold has_flag. rewrite negb_false_iff. apply Z.eqb_eq.
Qed.

Lemma subj_pattern_test_contract (s : subject_attr_t) (e : event_t)
    (pinfo : proc_info) (rc : Z) (p' : proc_info) :
  subj_pattern_test s e pinfo = Ret (rc, p') ->
  (rc = 1 \/ rc = 0 \/ rc = -1) /\
  (rc = -1 <->
   state pinfo = STATE_FULL /\ Z.land (elf_info pinfo) HAS_ERROR <> 0) /\
  (rc = 1 ->
   exists st, p' = clear_proc_info (set_state pinfo st) /\
              pattern_matches (subj_val s) st).
Proof.
  unfold subj_pattern_test.
  destruct (state_code (state pinfo) <? state_code STATE_FULL) eqn:Elt.
  - assert (Hnf : ~ (state pinfo = STATE_FULL /\
                     Z.land (elf_info pinfo) HAS_ERROR <> 0)).
    { intros [Hf _]. rewrite Hf, Z.ltb_irrefl in Elt. discriminate. }
    assert (Hzero : forall q, Ret (0, q) = Ret (rc, p') ->
              (rc = 1 \/ rc = 0 \/ rc = -1) /\
              (rc = -1 <-> state pinfo = STATE_FULL /\
                           Z.land (elf_info pinfo) HAS_ERROR <> 0) /\
              (rc = 1 -> exists st,
                  p' = clear_proc_info (set_state pinfo st) /\
                  pattern_matches (subj_val s) st)).
    { intros q H. injection H as <- <-.
      split; [tauto|]. split; [|discriminate].
      split; [discriminate | intros F; contradiction]. }
    destruct (elf_info pinfo =? 0); [apply Hzero|].
    destruct (has_flag (elf_info pinfo) IS_ELF
              && state_eqb (state pinfo) STATE_COLLECTING
              && (Z.land (elf_info pinfo) HAS_DYNAMIC =? 0)).
    { intros H. exact (decision_leaf _ _ _ _ _ H Hnf). }
    destruct (state_eqb (state pinfo) STATE_STATIC_PARTIAL).
    { intros H. rewrite <- (set_state_same pinfo) in H at 1.
      exact (decision_leaf _ _ _ _ _ H Hnf). }
    destruct (has_flag (e_type e) FAN_OPEN_EXEC_PERM && path1_is_ld_so pinfo).
    { intros H. exact (decision_leaf _ _ _ _ _ H Hnf). }
    apply Hzero.
  - destruct (state_eqb (state pinfo) STATE_FULL) eqn:Ef.
    + apply state_eqb_eq in Ef.
      destruct (has_flag (elf_info pinfo) HAS_ERROR) eqn:Eh.
      * apply has_flag_true in Eh. intros H. injection H as <- <-.
        split; [tauto|]. split; [tauto | discriminate].
      * apply has_flag_false in Eh.
        assert (Hnf : ~ (state pinfo = STATE_FULL /\
                         Z.land (elf_info pinfo) HAS_ERROR <> 0)) by tauto.
        destruct (path1 pinfo) as [p|]; simpl; [|discriminate].
        destruct (strcmp p SYSTEM_LD_SO =? 0);
          intros H; exact (decision_leaf _ _ _ _ _ H Hnf).
    + assert (Hnf : ~ (state pinfo = STATE_FULL /\
                       Z.land (elf_info pinfo) HAS_ERROR <> 0)).
      { intros [Hf _]. rewrite Hf in Ef. discriminate. }
      intros H. rewrite <- (set_state_same pinfo) in H at 1.
      exact (decision_leaf _ _ _ _ _ H Hnf).
Qed.

Lemma subj_pattern_test_returns (s : subject_attr_t) (e : event_t)
    (pinfo : proc_info) :
  (state pinfo = STATE_FULL -> Z.land (elf_info pinfo) HAS_ERROR = 0 ->
   path1 pinfo <> None) ->
  exists rc p', subj_pattern_test s e pinfo = Ret (rc, p').
Proof.
  intros Hp. unfold subj_pattern_test.
  assert (D : forall q, exists rc p', make_decision s q = Ret (rc, p')).
  { intros q. destruct (make_decision_spec s q) as (rc & E & _).
    now exists rc, (clear_proc_info q). }
  destruct (state_code (state pinfo) <? state_code STATE_FULL).
  - destruct (elf_info pinfo =? 0); [now eexists; eexists|].
    destruct (has_flag (elf_info pinfo) IS_ELF
              && state_eqb (state pinfo) STATE_COLLECTING
              && (Z.land (elf_info pinfo) HAS_DYNAMIC =? 0)); [apply D|].
    destruct (state_eqb (state pinfo) STATE_STATIC_PARTIAL); [apply D|].
    destruct (has_flag (e_type e) FAN_OPEN_EXEC_PERM && path1_is_ld_so pinfo);
      [apply D | now eexists; eexists].
  - destruct (state_eqb (state pinfo) STATE_FULL) eqn:Ef; [|apply D].
    apply state_eqb_eq in Ef.
    destruct (has_flag (elf_info pinfo) HAS_ERROR) eqn:Eh;
      [now eexists; eexists|].
    apply has_flag_false in Eh.
    destruct (path1 pinfo) as [p|]; simpl.
    + destruct (strcmp p SYSTEM_LD_SO =? 0); apply D.
    + exfalso. now apply (Hp Ef Eh).
Qed.

(** The query falls through every shortcut of the collecting phase. *)
Lemma subj_pattern_test_insufficient (s : subject_attr_t) (e : event_t)
    (pinfo : proc_info) :
  state_code (state pinfo) < state_code STATE_FULL ->
  elf_info pinfo <> 0 ->
  ~ (Z.land (elf_info pinfo) IS_ELF <> 0 /\ state pinfo = STATE_COLLECTING /\
     Z.land (elf_info pinfo) HAS_DYNAMIC = 0) ->
  state pinfo <> STATE_STATIC_PARTIAL ->
  ~ (Z.land (e_type e) FAN_OPEN_EXEC_PERM <> 0 /\
     path1 pinfo = Some SYSTEM_LD_SO) ->
  subj_pattern_test s e pinfo = Ret (0, pinfo).
Proof.
  intros Hlt Helf Hstatic Hpartial Hld. unfold subj_pattern_test.
  apply Z.ltb_lt in Hlt. rewrite Hlt.
  apply Z.eqb_neq in Helf. rewrite Helf.
  destruct (has_flag (elf_info pinfo) IS_ELF
            && state_eqb (state pinfo) STATE_COLLECTING
            && (Z.land (elf_info pinfo) HAS_DYNAMIC =? 0)) eqn:E1.
  { exfalso. apply Hstatic.
    apply andb_true_iff in E1 as [E1 E3]. apply andb_true_iff in E1 as [E1 E2].
    apply has_flag_true in E1. apply state_eqb_eq in E2. apply Z.eqb_eq in E3.
    tauto. }
  destruct (state_eqb (state pinfo) STATE_STATIC_PARTIAL) eqn:E2.
  { apply state_eqb_eq in E2. contradiction. }
  destruct (has_flag (e_type e) FAN_OPEN_EXEC_PERM && path1_is_ld_so pinfo)
    eqn:E3; [|reflexivity].
  exfalso. apply Hld. apply andb_true_iff in E3 as [E3 E4].
  apply has_flag_true in E3. split; [exact E3|].
  unfold path1_is_ld_so in E4. destruct (path1 pinfo) as [p|]; [|discriminate].
  apply Z.eqb_eq, strcmp_zero in E4. now subst.
Qed.

(** How the loop of [check_subject] uses the result for a pattern field. *)
Lemma check_subject_from_pattern (r : lnode) (e : event_t) (todo cnt : nat)
    (pinfo : proc_info) :
  subj_type (s_at r cnt) = Some PATTERN ->
  check_subject_from r e (S todo) cnt pinfo
  = ('(rc, p') <- subj_pattern_test (s_at r cnt) e pinfo ;;
     if rc =? 0 then Ret (0, p')
     else if rc =? -1 then Ret (1, p')
     else check_subject_from r e todo (S cnt) p').
Proof.
  intros Ht. simpl. rewrite Ht. simpl.
  destruct (get_subj_attr e PATTERN); reflexivity.
Qed.

(** A query that reaches the decision step answers by the rule's code. *)
Lemma pattern_decision_made (s : subject_attr_t) (e : event_t)
    (p : proc_info) (st : state_t) :
  decision_reached p e st ->
  exists rc,
    subj_pattern_test s e p = Ret (rc, clear_proc_info (set_state p st)) /\
    (rc = 1 \/ rc = 0) /\
    (rc = 1 <-> pattern_matches (subj_val s) st).
Proof.
  intros Hr.
  assert (G : subj_pattern_test s e p = make_decision s (set_state p st)).
  { unfold subj_pattern_test.
    destruct Hr as [(Hlt & Helf & Hr) | [(Hfull & Herr & Hr) | (Hge & Hnf & ->)]].
    - apply Z.ltb_lt in Hlt. rewrite Hlt.
      apply Z.eqb_neq in Helf. rewrite Helf.
      destruct Hr as [(H1 & H2 & H3 & ->) | [(H2 & ->) | (Hns & Hnp & Hx & Hp & ->)]].
      + apply has_flag_true in H1. apply Z.eqb_eq in H3.
        rewrite H1, H2, H3. reflexivity.
      + rewrite H2. cbn [state_eqb andb]. rewrite andb_false_r. cbn [andb].
        rewrite <- H2. now rewrite set_state_same.
      + destruct (has_flag (elf_info p) IS_ELF
                  && state_eqb (state p) STATE_COLLECTING
                  && (Z.land (elf_info p) HAS_DYNAMIC =? 0)) eqn:E1.
        { exfalso. apply Hns.
          apply andb_true_iff in E1 as [E1 E3].
          apply andb_true_iff in E1 as [E1 E2].
          apply has_flag_true in E1. apply state_eqb_eq in E2.
          apply Z.eqb_eq in E3. tauto. }
        destruct (state_eqb (state p) STATE_STATIC_PARTIAL) eqn:E2.
        { apply state_eqb_eq in E2. contradiction. }
        apply has_flag_true in Hx. rewrite Hx.
        unfold path1_is_ld_so. rewrite Hp, strcmp_refl. reflexivity.
    - rewrite (not_below_FULL p Hfull), Hfull. cbn [state_eqb].
      apply has_flag_false in Herr. rewrite Herr.
      destruct Hr as [(Hp & ->) | (pth & Hp & Hne & ->)]; rewrite Hp;
        cbn [deref bind].
      + now rewrite strcmp_refl.
      + assert (E : (strcmp pth SYSTEM_LD_SO =? 0) = false).
        { apply Z.eqb_neq. intros F. apply strcmp_zero in F. contradiction. }
        now rewrite E.
    - assert (E1 : (state_code (state p) <? state_code STATE_FULL) = false)
        by (apply Z.ltb_ge; lia).
      rewrite E1.
      destruct (state_eqb (state p) STATE_FULL) eqn:E2.
      { apply state_eqb_eq in E2. contradiction. }
      now rewrite set_state_same. }
  rewrite G.
  destruct (make_decision_spec s (set_state p st)) as (rc & E & Hb & Hm).
  exists rc. split; [exact E|]. split; [exact Hb | exact Hm].
Qed.

(** Every way a query can return. *)
Lemma pattern_test_cases (s : subject_attr_t) (e : event_t) (p : proc_info)
    (rc : Z) (p' : proc_info) :
  subj_pattern_test s e p = Ret (rc, p') ->
  (rc = -1 /\ state p = STATE_FULL /\ Z.land (elf_info p) HAS_ERROR <> 0 /\
   p' = clear_proc_info (set_state p STATE_BAD_ELF)) \/
  (rc = 0 /\ p' = p) \/
  (rc = 0 /\ elf_info p = 0 /\
   p' = clear_proc_info (set_state p STATE_NOT_ELF)) \/
  (exists st,
     decision_reached p e st /\
     p' = clear_proc_info (set_state p st) /\
     (rc = 1 \/ rc = 0) /\
     (rc = 1 <-> pattern_matches (subj_val s) st)).
Proof.
  intros H.
  assert (D : forall st, decision_reached p e st ->
            exists st0,
              decision_reached p e st0 /\
              p' = clear_proc_info (set_state p st0) /\
              (rc = 1 \/ rc = 0) /\
              (rc = 1 <-> pattern_matches (subj_val s) st0)).
  { intros st Hr.
    destruct (pattern_decision_made s e p st Hr) as (rc0 & E & Hb & Hm).
    rewrite E in H. injection H as <- <-. now exists st. }
  pose proof H as H0. unfold subj_pattern_test in H0.
  destruct (state_code (state p) <? state_code STATE_FULL) eqn:Elt.
  - apply Z.ltb_lt in Elt.
    destruct (elf_info p =? 0) eqn:E0.
    { apply Z.eqb_eq in E0. injection H0 as <- <-. right. right. left. auto. }
    apply Z.eqb_neq in E0.
    destruct (has_flag (elf_info p) IS_ELF
              && state_eqb (state p) STATE_COLLECTING
              && (Z.land (elf_info p) HAS_DYNAMIC =? 0)) eqn:E1.
    { apply andb_true_iff in E1 as [E1 E3].
      apply andb_true_iff in E1 as [E1 E2].
      apply has_flag_true in E1. apply state_eqb_eq in E2.
      apply Z.eqb_eq in E3.
      do 3 right. apply (D STATE_STATIC_REOPEN).
      left. split; [exact Elt|]. split; [exact E0|]. left. auto. }
    assert (Hns : ~ (Z.land (elf_info p) IS_ELF <> 0 /\
                     state p = STATE_COLLECTING /\
                     Z.land (elf_info p) HAS_DYNAMIC = 0)).
    { intros (F1 & F2 & F3).
      apply has_flag_true in F1. apply state_eqb_eq in F2.
      apply Z.eqb_eq in F3. rewrite F1, F2, F3 in E1. discriminate. }
    destruct (state_eqb (state p) STATE_STATIC_PARTIAL) eqn:E2.
    { apply state_eqb_eq in E2.
      do 3 right. apply (D STATE_STATIC_PARTIAL).
      left. split; [exact Elt|]. split; [exact E0|]. right. left. auto. }
    assert (Hnp : state p <> STATE_STATIC_PARTIAL).
    { intros F. apply state_eqb_eq in F. rewrite F in E2. discriminate. }
    destruct (has_flag (e_type e) FAN_OPEN_EXEC_PERM && path1_is_ld_so p)
      eqn:E3.
    { apply andb_true_iff in E3 as [E3 E4]. apply has_flag_true in E3.
      unfold path1_is_ld_so in E4.
      destruct (path1 p) as [pth|] eqn:Ep; [|discriminate].
      apply Z.eqb_eq, strcmp_zero in E4. subst pth.
      do 3 right. apply (D STATE_LD_SO).
      left. split; [exact Elt|]. split; [exact E0|]. right. right.
      repeat split; auto. }
    injection H0 as <- <-. right. left. auto.
  - apply Z.ltb_ge in Elt.
    destruct (state_eqb (state p) STATE_FULL) eqn:Ef.
    + apply state_eqb_eq in Ef.
      destruct (has_flag (elf_info p) HAS_ERROR) eqn:Eh.
      { apply has_flag_true in Eh. injection H0 as <- <-. left. auto. }
      apply has_flag_false in Eh.
      destruct (path1 p) as [pth|] eqn:Ep; cbn [deref bind] in H0;
        [|discriminate].
      destruct (strcmp pth SYSTEM_LD_SO =? 0) eqn:Es.
      * apply Z.eqb_eq, strcmp_zero in Es. subst pth.
        do 3 right. apply (D STATE_LD_SO).
        right. left. split; [exact Ef|]. split; [exact Eh|]. left. auto.
      * apply Z.eqb_neq in Es. rewrite strcmp_zero in Es.
        do 3 right. apply (D STATE_NORMAL).
        right. left. split; [exact Ef|]. split; [exact Eh|]. right.
        exists pth. auto.
    + assert (Hnf : state p <> STATE_FULL).
      { intros F. apply state_eqb_eq in F. rewrite F in Ef. discriminate. }
      do 3 right. apply (D (state p)).
      right. right. split; [lia|]. auto.
Qed.

(** C5.  The pattern test returns 1, 0 or -1.  It returns -1 exactly for
    a query in state FULL whose ELF flags carry the error flag.  A query
    that reaches the decision step with the entry classified as [st]
    returns 1 when the rule's pattern code names [st] and 0 when it does
    not, and hands the entry with that state to [clear_proc_info]; the
    classification is fixed by the entry and the event.  It returns 0 as
    well when the collecting phase has too little to go on, in which case
    the entry is left as it is, and for an entry without ELF flags, which
    becomes NOT_ELF.  These are all the ways it returns, and it returns in
    every case but one: state FULL without the error flag and without a
    first path.  In the loop of the subject check a pattern field whose
    test returns -1 ends the check with 1 (match), one whose test returns 0
    ends it with 0 (no match), and one whose test returns 1 hands over to
    the next field; the same holds for [check_subject] when the pattern
    field comes first. *)
Theorem C5_pattern_result_contract (s : subject_attr_t) (e : event_t)
    (pinfo : proc_info) :
  (forall rc p',
     subj_pattern_test s e pinfo = Ret (rc, p') ->
     (rc = 1 \/ rc = 0 \/ rc = -1) /\
     (rc = -1 <->
      state pinfo = STATE_FULL /\ Z.land (elf_info pinfo) HAS_ERROR <> 0) /\
     (rc = 1 ->
      exists st, p' = clear_proc_info (set_state pinfo st) /\
                 pattern_matches (subj_val s) st)) /\
  ((state pinfo = STATE_FULL -> Z.land (elf_info pinfo) HAS_ERROR = 0 ->
    path1 pinfo <> None) ->
   exists rc p', subj_pattern_test s e pinfo = Ret (rc, p')) /\
  (state_code (state pinfo) < state_code STATE_FULL ->
   elf_info pinfo <> 0 ->
   ~ (Z.land (elf_info pinfo) IS_ELF <> 0 /\ state pinfo = STATE_COLLECTING /\
      Z.land (elf_info pinfo) HAS_DYNAMIC = 0) ->
   state pinfo <> STATE_STATIC_PARTIAL ->
   ~ (Z.land (e_type e) FAN_OPEN_EXEC_PERM <> 0 /\
      path1 pinfo = Some SYSTEM_LD_SO) ->
   subj_pattern_test s e pinfo = Ret (0, pinfo)) /\
  (forall r todo cnt p',
     subj_type (s_at r cnt) = Some PATTERN ->
     (subj_pattern_test (s_at r cnt) e pinfo = Ret (-1, p') ->
      check_subject_from r e (S todo) cnt pinfo = Ret (1, p')) /\
     (subj_pattern_test (s_at r cnt) e pinfo = Ret (0, p') ->
      check_subject_from r e (S todo) cnt pinfo = Ret (0, p'))) /\
  (forall r p',
     (0 < s_count r)%nat ->
     subj_type (s_at r 0) = Some PATTERN ->
     (subj_pattern_test (s_at r 0) e pinfo = Ret (-1, p') ->
      check_subject r e pinfo = Ret (1, p')) /\
     (subj_pattern_test (s_at r 0) e pinfo = Ret (0, p') ->
      check_subject r e pinfo = Ret (0, p'))) /\
  (forall st,
     decision_reached pinfo e st ->
     exists rc,
       subj_pattern_test s e pinfo
       = Ret (rc, clear_proc_info (set_state pinfo st)) /\
       (pattern_matches (subj_val s) st -> rc = 1) /\
       (~ pattern_matches (subj_val s) st -> rc = 0)) /\
  (forall rc p',
     subj_pattern_test s e pinfo = Ret (rc, p') ->
     (rc = -1 /\ state pinfo = STATE_FULL /\
      Z.land (elf_info pinfo) HAS_ERROR <> 0 /\
      p' = clear_proc_info (set_state pinfo STATE_BAD_ELF)) \/
     (rc = 0 /\ p' = pinfo) \/
     (rc = 0 /\ elf_info pinfo = 0 /\
      p' = clear_proc_info (set_state pinfo STATE_NOT_ELF)) \/
     (exists st,
        decision_reached pinfo e st /\
        p' = clear_proc_info (set_state pinfo st) /\
        (rc = 1 \/ rc = 0) /\
        (rc = 1 <-> pattern_matches (subj_val s) st))) /\
  (forall r todo cnt p',
     subj_type (s_at r cnt) = Some PATTERN ->
     subj_pattern_test (s_at r cnt) e pinfo = Ret (1, p') ->
     check_subject_from r e (S todo) cnt pinfo
     = check_subject_from r e todo (S cnt) p').
Proof.
  split; [intros rc p'; apply subj_pattern_test_contract|].
  split; [apply subj_pattern_test_returns|].
  split; [apply subj_pattern_test_insufficient|].
  split.
  { intros r todo cnt p' Ht.
    rewrite (check_subject_from_pattern r e todo cnt pinfo Ht).
    split; intros ->; reflexivity. }
  split.
  { intros r p' Hc Ht. unfold check_subject.
    destruct (s_count r) as [|todo]; [lia|].
    rewrite (check_subject_from_pattern r e todo 0 pinfo Ht).
    split; intros ->; reflexivity. }
  split.
  { intros st Hr.
    destruct (pattern_decision_made s e pinfo st Hr) as (rc & E & Hb & Hm).
    exists rc. split; [exact E|]. split; [apply Hm|].
    intros Hn. destruct Hb as [-> | ->]; [|reflexivity].
    exfalso. apply Hn, Hm. reflexivity. }
  split; [intros rc p'; apply pattern_test_cases|].
  intros r todo cnt p' Ht E.
  rewrite (check_subject_from_pattern r e todo cnt pinfo Ht), E.
  reflexivity.
Qed.

End PatternContract.

(** ** Evaluating a rule twice *)

Section Evaluator.

Context {X : Collaborators}.

(** Without a pattern field the loop of [check_subject] never touches the
    pattern state: its result is one outcome, with the state it was given. *)
Lemma check_subject_from_pure (r : lnode) (e : event_t) (todo : nat) :
  forall cnt,
    (forall i, (cnt <= i < cnt + todo)%nat ->
               subj_type (s_at r i) <> Some PATTERN) ->
    exists o : outcome Z,
      forall p, check_subject_from r e todo cnt p = (rc <- o ;; Ret (rc, p)).
Proof.
  induction todo as [|todo IH]; intros cnt Hnp.
  - exists (Ret 1). reflexivity.
  - destruct (IH (S cnt)) as [o Ho]; [intros i Hi; apply Hnp; lia|].
    assert (Ht : subj_type (s_at r cnt) <> Some PATTERN) by (apply Hnp; lia).
    cbn [check_subject_from].
    destruct (subj_type (s_at r cnt)) as [type|]; [|now exists o].
    destruct (subject_type_eqb type ALL_SUBJ); [now exists o|].
    destruct (subject_type_eqb type PATTERN) eqn:Ep.
    { apply subject_type_eqb_eq in Ep. subst. contradiction. }
    destruct (get_subj_attr e type) as [subj|]; [|now exists o].
    destruct (subj_code COMM <=? subj_code type).
    + destruct (subj_str subj) as [str|]; [|now exists o].
      destruct (subject_type_eqb type EXE_DIR).
      * destruct (subj_dir_test (s_at r cnt) subj (is_subj_trusted e))
          as [rc| st |]; simpl.
        -- destruct (rc =? 0); [now exists (Ret 0) | now exists o].
        -- now exists (Exit st).
        -- now exists Fault.
      * destruct (subj_str (s_at r cnt)) as [rstr|]; simpl;
          [|now exists Fault].
        destruct (subject_type_eqb type EXE && (strcmp rstr "untrusted" =? 0)).
        -- destruct (is_subj_trusted e); [now exists (Ret 0) | now exists o].
        -- destruct (negb (strcmp str rstr =? 0));
             [now exists (Ret 0) | now exists o].
    + destruct (negb (subj_val subj =? subj_val (s_at r cnt)));
        [now exists (Ret 0) | now exists o].
Qed.

Lemma rule_evaluate_pure (r : lnode) (e : event_t) :
  no_pattern_field r ->
  exists o : outcome decision_t,
    forall p, rule_evaluate r e p = (d <- o ;; Ret (d, p)).
Proof.
  intros Hnp. unfold rule_evaluate, check_subject.
  destruct (check_subject_from_pure r e (s_count r) 0) as [o Ho].
  { intros i Hi. apply Hnp. lia. }
  destruct (check_access r e =? 0); [now exists (Ret NO_OPINION)|].
  destruct o as [rc| st |].
  - destruct (rc =? 0) eqn:E.
    + exists (Ret NO_OPINION). intros p. rewrite Ho. simpl. now rewrite E.
    + destruct (check_object r e) as [d| st |].
      * exists (Ret (if d =? 0 then NO_OPINION else r_d r)).
        intros p. rewrite Ho. simpl. rewrite E. simpl. now destruct (d =? 0).
      * exists (Exit st). intros p. rewrite Ho. simpl. now rewrite E.
      * exists Fault. intros p. rewrite Ho. simpl. now rewrite E.
  - exists (Exit st). intros p. now rewrite Ho.
  - exists Fault. intros p. now rewrite Ho.
Qed.

(** C9, as the code has it.  [rule_evaluate] reads the rule and returns
    a decision and a pattern state; the rule is an argument only.  For a
    rule with no pattern-typed subject field the outcome of a call depends
    on the rule and the event alone and the pattern state of the subject is
    handed back as it was, so that a second call on the same event returns
    the same decision as the first.  (With a pattern field the first call
    advances the pattern state, and nothing is said here.) *)
Theorem C9_same_decision_without_pattern (r : lnode) (e : event_t)
    (Hnp : no_pattern_field r) :
  exists o : outcome decision_t,
    (forall p, rule_evaluate r e p = (d <- o ;; Ret (d, p))) /\
    (forall p, evaluate_twice r e p = (d <- o ;; Ret (d, d, p))) /\
    (forall p d p1,
       rule_evaluate r e p = Ret (d, p1) ->
       p1 = p /\
       rule_evaluate r e p1 = Ret (d, p1) /\
       evaluate_twice r e p = Ret (d, d, p)).
Proof.
  destruct (rule_evaluate_pure r e Hnp) as [o Ho].
  exists o. split; [exact Ho|].
  assert (T : forall p, evaluate_twice r e p = (d <- o ;; Ret (d, d, p))).
  { intros p. unfold evaluate_twice. rewrite Ho.
    destruct o as [d0| st |]; simpl; try reflexivity.
    rewrite Ho. reflexivity. }
  split; [exact T|].
  intros p d p1 Hfirst. rewrite Ho in Hfirst.
  destruct o as [d0| st |]; simpl in Hfirst; try discriminate.
  injection Hfirst as <- <-.
  rewrite T, Ho. repeat split.
Qed.

End Evaluator.

(** ** The rule store and the order of evaluation *)

Section Store.

Context {X : Collaborators}.

Lemma check_subject_from_num (r : lnode) (k : Z) (e : event_t) (todo : nat) :
  forall cnt p,
    check_subject_from (with_num r k) e todo cnt p
    = check_subject_from r e todo cnt p.
Proof.
  induction todo as [|todo IH]; intros cnt p; [reflexivity|].
  cbn [check_subject_from].
  change (s_at (with_num r k) cnt) with (s_at r cnt).
  destruct (subj_type (s_at r cnt)) as [type|]; [|apply IH].
  destruct (subject_type_eqb type ALL_SUBJ); [apply IH|].
  destruct (get_subj_attr e type) as [subj|];
    destruct (subject_type_eqb type PATTERN); try apply IH.
  - destruct (subj_pattern_test (s_at r cnt) e p) as [[rc p']| |];
      simpl; try reflexivity.
    destruct (rc =? 0); [reflexivity|].
    destruct (rc =? -1); [reflexivity | apply IH].
  - destruct (subj_code COMM <=? subj_code type).
    + destruct (subj_str subj) as [str|]; [|apply IH].
      destruct (subject_type_eqb type EXE_DIR).
      * destruct (subj_dir_test (s_at r cnt) subj (is_subj_trusted e));
          simpl; try reflexivity.
        destruct (a =? 0); [reflexivity | apply IH].
      * destruct (subj_str (s_at r cnt)) as [rstr|]; simpl; [|reflexivity].
        destruct (subject_type_eqb type EXE && (strcmp rstr "untrusted" =? 0)).
        -- destruct (is_subj_trusted e); [reflexivity | apply IH].
        -- destruct (negb (strcmp str rstr =? 0)); [reflexivity | apply IH].
    + destruct (negb (subj_val subj =? subj_val (s_at r cnt)));
        [reflexivity | apply IH].
  - destruct (subj_pattern_test (s_at r cnt) e p) as [[rc p']| |];
      simpl; try reflexivity.
    destruct (rc =? 0); [reflexivity|].
    destruct (rc =? -1); [reflexivity | apply IH].
Qed.

Lemma check_object_from_num (r : lnode) (k : Z) (e : event_t) (todo : nat) :
  forall cnt,
    check_object_from (with_num r k) e todo cnt = check_object_from r e todo cnt.
Proof.
  induction todo as [|todo IH]; intros cnt; [reflexivity|].
  cbn [check_object_from].
  change (o_at (with_num r k) cnt) with (o_at r cnt).
  change (paired_subject_untrusted (with_num r k) cnt)
    with (paired_subject_untrusted r cnt).
  now rewrite IH.
Qed.

(** The index of a rule plays no part in its evaluation. *)
Lemma rule_evaluate_num (r : lnode) (k : Z) (e : event_t) (p : proc_info) :
  rule_evaluate (with_num r k) e p = rule_evaluate r e p.
Proof.
  unfold rule_evaluate, check_subject, check_object, check_access.
  cbn [s_count o_count r_a r_d with_num].
  rewrite check_subject_from_num, check_object_from_num.
  reflexivity.
Qed.

(** A line that parses is linked in at the tail, under the index [cnt]. *)
Lemma rules_append_tail (l : llist) (buf : string) (lineno : Z) (R : lnode) :
  nv_split buf fresh_node lineno = Ret (0, R) ->
  rules_append l (Some buf) lineno
  = Ret (0, mk_llist (nodes l ++ [with_num R (cnt l)])
                     (Some (List.length (nodes l)))
                     ((cnt l + 1) mod UINT_MOD)).
Proof.
  intros H. unfold rules_append. rewrite H. cbn [bind].
  change (negb (0 =? 0)) with false. cbv iota.
  destruct l as [ns c k]. unfold rules_last. now destruct ns.
Qed.

(** C4.  Appending a line that parses puts its rule at the tail of the
    store under the index [cnt], makes it the current node and increments
    [cnt].  Let R1 and R2 be what two rule lines parse to, R1 deciding deny
    and R2 deciding allow, each of them matching the event E.  Appending
    the first line to the empty store and then the second gives the store
    R1, R2 in that order with the indices 0 and 1 and the count 2, and the
    walk over that store in store order returns deny for E. *)
Theorem C4_first_match_in_append_order :
  (forall l buf lineno R,
     nv_split buf fresh_node lineno = Ret (0, R) ->
     exists l',
       rules_append l (Some buf) lineno = Ret (0, l') /\
       nodes l' = (nodes l ++ [with_num R (cnt l)])%list /\
       r_num (with_num R (cnt l)) = cnt l /\
       cnt l' = (cnt l + 1) mod UINT_MOD /\
       rules_get_cur l' = Some (with_num R (cnt l))) /\
  (forall buf1 buf2 ln1 ln2 R1 R2 e pinfo pinfo1 pinfo2,
     nv_split buf1 fresh_node ln1 = Ret (0, R1) ->
     nv_split buf2 fresh_node ln2 = Ret (0, R2) ->
     r_d R1 = DENY -> r_d R2 = ALLOW ->
     rule_evaluate R1 e pinfo = Ret (DENY, pinfo1) ->
     rule_evaluate R2 e pinfo = Ret (ALLOW, pinfo2) ->
     exists l1 l2,
       rules_append rules_create (Some buf1) ln1 = Ret (0, l1) /\
       rules_append l1 (Some buf2) ln2 = Ret (0, l2) /\
       nodes l1 = [with_num R1 0] /\ cnt l1 = 1 /\
       nodes l2 = [with_num R1 0; with_num R2 1] /\ cnt l2 = 2 /\
       r_num (with_num R1 0) = 0 /\ r_num (with_num R2 1) = 1 /\
       walk l2 e pinfo = Ret (DENY, pinfo1)).
Proof.
  split.
  - intros l buf lineno R H. eexists.
    split; [apply (rules_append_tail l buf lineno R H)|].
    cbn [nodes cnt]. repeat split.
    unfold rules_get_cur. cbn [cur nodes].
    rewrite nth_error_app2, Nat.sub_diag; [reflexivity | apply Nat.le_refl].
  - intros buf1 buf2 ln1 ln2 R1 R2 e pinfo pinfo1 pinfo2
      Hparse1 Hparse2 Hdeny Hallow Hmatch1 Hmatch2.
    eexists; eexists.
    split; [apply (rules_append_tail rules_create buf1 ln1 R1 Hparse1)|].
    split; [apply rules_append_tail; exact Hparse2|].
    cbn [nodes cnt rules_create app].
    repeat split.
    unfold walk, rules_first, rules_get_cur. cbn [nodes cur cnt List.length].
    cbn [nth_error walk_from].
    change ((0 + 1) mod UINT_MOD) with 1.
    rewrite rule_evaluate_num, Hmatch1. reflexivity.
Qed.

End Store.

(** ** The parser: skipped lines, failed lines, unknown users *)

Lemma strtok_all_blanks (k : nat) (s : string) :
  strtok_all (blanks k ++ s) = strtok_all s.
Proof.
  unfold strtok_all. induction k as [|k IH]; [reflexivity|].
  simpl. exact IH.
Qed.

Lemma strtok_all_only_blanks (k : nat) : strtok_all (blanks k) = [].
Proof.
  unfold strtok_all. induction k as [|k IH]; [reflexivity|].
  simpl. exact IH.
Qed.


Section Parser.

Context {X : Collaborators}.




(** C1, as the code has it.  For a [uid] or [auid] field whose value does
    not begin with a digit and is not a name the account database knows,
    [assign_subject] ends the process with exit status 1; it does not
    return an error code.  So does [rules_append] on a line whose first
    field after the decision is such a field: no failure is reported for
    the rule. *)
Theorem C1_unknown_user_ends_process (type : subject_type_t) (name : string)
    (lineno : Z)
    (Htype : type = UID \/ type = AUID)
    (Hnumeric : subj_code type < subj_code COMM)
    (Hnodigit : starts_with_digit name = false)
    (Hunknown : getpwnam name = None) :
  (forall n, (s_count n < MAX_FIELDS)%nat ->
     assign_subject n type name lineno = Exit 1) /\
  (forall l buf dec field toks d key,
     (0 < MAX_FIELDS)%nat ->
     strtok_all buf = dec :: field :: toks ->
     first_char dec <> "#"%char ->
     dec_name_to_val dec = Some d ->
     cut_at "=" field = Some (key, name) ->
     (has_char ":" buf = true -> key <> "perm") ->
     subj_name_to_val key
       (if has_char ":" buf then 2 else rformat_code RULE_FMT_ORIG)
       = Some type ->
     rules_append l (Some buf) lineno = Exit 1).
Proof.
  assert (A : forall n, (s_count n < MAX_FIELDS)%nat ->
                assign_subject n type name lineno = Exit 1).
  { intros n Hroom. unfold assign_subject.
    apply Nat.leb_gt in Hroom. rewrite Hroom.
    assert (E : (subj_code COMM <=? subj_code type) = false)
      by (apply Z.leb_gt; exact Hnumeric).
    rewrite E, Hnodigit, Hunknown.
    destruct Htype as [-> | ->]; reflexivity. }
  split; [exact A|].
  intros l buf dec field toks d key Hmax Htok Hhash Hdec Hcut Hperm Hname.
  unfold rules_append, nv_split. rewrite Htok.
  apply Ascii.eqb_neq in Hhash. rewrite Hhash, Hdec.
  cbn [nv_split_fields]. rewrite Hcut.
  destruct (has_char ":" buf).
  - assert (Ep : (strcmp key "perm" =? 0) = false).
    { rewrite strcmp_eqb. apply String.eqb_neq. now apply Hperm. }
    rewrite Ep, Hname, A; [reflexivity | exact Hmax].
  - rewrite Hname, A; [reflexivity | exact Hmax].
Qed.

End Parser.

(** ** The functions run on concrete lines and events *)

Lemma C6_full_state_witness :
  state full_ld_so = STATE_FULL /\
  exists rc st,
    subj_pattern_test (X:=sample) (s_at deny_ld_so_rule 0) sample_event full_ld_so
    = Ret (rc, @clear_proc_info sample (set_state full_ld_so st)) /\
    (st = STATE_LD_SO <-> "/usr/lib64/ld-2.27.so" = @SYSTEM_LD_SO sample) /\
    (st = STATE_NORMAL <-> "/usr/lib64/ld-2.27.so" <> @SYSTEM_LD_SO sample) /\
    (rc = 1 \/ rc = 0) /\
    (rc = 1 <-> pattern_matches (subj_val (s_at deny_ld_so_rule 0)) st).
Proof.
  split; [reflexivity|].
  apply (proj2 (C6_full_state_classification (X:=sample)
                  (s_at deny_ld_so_rule 0) sample_event full_ld_so eq_refl));
    reflexivity.
Defined.

Lemma C5_pattern_result_witness :
  (exists rc p',
     subj_pattern_test (X:=sample) (s_at deny_ld_so_rule 0) sample_event
       partial_dynamic = Ret (rc, p') /\
     (rc = 1 \/ rc = 0 \/ rc = -1)) /\
  subj_pattern_test (X:=sample) (s_at deny_ld_so_rule 0) sample_event
    partial_dynamic = Ret (0, partial_dynamic) /\
  check_subject (X:=sample) deny_ld_so_rule sample_event partial_dynamic
  = Ret (0, partial_dynamic) /\
  subj_pattern_test (X:=sample) (s_at deny_ld_so_rule 0) sample_event
    full_ld_so
  = Ret (1, @clear_proc_info sample (set_state full_ld_so STATE_LD_SO)) /\
  subj_pattern_test (X:=sample) (s_at deny_static_rule 0) sample_event
    full_ld_so
  = Ret (0, @clear_proc_info sample (set_state full_ld_so STATE_LD_SO)).
Proof.
  destruct (C5_pattern_result_contract (X:=sample) (s_at deny_ld_so_rule 0)
              sample_event partial_dynamic) as (A & B & C & _ & E & _).
  assert (H0 : subj_pattern_test (X:=sample) (s_at deny_ld_so_rule 0)
                 sample_event partial_dynamic = Ret (0, partial_dynamic)).
  { apply C.
    - vm_compute. reflexivity.
    - discriminate.
    - intros (_ & H & _). discriminate.
    - discriminate.
    - intros (_ & H). discriminate. }
  assert (R : decision_reached (X:=sample) full_ld_so sample_event
                STATE_LD_SO).
  { right. left. split; [reflexivity|]. split; [reflexivity|].
    left. split; reflexivity. }
  split; [|split; [|split; [|split]]].
  - destruct B as (rc & p' & H); [discriminate|].
    exists rc, p'. split; [exact H | apply (A rc p' H)].
  - exact H0.
  - apply (E deny_ld_so_rule partial_dynamic);
      [vm_compute; lia | reflexivity | exact H0].
  - destruct (C5_pattern_result_contract (X:=sample) (s_at deny_ld_so_rule 0)
                sample_event full_ld_so) as (_ & _ & _ & _ & _ & F & _).
    destruct (F STATE_LD_SO R) as (rc & E1 & M & _).
    rewrite E1, (M ltac:(vm_compute; tauto)). reflexivity.
  - destruct (C5_pattern_result_contract (X:=sample) (s_at deny_static_rule 0)
                sample_event full_ld_so) as (_ & _ & _ & _ & _ & F & _).
    destruct (F STATE_LD_SO R) as (rc & E1 & _ & M).
    rewrite E1, M; [reflexivity|].
    vm_compute. intuition discriminate.
Defined.

(** The second of two evaluations in succession gives another decision:
    a rule with [pattern=ld_so] on a subject whose ELF analysis failed
    (first DENY through the -1 of the pattern test, then NO_OPINION), and
    a rule with [pattern=static] on the first event of a static program
    (first DENY, then NO_OPINION). *)
Lemma C9_second_evaluation_differs :
  nv_split (X:=sample) "deny perm=any pattern=ld_so : all"
    (fresh_node (X:=sample)) 1 = Ret (0, deny_ld_so_rule) /\
  evaluate_twice (X:=sample) deny_ld_so_rule sample_event full_bad_elf
  = Ret (DENY, NO_OPINION, mk_proc_info STATE_BAD_ELF None None 3) /\
  nv_split (X:=sample) "deny perm=any pattern=static : all"
    (fresh_node (X:=sample)) 1 = Ret (0, deny_static_rule) /\
  evaluate_twice (X:=sample) deny_static_rule sample_event collecting_static
  = Ret (DENY, NO_OPINION, mk_proc_info STATE_STATIC_REOPEN None None 1) /\
  ~ (forall (r : lnode) (e : event_t) (p : proc_info) d1 d2 p2,
       evaluate_twice (X:=sample) r e p = Ret (d1, d2, p2) -> d1 = d2).
Proof.
  assert (H : evaluate_twice (X:=sample) deny_ld_so_rule sample_event
                full_bad_elf
              = Ret (DENY, NO_OPINION, mk_proc_info STATE_BAD_ELF None None 3))
    by (vm_compute; reflexivity).
  split; [vm_compute; reflexivity|].
  split; [exact H|].
  split; [vm_compute; reflexivity|].
  split; [vm_compute; reflexivity|].
  intros F. specialize (F _ _ _ _ _ _ H). discriminate.
Qed.

Lemma C9_same_decision_witness :
  no_pattern_field deny_uid_rule /\
  rule_evaluate (X:=sample) deny_uid_rule sample_event full_bad_elf
  = Ret (DENY, full_bad_elf) /\
  evaluate_twice (X:=sample) deny_uid_rule sample_event full_bad_elf
  = Ret (DENY, DENY, full_bad_elf).
Proof.
  assert (Hnp : no_pattern_field deny_uid_rule).
  { intros i Hi. destruct i; [discriminate|]. simpl in Hi. lia. }
  assert (H : rule_evaluate (X:=sample) deny_uid_rule sample_event full_bad_elf
              = Ret (DENY, full_bad_elf)) by (vm_compute; reflexivity).
  split; [exact Hnp|]. split; [exact H|].
  destruct (C9_same_decision_without_pattern (X:=sample) deny_uid_rule
              sample_event Hnp) as (o & _ & _ & T).
  apply (T full_bad_elf DENY full_bad_elf H).
Defined.

Lemma C4_first_match_witness :
  exists l1 l2,
    rules_append (X:=sample) rules_create
      (Some "deny perm=any uid=1000 : all") 1 = Ret (0, l1) /\
    rules_append (X:=sample) l1 (Some "allow perm=any all : all") 2
    = Ret (0, l2) /\
    nodes l1 = [with_num deny_uid_rule 0] /\ cnt l1 = 1 /\
    nodes l2 = [with_num deny_uid_rule 0; with_num allow_all_rule 1] /\
    cnt l2 = 2 /\
    r_num (with_num deny_uid_rule 0) = 0 /\
    r_num (with_num allow_all_rule 1) = 1 /\
    walk (X:=sample) l2 sample_event full_ld_so = Ret (DENY, full_ld_so).
Proof.
  apply (proj2 (C4_first_match_in_append_order (X:=sample))
           "deny perm=any uid=1000 : all" "allow perm=any all : all" 1 2
           deny_uid_rule allow_all_rule sample_event
           full_ld_so full_ld_so full_ld_so);
    vm_compute; reflexivity.
Defined.


(** A line with an unknown user name ends the process; [rules_append]
    returns nothing, so no failure is reported for the rule. *)
Lemma C1_unknown_user_is_no_rule_failure :
  rules_append (X:=sample) rules_create (Some "deny uid=nosuchuser path=/x") 1
  = Exit 1 /\
  rules_append (X:=sample) rules_create
    (Some "deny perm=open auid=nosuchuser : all") 1 = Exit 1 /\
  ~ (exists l, rules_append (X:=sample) rules_create
                 (Some "deny uid=nosuchuser path=/x") 1 = Ret (1, l)).
Proof.
  split; [vm_compute; reflexivity|].
  split; [vm_compute; reflexivity|].
  intros [l H]. vm_compute in H. discriminate.
Qed.

Lemma C1_unknown_user_witness :
  assign_subject (X:=sample) (fresh_node (X:=sample)) UID "nosuchuser" 1
  = Exit 1 /\
  rules_append (X:=sample) rules_create (Some "deny uid=nosuchuser path=/x") 1
  = Exit 1.
Proof.
  destruct (C1_unknown_user_ends_process (X:=sample) UID "nosuchuser" 1)
    as [A B].
  - now left.
  - vm_compute. reflexivity.
  - reflexivity.
  - reflexivity.
  - split.
    + apply A. vm_compute. lia.
    + apply (B rules_create "deny uid=nosuchuser path=/x" "deny"
               "uid=nosuchuser" ["path=/x"] DENY "uid");
        try reflexivity; try discriminate.
      vm_compute. lia.
Defined.

(** C2, the code at fault.  [assign_subject] knows [ld_so] (code 1) and
    [static] (code 2) and has no case for [normal]: the value is reported
    as unknown with the result 2 and the field is not counted.  A rule whose
    only subject field is [pattern=normal] is refused for want of a subject;
    next to another subject field the line is accepted and the pattern
    field is gone.  The result 2 is never looked at by [nv_split], so any
    other unknown pattern value is dropped in the same way and the line
    is accepted. *)
Theorem C2_pattern_normal_not_accepted :
  (exists n,
     assign_subject (X:=sample) (fresh_node (X:=sample)) PATTERN "normal" 1
     = Ret (2, n) /\ s_count n = 0%nat) /\
  (exists n,
     assign_subject (X:=sample) (fresh_node (X:=sample)) PATTERN "ld_so" 1
     = Ret (0, n) /\ s_count n = 1%nat /\ subj_val (s_at n 0) = 1) /\
  (exists n,
     assign_subject (X:=sample) (fresh_node (X:=sample)) PATTERN "static" 1
     = Ret (0, n) /\ s_count n = 1%nat /\ subj_val (s_at n 0) = 2) /\
  rules_append (X:=sample) rules_create
    (Some "deny perm=any pattern=normal : all") 1 = Ret (1, rules_create) /\
  rules_append (X:=sample) rules_create
    (Some "deny perm=any pattern=normal uid=1000 : all") 1
  = Ret (0, mk_llist [deny_uid_rule] (Some 0%nat) 1) /\
  rules_append (X:=sample) rules_create
    (Some "deny perm=any pattern=bogus uid=1000 : all") 1
  = Ret (0, mk_llist [deny_uid_rule] (Some 0%nat) 1).
Proof.
  repeat split; try (eexists; repeat split); vm_compute; reflexivity.
Qed.

(** * Further properties of rules.c *)

(** ** The store: iteration and bookkeeping *)

Lemma advance_cur (l : llist) (k : nat) :
  nodes (advance k (rules_first l)) = nodes l /\
  cnt (advance k (rules_first l)) = cnt l /\
  cur (advance k (rules_first l))
  = if (k <? List.length (nodes l))%nat then Some k else None.
Proof.
  induction k as [|k (Hn & Hc & Hcur)].
  - simpl. destruct (nodes l); repeat split.
  - cbn [advance]. unfold rules_next. rewrite Hcur.
    destruct (k <? List.length (nodes l))%nat eqn:E; cbn [snd nodes cnt cur].
    + rewrite Hn, Hc. repeat split.
    + rewrite Hn, Hc, Hcur. repeat split.
      apply Nat.ltb_ge in E.
      destruct (S k <? List.length (nodes l))%nat eqn:E'; [|reflexivity].
      apply Nat.ltb_lt in E'. lia.
Qed.

(** X1.  Iteration.  After [rules_first], the current node is the head,
    and the [k]-th call of [rules_next] returns the node at position [k]
    of the list, for as long as there is one; from then on it returns
    [NULL].  Iterating changes neither the nodes nor the count. *)
Theorem rules_iteration_in_order (l : llist) (k : nat) :
  rules_get_cur (advance k (rules_first l)) = nth_error (nodes l) k /\
  fst (rules_next (advance k (rules_first l))) = nth_error (nodes l) (S k) /\
  nodes (advance k (rules_first l)) = nodes l /\
  cnt (advance k (rules_first l)) = cnt l.
Proof.
  assert (G : forall j, rules_get_cur (advance j (rules_first l))
                        = nth_error (nodes l) j).
  { intros j. destruct (advance_cur l j) as (Hn & _ & Hcur).
    unfold rules_get_cur. rewrite Hcur, Hn.
    destruct (j <? List.length (nodes l))%nat eqn:E; [reflexivity|].
    apply Nat.ltb_ge in E. symmetry. now apply nth_error_None. }
  destruct (advance_cur l k) as (Hn & Hc & Hcur).
  split; [apply G|]. split; [|now split].
  rewrite <- (G (S k)). cbn [advance].
  unfold rules_next at 1. unfold rules_next at 1.
  rewrite Hcur.
  destruct (k <? List.length (nodes l))%nat; [reflexivity|].
  cbn [fst snd]. unfold rules_get_cur. now rewrite Hcur.
Qed.

Section StoreBookkeeping.

Context {X : Collaborators}.

Lemma rules_last_keeps (l : llist) :
  nodes (rules_last l) = nodes l /\ cnt (rules_last l) = cnt l.
Proof. destruct l as [ns c k]. unfold rules_last. now destruct ns. Qed.

(** What [rules_append] can return. *)
Lemma rules_append_cases (l : llist) (buf : option string) (lineno rc : Z)
    (l' : llist) :
  rules_append l buf lineno = Ret (rc, l') ->
  (l' = l /\ (rc = 0 \/ rc = 1)) \/
  (rc = 0 /\ exists b R,
     buf = Some b /\ nv_split b fresh_node lineno = Ret (0, R) /\
     l' = mk_llist (nodes l ++ [with_num R (cnt l)])
                   (Some (List.length (nodes l)))
                   ((cnt l + 1) mod UINT_MOD)).
Proof.
  unfold rules_append. destruct buf as [b|].
  - destruct (nv_split b fresh_node lineno) as [[rc0 R]| |] eqn:E;
      cbn [bind]; try discriminate.
    destruct (rc0 =? 0) eqn:E0; cbn [negb].
    + apply Z.eqb_eq in E0. subst rc0.
      destruct (rules_last_keeps l) as [-> ->].
      intros H. injection H as <- <-. right. split; [reflexivity|].
      now exists b, R.
    + destruct (rc0 <? 0); intros H; injection H as <- <-; left; auto.
  - intros H. injection H as <- <-. left. auto.
Qed.

(** X2.  [rules_append] returns 0 or 1 and never anything else; when it
    returns 1, and when it is given no line, the store is left as it was;
    and when it changes the store it adds one node at the tail, which
    becomes the current node and carries the old count as index, while the
    nodes that were there stay where and what they were. *)
Theorem rules_append_only_adds_at_tail (l : llist) (buf : option string)
    (lineno rc : Z) (l' : llist)
    (H : rules_append l buf lineno = Ret (rc, l')) :
  (rc = 0 \/ rc = 1) /\
  (rc = 1 -> l' = l) /\
  (buf = None -> rc = 1 /\ l' = l) /\
  (forall i n, nth_error (nodes l) i = Some n ->
               nth_error (nodes l') i = Some n) /\
  (l' = l \/
   exists R, nodes l' = (nodes l ++ [R])%list /\ r_num R = cnt l /\
             rules_get_cur l' = Some R /\
             cnt l' = (cnt l + 1) mod UINT_MOD).
Proof.
  assert (Hnone : buf = None -> rc = 1 /\ l' = l).
  { intros ->. cbn in H. injection H as <- <-. auto. }
  destruct (rules_append_cases l buf lineno rc l' H)
    as [[-> Hrc] | [-> (b & R & -> & _ & ->)]].
  - split; [exact Hrc|]. split; [reflexivity|]. split; [exact Hnone|].
    split; [intros i n Hi; exact Hi | now left].
  - split; [auto|]. split; [discriminate|]. split; [exact Hnone|].
    cbn [nodes cnt]. split.
    + intros i n Hi. rewrite nth_error_app1; [exact Hi|].
      apply nth_error_Some. now rewrite Hi.
    + right. exists (with_num R (cnt l)). repeat split.
      unfold rules_get_cur. cbn [cur nodes].
      rewrite nth_error_app2, Nat.sub_diag; [reflexivity | apply Nat.le_refl].
Qed.

Lemma store_ok_append (l : llist) (buf : option string) (lineno rc : Z)
    (l' : llist) :
  store_ok l -> rules_append l buf lineno = Ret (rc, l') -> store_ok l'.
Proof.
  intros (Hc & Hnum & Hcur) H.
  destruct (rules_append_cases l buf lineno rc l' H)
    as [[-> _] | [_ (b & R & _ & _ & ->)]]; [now repeat split|].
  unfold store_ok. cbn [nodes cnt cur].
  rewrite length_app. cbn [List.length].
  split; [|split].
  - rewrite Hc, Nat2Z.inj_add.
    change (Z.of_nat 1) with 1.
    apply Z.add_mod_idemp_l. discriminate.
  - intros i n Hi.
    destruct (Nat.lt_ge_cases i (List.length (nodes l))) as [Hlt | Hge].
    + rewrite nth_error_app1 in Hi by exact Hlt. now apply Hnum.
    + rewrite nth_error_app2 in Hi by exact Hge.
      destruct (i - List.length (nodes l))%nat as [|j] eqn:Ej.
      * injection Hi as <-. cbn [r_num with_num].
        rewrite Hc. f_equal. f_equal. lia.
      * destruct j; discriminate.
  - intros i Hi. injection Hi as <-. lia.
Qed.

(** X3.  Whatever sequence of [rules_create], [rules_first],
    [rules_next], [rules_append] and [rules_clear] built the store, its
    count is the number of its nodes, the node at position [i] has the
    index [i], and the current node, when there is one, is a node of the
    list.  (Counts and indices are [unsigned int]: below 2^32 nodes they
    are the plain numbers.) *)
Theorem built_store_is_numbered (l : llist) (Hbuilt : built l) :
  store_ok l /\
  (Z.of_nat (List.length (nodes l)) < UINT_MOD ->
   cnt l = Z.of_nat (List.length (nodes l)) /\
   forall i n, nth_error (nodes l) i = Some n -> r_num n = Z.of_nat i).
Proof.
  assert (Hok : store_ok l).
  { induction Hbuilt as [| l _ IH | l _ IH | l buf lineno rc l' _ IH H
                           | l _ IH].
    - repeat split; try discriminate. intros [|i] n; discriminate.
    - destruct IH as (Hc & Hnum & Hcur). unfold rules_first.
      repeat split; cbn [nodes cnt cur]; auto.
      intros i. destruct (nodes l); [discriminate|].
      intros Hi. injection Hi as <-. simpl. lia.
    - destruct IH as (Hc & Hnum & Hcur). unfold rules_next.
      destruct (cur l) as [i|] eqn:Ei; cbn [snd];
        [|repeat split; auto; now rewrite Ei].
      repeat split; cbn [nodes cnt cur]; auto.
      intros j. destruct (S i <? List.length (nodes l))%nat eqn:E;
        [|discriminate].
      intros Hj. injection Hj as <-. now apply Nat.ltb_lt.
    - exact (store_ok_append l buf lineno rc l' IH H).
    - repeat split; try discriminate. intros [|i] n; discriminate. }
  split; [exact Hok|].
  intros Hsmall. destruct Hok as (Hc & Hnum & _).
  split.
  - rewrite Hc. apply Z.mod_small. lia.
  - intros i n Hi. rewrite (Hnum i n Hi). apply Z.mod_small.
    assert (i < List.length (nodes l))%nat
      by (apply nth_error_Some; now rewrite Hi).
    lia.
Qed.

End StoreBookkeeping.

(** ** The parser: what a parsed node looks like *)

Lemma update_length {A : Type} (l : list A) (i : nat) (f : A -> A) :
  List.length (update l i f) = List.length l.
Proof.
  revert i; induction l as [|x l IH]; intros [|i]; simpl; auto.
Qed.

Lemma nth_update_same {A : Type} (l : list A) (i : nat) (f : A -> A) (d : A) :
  (i < List.length l)%nat -> nth i (update l i f) d = f (nth i l d).
Proof.
  revert i; induction l as [|x l IH]; intros [|i] H; simpl in *;
    try lia; auto.
  apply IH. lia.
Qed.

Lemma nth_update_other {A : Type} (l : list A) (i j : nat) (f : A -> A) (d : A) :
  j <> i -> nth j (update l i f) d = nth j l d.
Proof.
  revert i j; induction l as [|x l IH]; intros [|i] [|j] H; simpl;
    try reflexivity; try contradiction.
  apply IH. congruence.
Qed.

Section ParsedNodes.

Context {X : Collaborators}.

Lemma assign_subject_result (n : lnode) (type : subject_type_t)
    (ptr2 : string) (lineno rc : Z) (n' : lnode) :
  assign_subject n type ptr2 lineno = Ret (rc, n') ->
  (s_count n < MAX_FIELDS)%nat /\
  same_head n n' /\ r_o n' = r_o n /\ o_count n' = o_count n /\
  ((rc = 0 /\ s_count n' = S (s_count n)) \/
   (rc = 2 /\ s_count n' = s_count n)) /\
  exists f, r_s n' = update (r_s n) (s_count n) f /\
            forall x, subj_type (f x) = Some type /\
                      (subj_code COMM <= subj_code type ->
                       subj_str (f x) = Some ptr2).
Proof.
  unfold assign_subject, subject_assigned.
  destruct (MAX_FIELDS <=? s_count n)%nat eqn:Eroom; [discriminate|].
  apply Nat.leb_gt in Eroom.
  set (i := s_count n).
  assert (U : forall (l : list subject_attr_t) g h,
             update (update l i g) i h = update l i (fun x => h (g x))).
  { intros l g h. generalize i. induction l as [|x l IH]; intros [|j];
      simpl; auto. now rewrite IH. }
  destruct (subj_code COMM <=? subj_code type) eqn:Ecomm.
  - intros H. injection H as <- <-. cbn. rewrite U.
    repeat split; auto.
    eexists. split; [reflexivity|]. intros x. now split.
  - assert (Hnum : ~ subj_code COMM <= subj_code type)
      by (apply Z.leb_gt in Ecomm; lia).
    destruct (subject_type_eqb type PATTERN).
    { destruct (strcmp ptr2 PATTERN_LD_SO_STR =? 0);
        [|destruct (strcmp ptr2 PATTERN_STATIC_STR =? 0)];
        intros H; injection H as <- <-; cbn; rewrite ?U;
        (repeat split; auto);
        eexists; (split; [reflexivity|]); intros x;
        (split; [reflexivity | intros F; contradiction]). }
    destruct (starts_with_digit ptr2).
    { destruct (strtol10 ptr2) as [v errno].
      destruct errno; intros H; injection H as <- <-; cbn; rewrite ?U;
        (repeat split; auto);
        eexists; (split; [reflexivity|]); intros x;
        (split; [reflexivity | intros F; contradiction]). }
    destruct (subject_type_eqb type AUID || subject_type_eqb type UID).
    { destruct (getpwnam ptr2); [|discriminate].
      intros H; injection H as <- <-; cbn; rewrite ?U;
        (repeat split; auto);
        eexists; (split; [reflexivity|]); intros x;
        (split; [reflexivity | intros F; contradiction]). }
    intros H; injection H as <- <-; cbn;
      (repeat split; auto);
      eexists; (split; [reflexivity|]); intros x;
      (split; [reflexivity | intros F; contradiction]).
Qed.

Lemma assign_object_result (n : lnode) (type : object_type_t)
    (ptr2 : string) (lineno rc : Z) (n' : lnode) :
  assign_object n type ptr2 lineno = Ret (rc, n') ->
  (o_count n < MAX_FIELDS)%nat /\
  same_head n n' /\ r_s n' = r_s n /\ s_count n' = s_count n /\
  rc = 0 /\ o_count n' = S (o_count n) /\
  r_o n' = update (r_o n) (o_count n)
             (fun _ => mk_object_attr (Some type) (Some ptr2)
                         (if object_type_eqb type ODIR
                          then Z.of_nat (strlen ptr2) else 0)).
Proof.
  unfold assign_object.
  destruct (MAX_FIELDS <=? o_count n)%nat eqn:Eroom; [discriminate|].
  apply Nat.leb_gt in Eroom.
  set (i := o_count n).
  assert (U : forall (l : list object_attr_t) g h,
             update (update l i g) i h = update l i (fun x => h (g x))).
  { intros l g h. generalize i. induction l as [|x l IH]; intros [|j];
      simpl; auto. now rewrite IH. }
  intros H. injection H as <- <-.
  destruct (object_type_eqb type ODIR); cbn; rewrite !U;
    repeat split; auto.
Qed.

(** A property [P] of the node that the field assignments keep is kept by
    the two parsing loops, and a property [Q] of the result that holds at
    each [return] of [nv_split] holds for what it returns. *)
Section Loops.

Variable P : lnode -> Prop.
Variable Q : Z -> lnode -> Prop.
Variable format : rformat_t.

Hypothesis P_subject : forall n t v ln rc n',
  P n -> assign_subject n t v ln = Ret (rc, n') -> P n'.
Hypothesis P_object : forall n t v ln rc n',
  P n -> assign_object n t v ln = Ret (rc, n') -> P n'.
Hypothesis P_access : format = RULE_FMT_COLON ->
  forall n a, P n -> P (with_a n a).
Hypothesis Q_error : forall c n,
  P n -> c = 1 \/ c = 2 \/ c = 3 \/ c = 4 \/ c = 5 -> Q c n.
Hypothesis Q_finish : forall n rc n',
  P n -> finish_up n = Ret (rc, n') -> Q rc n'.

Lemma parse_new_format_keeps (toks : list string) :
  forall state n lineno rc n',
    P n -> parse_new_format toks state n lineno = Ret (rc, n') -> P n'.
Proof.
  induction toks as [|ptr toks IH]; intros state n lineno rc n' Pn H;
    cbn [parse_new_format] in H.
  { injection H as <- <-. exact Pn. }
  destruct (cut_at "=" ptr) as [[key val]|].
  - destruct (state =? 0).
    + destruct (subj_name_to_val key 2) as [t|];
        [|injection H as <- <-; exact Pn].
      destruct (assign_subject n t val lineno) as [[rc1 n1]| |] eqn:EA;
        cbn [bind] in H; try discriminate.
      pose proof (P_subject _ _ _ _ _ _ Pn EA) as Pn1.
      destruct (rc1 =? 3); [injection H as <- <-; exact Pn1|].
      exact (IH _ _ _ _ _ Pn1 H).
    + destruct (obj_name_to_val key) as [t|];
        [|injection H as <- <-; exact Pn].
      destruct (assign_object n t val lineno) as [[rc1 n1]| |] eqn:EA;
        cbn [bind] in H; try discriminate.
      exact (IH _ _ _ _ _ (P_object _ _ _ _ _ _ Pn EA) H).
  - destruct ((state =? 0) && (strcmp ptr ":" =? 0));
      [exact (IH _ _ _ _ _ Pn H)|].
    destruct (strcmp ptr "all" =? 0); [|injection H as <- <-; exact Pn].
    destruct (state =? 0).
    + destruct (assign_subject n ALL_SUBJ "" lineno) as [[rc1 n1]| |] eqn:EA;
        cbn [bind] in H; try discriminate.
      exact (IH _ _ _ _ _ (P_subject _ _ _ _ _ _ Pn EA) H).
    + destruct (assign_object n ALL_OBJ "" lineno) as [[rc1 n1]| |] eqn:EA;
        cbn [bind] in H; try discriminate.
      exact (IH _ _ _ _ _ (P_object _ _ _ _ _ _ Pn EA) H).
Qed.

Lemma colon_rest_post (toks : list string) (n : lnode) (lineno rc : Z)
    (n' : lnode) :
  P n ->
  ('(_, n) <- parse_new_format toks 0 n lineno ;; finish_up n) = Ret (rc, n') ->
  Q rc n'.
Proof.
  intros Pn H.
  destruct (parse_new_format toks 0 n lineno) as [[rc1 n1]| |] eqn:E;
    cbn [bind] in H; try discriminate.
  exact (Q_finish _ _ _ (parse_new_format_keeps _ _ _ _ _ _ Pn E) H).
Qed.

Lemma nv_split_fields_post (toks : list string) :
  forall n lineno rc n',
    P n -> nv_split_fields toks format n lineno = Ret (rc, n') -> Q rc n'.
Proof.
  induction toks as [|ptr toks IH]; intros n lineno rc n' Pn H;
    cbn [nv_split_fields] in H.
  { exact (Q_finish _ _ _ Pn H). }
  destruct (cut_at "=" ptr) as [[key val]|].
  - destruct format eqn:Ef.
    + (* RULE_FMT_ORIG *)
      destruct (subj_name_to_val key (rformat_code RULE_FMT_ORIG)) as [t|].
      * destruct (assign_subject n t val lineno) as [[rc1 n1]| |] eqn:EA;
          cbn [bind] in H; try discriminate.
        pose proof (P_subject _ _ _ _ _ _ Pn EA) as Pn1.
        destruct (assign_subject_result _ _ _ _ _ _ EA)
          as (_ & _ & _ & _ & Hrc & _).
        destruct (rc1 =? 3) eqn:E3;
          [apply Z.eqb_eq in E3; destruct Hrc as [[? _]|[? _]]; lia|].
        exact (IH _ _ _ _ Pn1 H).
      * destruct (obj_name_to_val key) as [t|].
        -- destruct (assign_object n t val lineno) as [[rc1 n1]| |] eqn:EA;
             cbn [bind] in H; try discriminate.
           exact (IH _ _ _ _ (P_object _ _ _ _ _ _ Pn EA) H).
        -- injection H as <- <-. apply Q_error; auto.
    + (* RULE_FMT_COLON *)
      specialize (P_access eq_refl).
      destruct (strcmp key "perm" =? 0).
      * destruct (strcmp val "execute" =? 0);
          [exact (colon_rest_post _ _ _ _ _ (P_access _ _ Pn) H)|].
        destruct (strcmp val "any" =? 0);
          [exact (colon_rest_post _ _ _ _ _ (P_access _ _ Pn) H)|].
        destruct (negb (strcmp val "open" =? 0));
          [injection H as <- <-; apply Q_error; auto|].
        exact (colon_rest_post _ _ _ _ _ Pn H).
      * destruct (subj_name_to_val key 2) as [t|];
          [|injection H as <- <-; apply Q_error; auto].
        destruct (assign_subject n t val lineno) as [[rc1 n1]| |] eqn:EA;
          cbn [bind] in H; try discriminate.
        pose proof (P_subject _ _ _ _ _ _ Pn EA) as Pn1.
        destruct (assign_subject_result _ _ _ _ _ _ EA)
          as (_ & _ & _ & _ & Hrc & _).
        destruct (rc1 =? 3) eqn:E3;
          [apply Z.eqb_eq in E3; destruct Hrc as [[? _]|[? _]]; lia|].
        exact (colon_rest_post _ _ _ _ _ Pn1 H).
  - destruct (strcmp ptr "all" =? 0);
      [|injection H as <- <-; apply Q_error; auto 6].
    destruct (s_count n =? 0)%nat.
    + destruct (assign_subject n ALL_SUBJ "" lineno) as [[rc1 n1]| |] eqn:EA;
        cbn [bind] in H; try discriminate.
      exact (IH _ _ _ _ (P_subject _ _ _ _ _ _ Pn EA) H).
    + destruct (o_count n =? 0)%nat; [|injection H as <- <-; apply Q_error; auto 6].
      destruct (assign_object n ALL_OBJ "" lineno) as [[rc1 n1]| |] eqn:EA;
        cbn [bind] in H; try discriminate.
      exact (IH _ _ _ _ (P_object _ _ _ _ _ _ Pn EA) H).
Qed.

End Loops.

End ParsedNodes.

Section ParsedRules.

Context {X : Collaborators}.

Lemma finish_up_result (n : lnode) (rc : Z) (n' : lnode) :
  finish_up n = Ret (rc, n') ->
  n' = n /\ (rc = 0 \/ rc = 6 \/ rc = 7) /\
  (rc = 0 <-> (1 <= s_count n)%nat /\ (1 <= o_count n)%nat) /\
  (rc = 6 <-> s_count n = 0%nat).
Proof.
  unfold finish_up.
  destruct (s_count n =? 0)%nat eqn:Es;
    [apply Nat.eqb_eq in Es | apply Nat.eqb_neq in Es].
  - intros H. injection H as <- <-. repeat split; auto; try lia.
  - destruct (o_count n =? 0)%nat eqn:Eo;
      [apply Nat.eqb_eq in Eo | apply Nat.eqb_neq in Eo];
      intros H; injection H as <- <-; repeat split; auto; try lia.
Qed.

Lemma nv_split_contract (buf : string) (n : lnode) (lineno rc : Z)
    (n' : lnode) (H : nv_split buf n lineno = Ret (rc, n')) :
  (rc = -1 \/ 0 <= rc <= 7) /\
  (rc = -1 <-> nothing_to_parse buf) /\
  (rc = 0 ->
   (1 <= s_count n')%nat /\ (1 <= o_count n')%nat /\
   (exists tok toks, strtok_all buf = tok :: toks /\
                     dec_name_to_val tok = Some (r_d n')) /\
   r_format n' = (if has_char ":" buf then RULE_FMT_COLON else RULE_FMT_ORIG) /\
   (has_char ":" buf = false -> r_a n' = OPEN_ACC)).
Proof.
  unfold nv_split, nothing_to_parse in *.
  destruct (strtok_all buf) as [|ptr toks].
  { injection H as <- <-. split; [now left|]. split; [|discriminate].
    split; [now left | reflexivity]. }
  destruct (Ascii.eqb (first_char ptr) "#") eqn:Eh.
  { apply Ascii.eqb_eq in Eh. injection H as <- <-.
    split; [now left|]. split; [|discriminate].
    split; [intros _; right; now exists ptr, toks | reflexivity]. }
  apply Ascii.eqb_neq in Eh.
  assert (Hno : ~ (ptr :: toks = [] \/
                   exists tok toks0, ptr :: toks = tok :: toks0 /\
                                     first_char tok = "#"%char)).
  { intros [F | (tok & toks0 & F & Fh)]; [discriminate|].
    injection F as <- <-. contradiction. }
  destruct (dec_name_to_val ptr) as [d|] eqn:Ed.
  2:{ injection H as <- <-. split; [right; lia|]. split; [|discriminate].
      split; [discriminate | intros F; contradiction]. }
  set (fmt := if has_char ":" buf then RULE_FMT_COLON else RULE_FMT_ORIG) in *.
  pose (P := fun m : lnode =>
          r_d m = d /\ r_format m = fmt /\
          (fmt = RULE_FMT_ORIG -> r_a m = OPEN_ACC)).
  pose (Q := fun (c : Z) (m : lnode) =>
          0 <= c <= 7 /\
          (c = 0 -> (1 <= s_count m)%nat /\ (1 <= o_count m)%nat) /\ P m).
  assert (HQ : Q rc n').
  { apply (nv_split_fields_post P Q fmt) with (toks := toks)
      (n := with_a (with_d (with_format n fmt) d) OPEN_ACC) (lineno := lineno).
    - intros m t v ln c m' Pm E.
      destruct (assign_subject_result _ _ _ _ _ _ E)
        as (_ & (Hd & Ha & Hf & _) & _).
      unfold P in *. rewrite Hd, Ha, Hf. exact Pm.
    - intros m t v ln c m' Pm E.
      destruct (assign_object_result _ _ _ _ _ _ E)
        as (_ & (Hd & Ha & Hf & _) & _).
      unfold P in *. rewrite Hd, Ha, Hf. exact Pm.
    - intros Ef m a (Hd & Hf & _). unfold P. cbn.
      repeat split; auto. rewrite Ef. discriminate.
    - intros c m Pm Hc. unfold Q. split; [lia|]. split; [lia | exact Pm].
    - intros m c m' Pm E.
      destruct (finish_up_result m c m' E) as (-> & Hc & H0 & _).
      unfold Q. split; [lia|]. split; [apply H0 | exact Pm].
    - unfold P. cbn. repeat split.
    - exact H. }
  destruct HQ as (Hrange & Hcount & Hd & Hf & Ha).
  split; [right; exact Hrange|].
  split; [split; [lia | intros F; contradiction]|].
  intros H0. destruct (Hcount H0) as [Hs Ho].
  split; [exact Hs|]. split; [exact Ho|].
  split; [exists ptr, toks; split; [reflexivity | now rewrite Hd]|].
  split; [exact Hf|].
  intros Hc. apply Ha. unfold fmt. now rewrite Hc.
Qed.

(** X4.  The result of [nv_split] is -1 or one of 0 to 7.  It is -1
    exactly for a line with no token and for a line whose first token
    begins with #.  When it is 0 the node has at least one subject field
    and at least one object field, carries the decision the dictionary
    gives for the first token, has the format COLON exactly when the line
    contains a colon, and in the other format has the access OPEN. *)
Theorem nv_split_result_contract (buf : string) (n : lnode) (lineno rc : Z)
    (n' : lnode) (H : nv_split buf n lineno = Ret (rc, n')) :
  (rc = -1 \/ 0 <= rc <= 7) /\
  (rc = -1 <-> nothing_to_parse buf) /\
  (rc = 0 ->
   (1 <= s_count n')%nat /\ (1 <= o_count n')%nat /\
   (exists tok toks, strtok_all buf = tok :: toks /\
                     dec_name_to_val tok = Some (r_d n')) /\
   r_format n' = (if has_char ":" buf then RULE_FMT_COLON else RULE_FMT_ORIG) /\
   (has_char ":" buf = false -> r_a n' = OPEN_ACC)).
Proof. exact (nv_split_contract buf n lineno rc n' H). Qed.

Lemma fresh_node_wf : wf_node fresh_node.
Proof.
  unfold wf_node, fresh_node, s_at, o_at. cbn.
  rewrite !repeat_length.
  repeat split; try lia; intros i.
  - intros t. rewrite nth_repeat. discriminate.
  - intros t. rewrite nth_repeat. discriminate.
Qed.

Lemma assign_subject_wf (n : lnode) (t : subject_type_t) (v : string)
    (ln rc : Z) (n' : lnode) :
  wf_node n -> assign_subject n t v ln = Ret (rc, n') -> wf_node n'.
Proof.
  intros (Hs & Ho & Hls & Hlo & Hst & Hstr & Hot & Hos) E.
  destruct (assign_subject_result _ _ _ _ _ _ E)
    as (Hroom & _ & Hro & Hoc & Hrc & f & Hrs & Hf).
  assert (Hat : forall j, s_at n' j
                = if (j =? s_count n)%nat then f (s_at n (s_count n))
                  else s_at n j).
  { intros j. unfold s_at. rewrite Hrs.
    destruct (j =? s_count n)%nat eqn:Ej.
    - apply Nat.eqb_eq in Ej. subst j. apply nth_update_same. lia.
    - apply Nat.eqb_neq in Ej. now apply nth_update_other. }
  assert (Hoat : forall j, o_at n' j = o_at n j)
    by (intros j; unfold o_at; now rewrite Hro).
  unfold wf_node. rewrite Hoc, Hrs, Hro, update_length.
  split; [destruct Hrc as [[_ Hc] | [_ Hc]]; lia|].
  split; [exact Ho|]. split; [exact Hls|]. split; [exact Hlo|].
  split; [|split; [|split]].
  - intros i Hi. rewrite Hat.
    destruct (i =? s_count n)%nat eqn:Ei.
    + destruct (Hf (s_at n (s_count n))) as [-> _]. discriminate.
    + apply Nat.eqb_neq in Ei. apply Hst.
      destruct Hrc as [[_ Hc] | [_ Hc]]; rewrite Hc in Hi; lia.
  - intros i t0. rewrite Hat.
    destruct (i =? s_count n)%nat; [|apply Hstr].
    destruct (Hf (s_at n (s_count n))) as [Ht Hv].
    rewrite Ht. intros Heq Hc. injection Heq as <-.
    rewrite (Hv Hc). discriminate.
  - intros i Hi. rewrite Hoat. now apply Hot.
  - intros i t0. rewrite Hoat. apply Hos.
Qed.

Lemma assign_object_wf (n : lnode) (t : object_type_t) (v : string)
    (ln rc : Z) (n' : lnode) :
  wf_node n -> assign_object n t v ln = Ret (rc, n') -> wf_node n'.
Proof.
  intros (Hs & Ho & Hls & Hlo & Hst & Hstr & Hot & Hos) E.
  destruct (assign_object_result _ _ _ _ _ _ E)
    as (Hroom & _ & Hrs & Hsc & _ & Hoc & Hro).
  assert (Hat : forall j, s_at n' j = s_at n j)
    by (intros j; unfold s_at; now rewrite Hrs).
  assert (Hoat : forall j, o_at n' j
                 = if (j =? o_count n)%nat
                   then mk_object_attr (Some t) (Some v)
                          (if object_type_eqb t ODIR
                           then Z.of_nat (strlen v) else 0)
                   else o_at n j).
  { intros j. unfold o_at. rewrite Hro.
    destruct (j =? o_count n)%nat eqn:Ej.
    - apply Nat.eqb_eq in Ej. subst j. apply nth_update_same. lia.
    - apply Nat.eqb_neq in Ej. now apply nth_update_other. }
  unfold wf_node. rewrite Hsc, Hoc, Hrs, Hro, update_length.
  split; [exact Hs|]. split; [lia|]. split; [exact Hls|]. split; [exact Hlo|].
  split; [|split; [|split]].
  - intros i Hi. rewrite Hat. now apply Hst.
  - intros i t0. rewrite Hat. apply Hstr.
  - intros i Hi. rewrite Hoat.
    destruct (i =? o_count n)%nat eqn:Ei; [discriminate|].
    apply Nat.eqb_neq in Ei. apply Hot. lia.
  - intros i t0. rewrite Hoat.
    destruct (i =? o_count n)%nat; [|apply Hos].
    cbn. intros Heq. injection Heq as <-. now exists v.
Qed.

Lemma nv_split_wf (buf : string) (lineno rc : Z) (n' : lnode) :
  nv_split buf fresh_node lineno = Ret (rc, n') -> wf_node n'.
Proof.
  unfold nv_split.
  destruct (strtok_all buf) as [|ptr toks];
    [intros H; injection H as <- <-; exact fresh_node_wf|].
  destruct (Ascii.eqb (first_char ptr) "#");
    [intros H; injection H as <- <-; exact fresh_node_wf|].
  destruct (dec_name_to_val ptr) as [d|];
    [|intros H; injection H as <- <-; exact fresh_node_wf].
  apply (nv_split_fields_post wf_node (fun _ m => wf_node m)).
  - exact assign_subject_wf.
  - exact assign_object_wf.
  - intros _ m a Hm. exact Hm.
  - intros c m Hm _. exact Hm.
  - intros m c m' Hm E.
    destruct (finish_up_result m c m' E) as (-> & _). exact Hm.
  - exact fresh_node_wf.
Qed.

Lemma nv_split_counts (buf : string) (lineno : Z) (n' : lnode) :
  nv_split buf fresh_node lineno = Ret (0, n') ->
  (1 <= s_count n')%nat /\ (1 <= o_count n')%nat.
Proof.
  unfold nv_split.
  destruct (strtok_all buf) as [|ptr toks]; [discriminate|].
  destruct (Ascii.eqb (first_char ptr) "#"); [discriminate|].
  destruct (dec_name_to_val ptr) as [d|]; [|discriminate].
  intros H.
  apply (nv_split_fields_post (fun _ => True)
           (fun c m => c = 0 -> (1 <= s_count m)%nat /\ (1 <= o_count m)%nat)
           _ (fun _ _ _ _ _ _ _ _ => I) (fun _ _ _ _ _ _ _ _ => I)
           (fun _ _ _ _ => I)) in H; auto.
  - intros c m _ Hc F. lia.
  - intros m c m' _ E F.
    destruct (finish_up_result m c m' E) as (-> & _ & H0 & _). now apply H0.
Qed.

Lemma built_rules_ok (l : llist) : built l -> Forall rule_ok (nodes l).
Proof.
  intros Hbuilt.
  induction Hbuilt as [| l _ IH | l _ IH | l buf lineno rc l' _ IH H
                         | l _ IH].
  - constructor.
  - exact IH.
  - unfold rules_next. destruct (cur l); exact IH.
  - destruct (rules_append_cases l buf lineno rc l' H)
      as [[-> _] | [_ (b & R & _ & E & ->)]]; [exact IH|].
    cbn [nodes]. apply Forall_app. split; [exact IH|].
    constructor; [|constructor].
    destruct (nv_split_counts b lineno R E) as (Hs & Ho).
    split; [exact (nv_split_wf b lineno 0 R E) | split; assumption].
  - constructor.
Qed.

Lemma bind_defined {A B : Type} (m : outcome A) (k : A -> outcome B) :
  defined_run m -> (forall a, m = Ret a -> defined_run (k a)) ->
  defined_run (bind m k).
Proof.
  destruct m as [a| st |]; cbn [bind defined_run]; intros D K;
    [now apply K | exact D | exact D].
Qed.

Lemma defined_run_cases {A : Type} (o : outcome A) :
  defined_run o -> o = Exit 1 \/ exists a, o = Ret a.
Proof.
  destruct o as [a| st |]; cbn [defined_run]; intros D;
    [right; now exists a | left; now subst st | contradiction].
Qed.

(** With a free slot left the assignment stores inside the array. *)
Lemma assign_subject_defined (n : lnode) (t : subject_type_t) (v : string)
    (ln : Z) :
  (s_count n < MAX_FIELDS)%nat -> defined_run (assign_subject n t v ln).
Proof.
  intros Hroom. unfold assign_subject, subject_assigned.
  apply Nat.leb_gt in Hroom. rewrite Hroom.
  destruct (subj_code COMM <=? subj_code t); [exact I|].
  destruct (subject_type_eqb t PATTERN).
  { destruct (strcmp v PATTERN_LD_SO_STR =? 0); [exact I|].
    destruct (strcmp v PATTERN_STATIC_STR =? 0); exact I. }
  destruct (starts_with_digit v).
  { destruct (strtol10 v) as [x errno]. destruct errno; exact I. }
  destruct (subject_type_eqb t AUID || subject_type_eqb t UID); [|exact I].
  destruct (getpwnam v); [exact I | reflexivity].
Qed.

Lemma assign_object_defined (n : lnode) (t : object_type_t) (v : string)
    (ln : Z) :
  (o_count n < MAX_FIELDS)%nat -> defined_run (assign_object n t v ln).
Proof.
  intros Hroom. unfold assign_object.
  apply Nat.leb_gt in Hroom. rewrite Hroom. exact I.
Qed.

Lemma finish_up_defined (n : lnode) : defined_run (finish_up n).
Proof.
  unfold finish_up.
  destruct (s_count n =? 0)%nat; [exact I|].
  destruct (o_count n =? 0)%nat; exact I.
Qed.

(** Each token fills at most one slot, so a node with as many free slots
    of either kind as there are tokens left is parsed inside its arrays. *)
Lemma parse_new_format_defined (toks : list string) :
  forall state n ln,
    (s_count n + List.length toks <= MAX_FIELDS)%nat ->
    (o_count n + List.length toks <= MAX_FIELDS)%nat ->
    defined_run (parse_new_format toks state n ln).
Proof.
  induction toks as [|ptr toks IH]; intros state n ln Hs Ho;
    cbn [parse_new_format]; [exact I|].
  cbn [List.length] in Hs, Ho.
  assert (KS : forall t v,
            defined_run
              (bind (assign_subject n t v ln)
                 (fun '(rc, n0) =>
                    if rc =? 3 then Ret (-1, n0)
                    else parse_new_format toks state n0 ln))).
  { intros t v. apply bind_defined;
      [apply assign_subject_defined; lia|].
    intros [rc1 n1] EA.
    destruct (assign_subject_result _ _ _ _ _ _ EA)
      as (_ & _ & _ & Hoc & Hrc & _).
    destruct (rc1 =? 3); [exact I|].
    apply IH; destruct Hrc as [[_ Hc] | [_ Hc]]; lia. }
  assert (KO : forall t v,
            defined_run
              (bind (assign_object n t v ln)
                 (fun '(_, n0) => parse_new_format toks state n0 ln))).
  { intros t v. apply bind_defined;
      [apply assign_object_defined; lia|].
    intros [rc1 n1] EA.
    destruct (assign_object_result _ _ _ _ _ _ EA)
      as (_ & _ & _ & Hsc & _ & Hoc & _).
    apply IH; lia. }
  destruct (cut_at "=" ptr) as [[key val]|].
  - destruct (state =? 0).
    + destruct (subj_name_to_val key 2) as [t|]; [apply KS | exact I].
    + destruct (obj_name_to_val key) as [t|]; [apply KO | exact I].
  - destruct ((state =? 0) && (strcmp ptr ":" =? 0)).
    { apply IH; lia. }
    destruct (strcmp ptr "all" =? 0); [|exact I].
    destruct (state =? 0).
    + apply bind_defined; [apply assign_subject_defined; lia|].
      intros [rc1 n1] EA.
      destruct (assign_subject_result _ _ _ _ _ _ EA)
        as (_ & _ & _ & Hoc & Hrc & _).
      apply IH; destruct Hrc as [[_ Hc] | [_ Hc]]; lia.
    + apply KO.
Qed.

Lemma nv_split_fields_defined (toks : list string) (format : rformat_t) :
  forall n ln,
    (s_count n + List.length toks <= MAX_FIELDS)%nat ->
    (o_count n + List.length toks <= MAX_FIELDS)%nat ->
    defined_run (nv_split_fields toks format n ln).
Proof.
  induction toks as [|ptr toks IH]; intros n ln Hs Ho;
    cbn [nv_split_fields]; [apply finish_up_defined|].
  cbn [List.length] in Hs, Ho.
  assert (KR : forall m,
            (s_count m + List.length toks <= MAX_FIELDS)%nat ->
            (o_count m + List.length toks <= MAX_FIELDS)%nat ->
            defined_run
              (bind (parse_new_format toks 0 m ln)
                 (fun '(_, n0) => finish_up n0))).
  { intros m Hsm Hom. apply bind_defined;
      [now apply parse_new_format_defined|].
    intros [rc1 n1] _. apply finish_up_defined. }
  assert (KO : forall t v,
            defined_run
              (bind (assign_object n t v ln)
                 (fun '(_, n0) => nv_split_fields toks format n0 ln))).
  { intros t v. apply bind_defined;
      [apply assign_object_defined; lia|].
    intros [rc1 n1] EA.
    destruct (assign_object_result _ _ _ _ _ _ EA)
      as (_ & _ & _ & Hsc & _ & Hoc & _).
    apply IH; lia. }
  destruct (cut_at "=" ptr) as [[key val]|].
  - destruct format.
    + destruct (subj_name_to_val key (rformat_code RULE_FMT_ORIG)) as [t|].
      * apply bind_defined; [apply assign_subject_defined; lia|].
        intros [rc1 n1] EA.
        destruct (assign_subject_result _ _ _ _ _ _ EA)
          as (_ & _ & _ & Hoc & Hrc & _).
        destruct (rc1 =? 3); [exact I|].
        apply IH; destruct Hrc as [[_ Hc] | [_ Hc]]; lia.
      * destruct (obj_name_to_val key) as [t|]; [apply KO | exact I].
    + cbv zeta.
      destruct (strcmp key "perm" =? 0).
      * destruct (strcmp val "execute" =? 0); [apply KR; cbn; lia|].
        destruct (strcmp val "any" =? 0); [apply KR; cbn; lia|].
        destruct (negb (strcmp val "open" =? 0)); [exact I|].
        apply KR; lia.
      * destruct (subj_name_to_val key 2) as [t|]; [|exact I].
        apply bind_defined; [apply assign_subject_defined; lia|].
        intros [rc1 n1] EA.
        destruct (assign_subject_result _ _ _ _ _ _ EA)
          as (_ & _ & _ & Hoc & Hrc & _).
        destruct (rc1 =? 3); [exact I|].
        apply KR; destruct Hrc as [[_ Hc] | [_ Hc]]; lia.
  - destruct (strcmp ptr "all" =? 0); [|exact I].
    destruct (s_count n =? 0)%nat.
    + apply bind_defined; [apply assign_subject_defined; lia|].
      intros [rc1 n1] EA.
      destruct (assign_subject_result _ _ _ _ _ _ EA)
        as (_ & _ & _ & Hoc & Hrc & _).
      apply IH; destruct Hrc as [[_ Hc] | [_ Hc]]; lia.
    + destruct (o_count n =? 0)%nat; [apply KO | exact I].
Qed.

Lemma nv_split_defined (buf : string) (ln : Z) :
  (List.length (strtok_all buf) <= S MAX_FIELDS)%nat ->
  defined_run (nv_split buf fresh_node ln).
Proof.
  intros Hshort. unfold nv_split.
  destruct (strtok_all buf) as [|ptr toks]; [exact I|].
  cbn [List.length] in Hshort.
  destruct (Ascii.eqb (first_char ptr) "#"); [exact I|].
  destruct (dec_name_to_val ptr) as [d|]; [|exact I].
  apply nv_split_fields_defined; cbn; lia.
Qed.

(** X5.  A line of at most MAX_FIELDS field tokens after its decision
    is taken in without a store past the arrays of the node: [nv_split]
    on the fresh node either returns or, for an unknown user name, ends the
    program with [exit(1)], and so does [rules_append] on any store.  What
    [nv_split] returns has its counts inside the arrays, a type in each
    counted slot, a string in each subject slot of a string type and in
    each object slot and, for a directory, the length of that string; with
    result 0 it has at least one field of either kind.  [rules_append]
    leaves the store as it is or adds one such rule at its end. *)
Theorem short_line_stays_in_bounds (l : llist) (buf : string) (lineno : Z)
    (Hshort : (List.length (strtok_all buf) <= S MAX_FIELDS)%nat) :
  (nv_split buf fresh_node lineno = Exit 1 \/
   exists rc n',
     nv_split buf fresh_node lineno = Ret (rc, n') /\
     wf_node n' /\ (rc = 0 -> rule_ok n')) /\
  (rules_append l (Some buf) lineno = Exit 1 \/
   exists rc l',
     rules_append l (Some buf) lineno = Ret (rc, l') /\
     (l' = l \/
      rc = 0 /\ exists n', nodes l' = (nodes l ++ [n'])%list /\ rule_ok n')).
Proof.
  pose proof (nv_split_defined buf lineno Hshort) as D.
  assert (K : forall rc n',
            nv_split buf fresh_node lineno = Ret (rc, n') ->
            wf_node n' /\ (rc = 0 -> rule_ok n')).
  { intros rc n' E. pose proof (nv_split_wf buf lineno rc n' E) as W.
    split; [exact W|]. intros ->.
    destruct (nv_split_counts buf lineno n' E) as (Hs & Ho).
    split; [exact W | split; assumption]. }
  split.
  - destruct (defined_run_cases _ D) as [E | [[rc n'] E]]; [now left|].
    right. exists rc, n'. split; [exact E | now apply K].
  - assert (DA : defined_run (rules_append l (Some buf) lineno)).
    { unfold rules_append. apply bind_defined; [exact D|].
      intros [rc n'] _. destruct (negb (rc =? 0)); [|exact I].
      destruct (rc <? 0); exact I. }
    destruct (defined_run_cases _ DA) as [E | [[rc l'] E]]; [now left|].
    right. exists rc, l'. split; [exact E|].
    destruct (rules_append_cases l (Some buf) lineno rc l' E)
      as [[-> _] | [-> (b & R & Hb & ER & ->)]]; [now left|].
    right. split; [reflexivity|].
    injection Hb as <-.
    exists (with_num R (cnt l)). split; [reflexivity|].
    destruct (K 0 R ER) as (_ & Hok). exact (Hok eq_refl).
Qed.

End ParsedRules.

(** ** The evaluator: results and short cuts *)

Section EvaluatorContract.

Context {X : Collaborators}.

Lemma obj_dir_test_bool (o obj : object_attr_t) (trusted : bool) (rc : Z) :
  obj_dir_test o obj trusted = Ret rc -> rc = 0 \/ rc = 1.
Proof.
  unfold obj_dir_test.
  destruct (obj_is_macro o 8 "execdirs") as [b1| |]; cbn [bind];
    try discriminate.
  destruct b1.
  { destruct (obj_o obj) as [p|]; cbn; [|discriminate].
    intros H. injection H as <-.
    destruct (check_dirs_in_bool (skipn 1 dirs) p); auto. }
  destruct (obj_is_macro o 10 "systemdirs") as [b2| |]; cbn [bind];
    try discriminate.
  destruct b2.
  { destruct (obj_o obj) as [p|]; cbn; [|discriminate].
    intros H. injection H as <-.
    destruct (check_dirs_in_bool (skipn 0 dirs) p); auto. }
  destruct (obj_is_macro o 10 "untrusted") as [b3| |]; cbn [bind];
    try discriminate.
  destruct b3.
  { destruct trusted; intros H; injection H as <-; auto. }
  destruct (obj_o obj) as [p|]; [|intros H; injection H as <-; auto].
  destruct (obj_o o) as [s|]; cbn; [|discriminate].
  destruct (negb _); intros H; injection H as <-; auto.
Qed.

Lemma check_subject_from_bool (r : lnode) (e : event_t) (todo : nat) :
  forall cnt p rc p',
    check_subject_from r e todo cnt p = Ret (rc, p') -> rc = 0 \/ rc = 1.
Proof.
  induction todo as [|todo IH]; intros cnt p rc p' H.
  { injection H as <- <-. now right. }
  cbn [check_subject_from] in H.
  destruct (subj_type (s_at r cnt)) as [type|]; [|exact (IH _ _ _ _ H)].
  destruct (subject_type_eqb type ALL_SUBJ); [exact (IH _ _ _ _ H)|].
  assert (Hpat : forall q,
            ('(rc, pinfo) <- subj_pattern_test (s_at r cnt) e q ;;
             if rc =? 0 then Ret (0, pinfo)
             else if rc =? -1 then Ret (1, pinfo)
             else check_subject_from r e todo (S cnt) pinfo) = Ret (rc, p') ->
            rc = 0 \/ rc = 1).
  { intros q Hq.
    destruct (subj_pattern_test (s_at r cnt) e q) as [[rc1 p1]| |];
      cbn [bind] in Hq; try discriminate.
    destruct (rc1 =? 0); [injection Hq as <- <-; now left|].
    destruct (rc1 =? -1); [injection Hq as <- <-; now right|].
    exact (IH _ _ _ _ Hq). }
  destruct (get_subj_attr e type) as [subj|];
    destruct (subject_type_eqb type PATTERN);
    try exact (Hpat _ H); try exact (IH _ _ _ _ H).
  destruct (subj_code COMM <=? subj_code type).
  - destruct (subj_str subj) as [str|]; [|exact (IH _ _ _ _ H)].
    destruct (subject_type_eqb type EXE_DIR).
    + destruct (subj_dir_test (s_at r cnt) subj (is_subj_trusted e))
        as [rc1| |]; cbn [bind] in H; try discriminate.
      destruct (rc1 =? 0); [injection H as <- <-; now left|].
      exact (IH _ _ _ _ H).
    + destruct (subj_str (s_at r cnt)) as [rstr|]; cbn in H;
        [|discriminate].
      destruct (subject_type_eqb type EXE && (strcmp rstr "untrusted" =? 0)).
      * destruct (is_subj_trusted e);
          [injection H as <- <-; now left | exact (IH _ _ _ _ H)].
      * destruct (negb (strcmp str rstr =? 0));
          [injection H as <- <-; now left | exact (IH _ _ _ _ H)].
  - destruct (negb (subj_val subj =? subj_val (s_at r cnt)));
      [injection H as <- <-; now left | exact (IH _ _ _ _ H)].
Qed.

Lemma check_object_from_bool (r : lnode) (e : event_t) (todo : nat) :
  forall cnt rc, check_object_from r e todo cnt = Ret rc -> rc = 0 \/ rc = 1.
Proof.
  induction todo as [|todo IH]; intros cnt rc H.
  { injection H as <-. now right. }
  cbn [check_object_from] in H.
  destruct (obj_type (o_at r cnt)) as [type|]; [|exact (IH _ _ H)].
  destruct (object_type_eqb type ALL_OBJ); [exact (IH _ _ H)|].
  destruct (get_obj_attr e type) as [obj|]; [|exact (IH _ _ H)].
  assert (G : (if object_type_eqb type ODIR then
                 rc <- obj_dir_test (o_at r cnt) obj (is_obj_trusted e) ;;
                 if rc =? 0 then Ret 0 else check_object_from r e todo (S cnt)
               else
                 b <- (if object_type_eqb type PATH
                       then paired_subject_untrusted r cnt
                       else Ret false) ;;
                 if b then
                   if is_obj_trusted e then Ret 0
                   else check_object_from r e todo (S cnt)
                 else if object_type_eqb type OBJ_TRUST then
                   let val := if obj_len obj =? 0 then "0" else "1" in
                   rstr <- deref (obj_o (o_at r cnt)) ;;
                   if negb (Ascii.eqb (first_char val) (first_char rstr))
                   then Ret 0 else check_object_from r e todo (S cnt)
                 else
                   rstr <- deref (obj_o (o_at r cnt)) ;;
                   if object_type_eqb type FTYPE
                      && (strcmp rstr "any" =? 0)
                   then check_object_from r e todo (S cnt)
                   else
                     ostr <- deref (obj_o obj) ;;
                     if negb (strcmp ostr rstr =? 0) then Ret 0
                     else check_object_from r e todo (S cnt)) = Ret rc ->
              rc = 0 \/ rc = 1).
  { clear H. intros H.
    destruct (object_type_eqb type ODIR).
    { destruct (obj_dir_test (o_at r cnt) obj (is_obj_trusted e))
        as [rc1| |]; cbn [bind] in H; try discriminate.
      destruct (rc1 =? 0); [injection H as <-; now left | exact (IH _ _ H)]. }
    destruct (if object_type_eqb type PATH
              then paired_subject_untrusted r cnt else Ret false)
      as [b| |]; cbn [bind] in H; try discriminate.
    destruct b.
    { destruct (is_obj_trusted e);
        [injection H as <-; now left | exact (IH _ _ H)]. }
    destruct (object_type_eqb type OBJ_TRUST).
    { cbv zeta in H.
      destruct (obj_o (o_at r cnt)) as [rstr|]; cbn [deref bind] in H;
        [|discriminate].
      destruct (negb _); [injection H as <-; now left | exact (IH _ _ H)]. }
    destruct (obj_o (o_at r cnt)) as [rstr|]; cbn [deref bind] in H;
      [|discriminate].
    destruct (object_type_eqb type FTYPE && (strcmp rstr "any" =? 0));
      [exact (IH _ _ H)|].
    destruct (obj_o obj) as [ostr|]; cbn [deref bind] in H; [|discriminate].
    destruct (negb _); [injection H as <-; now left | exact (IH _ _ H)]. }
  destruct (obj_o obj); destruct (object_type_eqb type OBJ_TRUST);
    try exact (G H); exact (IH _ _ H).
Qed.

(** X6.  The three checks answer 0 or 1 and nothing else: [check_subject]
    never returns -1, whatever the pattern test returned.  A decision
    returned by [rule_evaluate] is NO_OPINION or the decision of the rule,
    and it is the decision of the rule only when the three checks all
    answered 1. *)
Theorem rule_evaluate_result_contract (r : lnode) (e : event_t)
    (p : proc_info) :
  (check_access r e = 0 \/ check_access r e = 1) /\
  (forall rc p', check_subject r e p = Ret (rc, p') -> rc = 0 \/ rc = 1) /\
  (forall rc, check_object r e = Ret rc -> rc = 0 \/ rc = 1) /\
  (forall d p',
     rule_evaluate r e p = Ret (d, p') ->
     (d = NO_OPINION \/ d = r_d r) /\
     (d <> NO_OPINION ->
      check_access r e = 1 /\ check_subject r e p = Ret (1, p') /\
      check_object r e = Ret 1)).
Proof.
  assert (Ha : check_access r e = 0 \/ check_access r e = 1).
  { unfold check_access. destruct (access_eqb (r_a r) ANY_ACC); [now right|].
    destruct (access_eqb (r_a r) _); auto. }
  assert (Hs : forall rc p', check_subject r e p = Ret (rc, p') ->
                             rc = 0 \/ rc = 1)
    by (intros rc p'; apply check_subject_from_bool).
  assert (Ho : forall rc, check_object r e = Ret rc -> rc = 0 \/ rc = 1)
    by (intros rc; apply check_object_from_bool).
  split; [exact Ha|]. split; [exact Hs|]. split; [exact Ho|].
  unfold rule_evaluate.
  intros d p'.
  destruct Ha as [-> | Ha1]; cbn.
  { intros H. injection H as <- <-. split; [now left | congruence]. }
  rewrite Ha1. cbn.
  destruct (check_subject r e p) as [[rc1 p1]| |] eqn:Es; cbn [bind];
    try discriminate.
  destruct (Hs _ _ eq_refl) as [-> | ->]; cbn.
  { intros H. injection H as <- <-. split; [now left | congruence]. }
  destruct (check_object r e) as [rc2| |] eqn:Eo; cbn [bind];
    try discriminate.
  destruct (Ho _ eq_refl) as [-> | ->]; cbn;
    intros H; injection H as <- <-.
  - split; [now left | congruence].
  - split; [now right | auto].
Qed.

End EvaluatorContract.

Lemma subject_type_eqb_neq (a b : subject_type_t) :
  a <> b -> subject_type_eqb a b = false.
Proof.
  intros H. destruct (subject_type_eqb a b) eqn:E; [|reflexivity].
  apply subject_type_eqb_eq in E. contradiction.
Qed.

Lemma object_type_eqb_eq (a b : object_type_t) :
  object_type_eqb a b = true <-> a = b.
Proof.
  destruct a, b; simpl; split; intros H;
    try reflexivity; try discriminate.
  - apply Z.eqb_eq in H. now subst.
  - injection H as ->. apply Z.eqb_refl.
Qed.

Lemma object_type_eqb_neq (a b : object_type_t) :
  a <> b -> object_type_eqb a b = false.
Proof.
  intros H. destruct (object_type_eqb a b) eqn:E; [|reflexivity].
  apply object_type_eqb_eq in E. contradiction.
Qed.

Section FieldSemantics.

Context {X : Collaborators}.

(** X7.  The access check passes exactly for a rule with access ANY,
    for a rule with access EXEC on an event with the open-exec-permission
    bit, and for a rule with access OPEN on an event without it.  When it
    does not pass, [rule_evaluate] answers NO_OPINION at once: the subject
    check is not run and the pattern state is left alone. *)
Theorem access_check_comes_first (r : lnode) (e : event_t) (p : proc_info) :
  (check_access r e = 1 <->
   r_a r = ANY_ACC \/
   (r_a r = EXEC_ACC /\ Z.land (e_type e) FAN_OPEN_EXEC_PERM <> 0) \/
   (r_a r = OPEN_ACC /\ Z.land (e_type e) FAN_OPEN_EXEC_PERM = 0)) /\
  (check_access r e <> 1 -> rule_evaluate r e p = Ret (NO_OPINION, p)).
Proof.
  unfold rule_evaluate, check_access, has_flag.
  destruct (Z.land (e_type e) FAN_OPEN_EXEC_PERM =? 0) eqn:E;
    [apply Z.eqb_eq in E | apply Z.eqb_neq in E];
    destruct (r_a r); cbn; split;
    try (intros F; exfalso; apply F; reflexivity);
    try reflexivity;
    (split; [intros H; try discriminate; auto; tauto|]);
    intros [H | [[H H'] | [H H']]]; try discriminate; try reflexivity;
    contradiction.
Qed.

Lemma check_subject_from_skips (r : lnode) (e : event_t) (todo : nat) :
  forall cnt p,
    (forall i, (cnt <= i < cnt + todo)%nat ->
       exists t, subj_type (s_at r i) = Some t /\
                 (t = ALL_SUBJ \/ (t <> PATTERN /\ get_subj_attr e t = None))) ->
    check_subject_from r e todo cnt p = Ret (1, p).
Proof.
  induction todo as [|todo IH]; intros cnt p H; [reflexivity|].
  cbn [check_subject_from].
  destruct (H cnt) as (t & -> & Ht); [lia|].
  assert (N : check_subject_from r e todo (S cnt) p = Ret (1, p))
    by (apply IH; intros i Hi; apply H; lia).
  destruct Ht as [-> | [Hp Hnone]]; [exact N|].
  destruct (subject_type_eqb t ALL_SUBJ); [exact N|].
  rewrite Hnone, (subject_type_eqb_neq t PATTERN Hp). exact N.
Qed.

Lemma check_object_from_skips (r : lnode) (e : event_t) (todo : nat) :
  forall cnt,
    (forall i, (cnt <= i < cnt + todo)%nat ->
       exists t, obj_type (o_at r i) = Some t /\
                 (t = ALL_OBJ \/ get_obj_attr e t = None)) ->
    check_object_from r e todo cnt = Ret 1.
Proof.
  induction todo as [|todo IH]; intros cnt H; [reflexivity|].
  cbn [check_object_from].
  destruct (H cnt) as (t & -> & Ht); [lia|].
  assert (N : check_object_from r e todo (S cnt) = Ret 1)
    by (apply IH; intros i Hi; apply H; lia).
  destruct Ht as [-> | Hnone]; [exact N|].
  destruct (object_type_eqb t ALL_OBJ); [exact N|].
  now rewrite Hnone.
Qed.

(** X8.  A field that is the wildcard [all], and a field whose attribute
    the event does not carry, cannot cause a mismatch (pattern fields
    apart, which do not go through the accessor).  A rule made of such
    fields only matches the event: both checks answer 1, the pattern state
    is untouched, and the rule's decision is returned when the access check
    passes. *)
Theorem absent_attributes_match (r : lnode) (e : event_t) (p : proc_info)
    (Hsubj : forall i, (i < s_count r)%nat ->
       exists t, subj_type (s_at r i) = Some t /\
                 (t = ALL_SUBJ \/ (t <> PATTERN /\ get_subj_attr e t = None)))
    (Hobj : forall i, (i < o_count r)%nat ->
       exists t, obj_type (o_at r i) = Some t /\
                 (t = ALL_OBJ \/ get_obj_attr e t = None)) :
  check_subject r e p = Ret (1, p) /\
  check_object r e = Ret 1 /\
  rule_evaluate r e p
  = Ret (if check_access r e =? 0 then NO_OPINION else r_d r, p).
Proof.
  assert (Hs : check_subject r e p = Ret (1, p)).
  { apply check_subject_from_skips. intros i Hi. apply Hsubj. lia. }
  assert (Ho : check_object r e = Ret 1).
  { apply check_object_from_skips. intros i Hi. apply Hobj. lia. }
  split; [exact Hs|]. split; [exact Ho|].
  unfold rule_evaluate. rewrite Hs, Ho.
  now destruct (check_access r e =? 0).
Qed.

End FieldSemantics.

Section SingleFields.

Context {X : Collaborators}.

(** X9.  How one subject field of a string or numeric type is tested,
    at any position of the rule, when the event carries the attribute.
    [exe=untrusted] passes exactly when the subject is not trusted, and
    the path of the executable is not looked at.  Any other value of a
    string-typed field other than the directory passes exactly when the
    attribute is the same string.  A numeric field other than the wildcard
    and the pattern passes exactly when the attribute is the same number.
    A field that passes hands over to the next field; one that does not
    ends the check with 0 and the pattern state as it was. *)
Theorem subject_field_tests (r : lnode) (e : event_t) (todo cnt : nat)
    (p : proc_info) (t : subject_type_t) (a : subject_attr_t)
    (Htype : subj_type (s_at r cnt) = Some t)
    (Hall : t <> ALL_SUBJ) (Hpat : t <> PATTERN)
    (Hattr : get_subj_attr e t = Some a) :
  (forall path,
     t = EXE -> subj_code COMM <= subj_code EXE ->
     subj_str (s_at r cnt) = Some "untrusted" -> subj_str a = Some path ->
     check_subject_from r e (S todo) cnt p
     = if is_subj_trusted e then Ret (0, p)
       else check_subject_from r e todo (S cnt) p) /\
  (forall v sv,
     subj_code COMM <= subj_code t -> t <> EXE_DIR ->
     (t = EXE -> v <> "untrusted") ->
     subj_str (s_at r cnt) = Some v -> subj_str a = Some sv ->
     check_subject_from r e (S todo) cnt p
     = if String.eqb sv v then check_subject_from r e todo (S cnt) p
       else Ret (0, p)) /\
  (subj_code t < subj_code COMM ->
   check_subject_from r e (S todo) cnt p
   = if subj_val a =? subj_val (s_at r cnt)
     then check_subject_from r e todo (S cnt) p
     else Ret (0, p)).
Proof.
  assert (Hhead : check_subject_from r e (S todo) cnt p
          = if subj_code COMM <=? subj_code t then
              match subj_str a with
              | None => check_subject_from r e todo (S cnt) p
              | Some str =>
                  if subject_type_eqb t EXE_DIR then
                    rc <- subj_dir_test (s_at r cnt) a (is_subj_trusted e) ;;
                    if rc =? 0 then Ret (0, p)
                    else check_subject_from r e todo (S cnt) p
                  else
                    rstr <- deref (subj_str (s_at r cnt)) ;;
                    if subject_type_eqb t EXE
                       && (strcmp rstr "untrusted" =? 0) then
                      if is_subj_trusted e then Ret (0, p)
                      else check_subject_from r e todo (S cnt) p
                    else if negb (strcmp str rstr =? 0) then Ret (0, p)
                    else check_subject_from r e todo (S cnt) p
              end
            else if negb (subj_val a =? subj_val (s_at r cnt)) then Ret (0, p)
            else check_subject_from r e todo (S cnt) p).
  { cbn [check_subject_from]. rewrite Htype.
    rewrite (subject_type_eqb_neq t ALL_SUBJ Hall), Hattr,
      (subject_type_eqb_neq t PATTERN Hpat). reflexivity. }
  split; [|split].
  - intros path -> Hcomm Hv Hsv. rewrite Hhead.
    apply Z.leb_le in Hcomm. rewrite Hcomm, Hsv, Hv. reflexivity.
  - intros v sv Hcomm Hdir Hexe Hv Hsv. rewrite Hhead.
    apply Z.leb_le in Hcomm.
    rewrite Hcomm, Hsv, Hv, (subject_type_eqb_neq t EXE_DIR Hdir).
    cbn [deref bind]. rewrite !strcmp_eqb.
    assert (E : subject_type_eqb t EXE && String.eqb v "untrusted" = false).
    { destruct (subject_type_eqb t EXE) eqn:Et; [|reflexivity].
      apply subject_type_eqb_eq in Et. apply String.eqb_neq. now apply Hexe. }
    rewrite E. now destruct (String.eqb sv v).
  - intros Hnum. rewrite Hhead.
    apply Z.leb_gt in Hnum. rewrite Hnum.
    now destruct (subj_val a =? subj_val (s_at r cnt)).
Qed.

(** X10.  How one object field is tested, at any position of the rule,
    when the event carries the attribute.  A trust field looks at the
    first byte of the rule's value only: it passes exactly when that byte
    is 1 for an object with a non-zero trust length and 0 for one with a
    zero length.  A path field whose subject slot of the same position is
    an [exe] or a subject directory with the value [untrusted] does not
    compare the path at all: it passes exactly when the object is not
    trusted.  A file-type field with the value [any] always passes. *)
Theorem object_field_tests (r : lnode) (e : event_t) (todo cnt : nat)
    (a : object_attr_t) :
  (forall v,
     obj_type (o_at r cnt) = Some OBJ_TRUST ->
     get_obj_attr e OBJ_TRUST = Some a ->
     obj_o (o_at r cnt) = Some v ->
     check_object_from r e (S todo) cnt
     = if Ascii.eqb (if obj_len a =? 0 then "0"%char else "1"%char)
                    (first_char v)
       then check_object_from r e todo (S cnt) else Ret 0) /\
  (forall path st,
     obj_type (o_at r cnt) = Some PATH ->
     get_obj_attr e PATH = Some a -> obj_o a = Some path ->
     subj_type (s_at r cnt) = Some st -> st = EXE \/ st = EXE_DIR ->
     subj_str (s_at r cnt) = Some "untrusted" ->
     check_object_from r e (S todo) cnt
     = if is_obj_trusted e then Ret 0
       else check_object_from r e todo (S cnt)) /\
  (forall ftype,
     obj_type (o_at r cnt) = Some FTYPE ->
     get_obj_attr e FTYPE = Some a -> obj_o a = Some ftype ->
     obj_o (o_at r cnt) = Some "any" ->
     check_object_from r e (S todo) cnt = check_object_from r e todo (S cnt)).
Proof.
  split; [|split].
  - intros v Ht Ha Hv. cbn [check_object_from]. rewrite Ht. cbn.
    rewrite Ha, Hv.
    destruct (obj_o a); cbn;
      destruct (obj_len a =? 0); cbn [first_char];
      match goal with
      | |- context [Ascii.eqb ?x ?y] => destruct (Ascii.eqb x y)
      end; reflexivity.
  - intros path st Ht Ha Hp Hst Hexe Hv. cbn [check_object_from].
    rewrite Ht. cbn. rewrite Ha, Hp.
    unfold paired_subject_untrusted. rewrite Hst, Hv.
    destruct Hexe as [-> | ->]; reflexivity.
  - intros ftype Ht Ha Hp Hv. cbn [check_object_from].
    rewrite Ht. cbn. rewrite Ha, Hp, Hv. reflexivity.
Qed.

End SingleFields.

(** ** Evaluating the rules the parser built *)

Section EvaluationReturns.

Context {X : Collaborators}.

(** The numbering puts the executable and its directory among the string
    types, and [clear_proc_info] keeps the state of the entry. *)
Hypothesis EXE_is_string : subj_code COMM <= subj_code EXE.
Hypothesis EXE_DIR_is_string : subj_code COMM <= subj_code EXE_DIR.
Hypothesis clear_keeps_state : forall q, state (clear_proc_info q) = state q.

Lemma obj_dir_test_returns (o obj : object_attr_t) (trusted : bool) (v p : string) :
  obj_o o = Some v -> obj_o obj = Some p ->
  exists rc, obj_dir_test o obj trusted = Ret rc.
Proof.
  intros Ho Hp. unfold obj_dir_test, obj_is_macro. rewrite Ho, Hp.
  cbn [deref bind].
  destruct (obj_len o =? 8); cbn [bind];
    [destruct (strcmp v "execdirs" =? 0); [eexists; reflexivity|]|];
    (destruct (obj_len o =? 10); cbn [bind];
     [destruct (strcmp v "systemdirs" =? 0); [eexists; reflexivity|];
      destruct (strcmp v "untrusted" =? 0);
      [destruct trusted; eexists; reflexivity|]
     |]);
    destruct (negb _); eexists; reflexivity.
Qed.

Lemma subj_dir_test_returns (s subj : subject_attr_t) (trusted : bool)
    (v p : string) :
  subj_str s = Some v -> subj_str subj = Some p ->
  exists rc, subj_dir_test s subj trusted = Ret rc.
Proof.
  intros Hs Hp. unfold subj_dir_test. rewrite Hs, Hp. cbn [deref bind].
  destruct ((strlen v =? 8)%nat && (strcmp v "execdirs" =? 0));
    [eexists; reflexivity|].
  destruct ((strlen v =? 10)%nat && (strcmp v "systemdirs" =? 0));
    [eexists; reflexivity|].
  destruct ((strlen v =? 10)%nat && (strcmp v "untrusted" =? 0));
    [destruct trusted; eexists; reflexivity|].
  destruct (negb _); eexists; reflexivity.
Qed.

Lemma pattern_match_leaves_FULL (s : subject_attr_t) (e : event_t)
    (p p' : proc_info) :
  subj_pattern_test s e p = Ret (1, p') -> state p' <> STATE_FULL.
Proof.
  intros H.
  destruct (subj_pattern_test_contract s e p 1 p' H) as (_ & _ & Hm).
  destruct (Hm eq_refl) as (st & -> & Hst).
  rewrite clear_keeps_state. cbn.
  destruct Hst as [[_ ->] | [[_ ->] | [_ [-> | [-> | ->]]]]]; discriminate.
Qed.

Lemma check_subject_from_returns (r : lnode) (e : event_t) (todo : nat) :
  wf_node r ->
  forall cnt p, first_path_present p ->
    exists rc p', check_subject_from r e todo cnt p = Ret (rc, p').
Proof.
  intros (_ & _ & _ & _ & _ & Hstr & _).
  induction todo as [|todo IH]; intros cnt p Hp; [now eexists; eexists|].
  cbn [check_subject_from].
  destruct (subj_type (s_at r cnt)) as [type|] eqn:Et; [|now apply IH].
  destruct (subject_type_eqb type ALL_SUBJ); [now apply IH|].
  assert (Hpat : exists rc p',
            ('(rc, pinfo) <- subj_pattern_test (s_at r cnt) e p ;;
             if rc =? 0 then Ret (0, pinfo)
             else if rc =? -1 then Ret (1, pinfo)
             else check_subject_from r e todo (S cnt) pinfo) = Ret (rc, p')).
  { destruct (subj_pattern_test_returns (s_at r cnt) e p Hp)
      as (rc1 & p1 & E).
    rewrite E. cbn [bind].
    destruct (subj_pattern_test_contract _ _ _ _ _ E) as ([-> | [-> | ->]] & _);
      cbn; try (now eexists; eexists).
    apply IH. intros F. exfalso.
    exact (pattern_match_leaves_FULL _ _ _ _ E F). }
  destruct (get_subj_attr e type) as [subj|];
    destruct (subject_type_eqb type PATTERN);
    try exact Hpat; try (now apply IH).
  destruct (subj_code COMM <=? subj_code type) eqn:Ec.
  - apply Z.leb_le in Ec.
    destruct (subj_str (s_at r cnt)) as [rstr|] eqn:Er;
      [|exfalso; exact (Hstr cnt type Et Ec Er)].
    destruct (subj_str subj) as [str|] eqn:Es; [|now apply IH].
    destruct (subject_type_eqb type EXE_DIR).
    + destruct (subj_dir_test_returns (s_at r cnt) subj (is_subj_trusted e)
                  rstr str Er Es) as [rc1 ->].
      cbn [bind]. destruct (rc1 =? 0); [now eexists; eexists | now apply IH].
    + cbn [deref bind].
      destruct (subject_type_eqb type EXE && (strcmp rstr "untrusted" =? 0)).
      * destruct (is_subj_trusted e); [now eexists; eexists | now apply IH].
      * destruct (negb _); [now eexists; eexists | now apply IH].
  - destruct (negb _); [now eexists; eexists | now apply IH].
Qed.

Lemma check_object_from_returns (r : lnode) (e : event_t) (todo : nat) :
  wf_node r ->
  forall cnt, exists rc, check_object_from r e todo cnt = Ret rc.
Proof.
  intros (_ & _ & _ & _ & _ & Hstr & _ & Hobj).
  induction todo as [|todo IH]; intros cnt; [now eexists|].
  cbn [check_object_from].
  destruct (obj_type (o_at r cnt)) as [type|] eqn:Et; [|apply IH].
  destruct (Hobj cnt type Et) as (v & Hv & _).
  destruct (object_type_eqb type ALL_OBJ); [apply IH|].
  destruct (get_obj_attr e type) as [obj|]; [|apply IH].
  assert (Hpair : exists b, paired_subject_untrusted r cnt = Ret b).
  { unfold paired_subject_untrusted.
    destruct (subj_type (s_at r cnt)) as [st|] eqn:Es;
      [|now eexists].
    destruct st; try (now eexists).
    - destruct (subj_str (s_at r cnt)) eqn:Er;
        [now eexists | exfalso; exact (Hstr cnt EXE Es EXE_is_string Er)].
    - destruct (subj_str (s_at r cnt)) eqn:Er;
        [now eexists | exfalso; exact (Hstr cnt EXE_DIR Es EXE_DIR_is_string Er)]. }
  destruct (object_type_eqb type OBJ_TRUST) eqn:Etr.
  - (* a trust field: [obj->o] is not read *)
    apply object_type_eqb_eq in Etr. subst type.
    assert (G : exists rc,
              (if object_type_eqb OBJ_TRUST ODIR then
                 rc <- obj_dir_test (o_at r cnt) obj (is_obj_trusted e) ;;
                 if rc =? 0 then Ret 0 else check_object_from r e todo (S cnt)
               else
                 b <- (if object_type_eqb OBJ_TRUST PATH
                       then paired_subject_untrusted r cnt
                       else Ret false) ;;
                 if b then
                   if is_obj_trusted e then Ret 0
                   else check_object_from r e todo (S cnt)
                 else if object_type_eqb OBJ_TRUST OBJ_TRUST then
                   let val := if obj_len obj =? 0 then "0" else "1" in
                   rstr <- deref (obj_o (o_at r cnt)) ;;
                   if negb (Ascii.eqb (first_char val) (first_char rstr))
                   then Ret 0 else check_object_from r e todo (S cnt)
                 else
                   rstr <- deref (obj_o (o_at r cnt)) ;;
                   if object_type_eqb OBJ_TRUST FTYPE
                      && (strcmp rstr "any" =? 0)
                   then check_object_from r e todo (S cnt)
                   else
                     ostr <- deref (obj_o obj) ;;
                     if negb (strcmp ostr rstr =? 0) then Ret 0
                     else check_object_from r e todo (S cnt)) = Ret rc).
    { cbn. rewrite Hv. cbn [deref bind].
      destruct (negb _); [now eexists | apply IH]. }
    destruct (obj_o obj); exact G.
  - destruct (obj_o obj) as [ostr|] eqn:Eo; [|apply IH].
    destruct (object_type_eqb type ODIR).
    + destruct (obj_dir_test_returns (o_at r cnt) obj (is_obj_trusted e)
                  v ostr Hv Eo) as [rc1 ->].
      cbn [bind]. destruct (rc1 =? 0); [now eexists | apply IH].
    + destruct (object_type_eqb type PATH).
      * destruct Hpair as [b ->]. cbn [bind].
        destruct b.
        -- destruct (is_obj_trusted e); [now eexists | apply IH].
        -- rewrite Hv. cbn [deref bind].
           destruct (object_type_eqb type FTYPE && _); [apply IH|].
           destruct (negb _); [now eexists | apply IH].
      * cbn [bind]. rewrite Hv. cbn [deref bind].
        destruct (object_type_eqb type FTYPE && _); [apply IH|].
        destruct (negb _); [now eexists | apply IH].
Qed.

Lemma wf_rule_evaluate_returns (r : lnode) (e : event_t) (p : proc_info) :
  wf_node r -> first_path_present p ->
  exists d p', rule_evaluate r e p = Ret (d, p').
Proof.
  intros Hwf Hp. unfold rule_evaluate, check_subject, check_object.
  destruct (check_access r e =? 0); [now eexists; eexists|].
  destruct (check_subject_from_returns r e (s_count r) Hwf 0 p Hp)
    as (rc & p' & ->).
  cbn [bind]. destruct (rc =? 0); [now eexists; eexists|].
  destruct (check_object_from_returns r e (o_count r) Hwf 0) as (rc2 & ->).
  cbn [bind]. destruct (rc2 =? 0); now eexists; eexists.
Qed.

End EvaluationReturns.

Section BuiltRules.

Context {X : Collaborators}.

(** X11.  The parser and the evaluator fit together.  With the
    executable and its directory numbered among the string types and a
    [clear_proc_info] that keeps the state of the entry, evaluating a rule
    of a built store returns a decision: no string of the rule that the
    evaluator reads is missing, whatever the event carries.  The one thing
    asked of the pattern state is that an entry in state FULL without the
    error flag has its first path. *)
Theorem built_rules_evaluate (l : llist) (r : lnode) (e : event_t)
    (p : proc_info)
    (Hbuilt : built l) (Hin : In r (nodes l))
    (Hexe : subj_code COMM <= subj_code EXE)
    (Hdir : subj_code COMM <= subj_code EXE_DIR)
    (Hclear : forall q, state (clear_proc_info q) = state q)
    (Hpath : first_path_present p) :
  exists d p',
    rule_evaluate r e p = Ret (d, p') /\ (d = NO_OPINION \/ d = r_d r).
Proof.
  pose proof (built_rules_ok l Hbuilt) as Hok.
  rewrite Forall_forall in Hok. destruct (Hok r Hin) as (Hwf & _).
  destruct (wf_rule_evaluate_returns Hexe Hdir Hclear r e p Hwf Hpath)
    as (d & p' & E).
  exists d, p'. split; [exact E|].
  unfold rule_evaluate in E.
  destruct (check_access r e =? 0); [injection E as <- _; now left|].
  destruct (check_subject r e p) as [[rc1 p1]| |]; cbn [bind] in E;
    try discriminate.
  destruct (rc1 =? 0); [injection E as <- _; now left|].
  destruct (check_object r e) as [rc2| |]; cbn [bind] in E; try discriminate.
  destruct (rc2 =? 0); injection E as <- _; auto.
Qed.

(** X12.  An entry whose state is numbered above FULL is settled: a
    query goes straight to the decision step, answers 1 exactly when the
    rule's pattern code names that state, and hands the entry to
    [clear_proc_info] with its state as it was.  With a [clear_proc_info]
    that keeps the state, the next query for the same pattern gets the same
    answer. *)
Theorem settled_entry_answers_alike (s : subject_attr_t) (e : event_t)
    (p : proc_info)
    (Hpast : state_code STATE_FULL < state_code (state p))
    (Hclear : forall q, state (clear_proc_info q) = state q) :
  exists rc,
    subj_pattern_test s e p = Ret (rc, clear_proc_info p) /\
    (rc = 1 \/ rc = 0) /\
    (rc = 1 <-> pattern_matches (subj_val s) (state p)) /\
    subj_pattern_test s e (clear_proc_info p)
    = Ret (rc, clear_proc_info (clear_proc_info p)).
Proof.
  assert (G : forall q, state q = state p ->
            subj_pattern_test s e q = make_decision s q).
  { intros q Hq. unfold subj_pattern_test. rewrite Hq.
    assert (E1 : (state_code (state p) <? state_code STATE_FULL) = false)
      by (apply Z.ltb_ge; lia).
    rewrite E1.
    destruct (state_eqb (state p) STATE_FULL) eqn:E2; [|reflexivity].
    apply state_eqb_eq in E2. rewrite E2 in Hpast. lia. }
  destruct (make_decision_spec s p) as (rc & E & Hb & Hm).
  destruct (make_decision_spec s (clear_proc_info p)) as (rc' & E' & Hb' & Hm').
  rewrite Hclear in Hm'.
  assert (rc' = rc) by (destruct Hb as [-> | ->], Hb' as [-> | ->];
                        try reflexivity; exfalso;
                        [assert (0 = 1) by (apply Hm', Hm; reflexivity)
                        |assert (0 = 1) by (apply Hm, Hm'; reflexivity)];
                        discriminate).
  subst rc'.
  exists rc. rewrite (G p eq_refl), (G (clear_proc_info p) (Hclear p)).
  repeat split; try assumption; apply Hm.
Qed.

End BuiltRules.

(** ** Numbers, directory macros and the colon format *)

Lemma digits_value_stops (ds : string) (c : ascii) (rest : string) :
  all_digits ds = true -> isdigit c = false ->
  forall acc, digits_value acc (ds ++ String c rest) = digits_value acc ds.
Proof.
  intros Hds Hc. induction ds as [|d ds IH]; intros acc; simpl.
  - now rewrite Hc.
  - simpl in Hds. apply andb_true_iff in Hds as [Hd Hds].
    rewrite Hd. now apply IH.
Qed.

Section Numbers.

Context {X : Collaborators}.

(** X13.  A numeric subject field other than the pattern, whose value
    starts with a digit, is read by [strtol] with no look at where the
    number ends: bytes after the leading digits are ignored, so that
    [uid=12abc] is taken as [uid=12]: the line with the trailing bytes
    gives the very result and the very rule of the line without them.
    When the digits do not exceed LONG_MAX the field is counted under its
    type; when they do, the result is 2 and the field is not counted. *)
Theorem numeric_field_reads_leading_digits (n : lnode) (t : subject_type_t)
    (d : ascii) (ds : string) (lineno : Z)
    (Hnum : subj_code t < subj_code COMM) (Hpat : t <> PATTERN)
    (Hslots : List.length (r_s n) = MAX_FIELDS)
    (Hroom : (s_count n < MAX_FIELDS)%nat)
    (Hdigits : all_digits (String d ds) = true) :
  (forall c rest, isdigit c = false ->
     assign_subject n t (String d ds ++ String c rest) lineno
     = assign_subject n t (String d ds) lineno) /\
  (digits_value 0 (String d ds) <= LONG_MAX ->
   exists n',
     assign_subject n t (String d ds) lineno = Ret (0, n') /\
     s_count n' = S (s_count n) /\
     subj_type (s_at n' (s_count n)) = Some t) /\
  (LONG_MAX < digits_value 0 (String d ds) ->
   exists n',
     assign_subject n t (String d ds) lineno = Ret (2, n') /\
     s_count n' = s_count n).
Proof.
  assert (Hd : isdigit d = true)
    by (simpl in Hdigits; now apply andb_true_iff in Hdigits as [? _]).
  assert (Hhead : forall v, starts_with_digit v = true ->
            assign_subject n t v lineno
            = let '(x, errno) := strtol10 v in
              let n1 := set_s (set_s n (s_count n)
                                 (fun a => with_subj_type a (Some t)))
                          (s_count n) (fun a => with_subj_val a x) in
              if errno then Ret (2, n1) else subject_assigned n1).
  { intros v Hv. unfold assign_subject.
    pose proof Hroom as Hr. apply Nat.leb_gt in Hr. rewrite Hr.
    assert (E : (subj_code COMM <=? subj_code t) = false)
      by (apply Z.leb_gt; exact Hnum).
    rewrite E, (subject_type_eqb_neq t PATTERN Hpat), Hv. reflexivity. }
  split; [|split].
  - intros c rest Hc.
    rewrite (Hhead (String d ds ++ String c rest)), (Hhead (String d ds));
      try (simpl; exact Hd).
    unfold strtol10. now rewrite (digits_value_stops _ c rest Hdigits Hc).
  - intros Hle. rewrite (Hhead (String d ds)) by (simpl; exact Hd).
    unfold strtol10.
    assert (E : (LONG_MAX <? digits_value 0 (String d ds)) = false)
      by (apply Z.ltb_ge; exact Hle).
    rewrite E. cbv zeta. unfold subject_assigned.
    eexists. split; [reflexivity|]. split; [reflexivity|].
    unfold s_at, with_s_count, set_s, with_s. cbn [r_s].
    rewrite !nth_update_same; try reflexivity;
      rewrite ?update_length; lia.
  - intros Hgt. rewrite (Hhead (String d ds)) by (simpl; exact Hd).
    unfold strtol10. apply Z.ltb_lt in Hgt. rewrite Hgt.
    eexists. split; reflexivity.
Qed.

End Numbers.

Lemma check_dirs_in_app (t1 t2 : list (nat * string)) (path : string) :
  check_dirs_in t2 path = 1 -> check_dirs_in (t1 ++ t2) path = 1.
Proof.
  intros H. induction t1 as [|[v name] t1 IH]; simpl; [exact H|].
  now destruct (strncmp path name v =? 0).
Qed.

(** X14.  The table of directories is scanned from the given entry to
    its end, so a later start matches less: whatever [check_dirs] matches
    from entry [j] it matches from any entry [i] before it, and from an
    entry past the table it matches nothing.  In particular every path the
    macro [execdirs] matches is matched by [systemdirs], for object and
    subject fields alike. *)
Theorem check_dirs_later_start_matches_less (path : string) (trusted : bool) :
  (forall i j, (i <= j)%nat ->
     check_dirs j path = 1 -> check_dirs i path = 1) /\
  (forall i, (7 <= i)%nat -> check_dirs i path = 0) /\
  (obj_dir_test (odir "execdirs") (odir path) trusted = Ret 1 ->
   obj_dir_test (odir "systemdirs") (odir path) trusted = Ret 1) /\
  (subj_dir_test (sdir "execdirs") (sdir path) trusted = Ret 1 ->
   subj_dir_test (sdir "systemdirs") (sdir path) trusted = Ret 1).
Proof.
  assert (M : forall i j, (i <= j)%nat ->
            check_dirs j path = 1 -> check_dirs i path = 1).
  { intros i j Hij. unfold check_dirs.
    replace j with ((j - i) + i)%nat by lia.
    rewrite <- skipn_skipn.
    rewrite <- (firstn_skipn (j - i) (skipn i dirs)) at 2.
    apply check_dirs_in_app. }
  split; [exact M|]. split.
  - intros i Hi. unfold check_dirs.
    rewrite skipn_all2; [reflexivity | exact Hi].
  - split; intros H.
    + change (Ret (check_dirs 1 path) = Ret 1) in H.
      change (Ret (check_dirs 0 path) = Ret 1).
      injection H as H. f_equal. apply (M 0%nat 1%nat); [lia | exact H].
    + change (Ret (check_dirs 1 path) = Ret 1) in H.
      change (Ret (check_dirs 0 path) = Ret 1).
      injection H as H. f_equal. apply (M 0%nat 1%nat); [lia | exact H].
Qed.

Section ColonFormat.

Context {X : Collaborators}.

Lemma parse_new_format_keeps_access (toks : list string) (state : Z)
    (n : lnode) (lineno rc : Z) (n' : lnode) :
  parse_new_format toks state n lineno = Ret (rc, n') -> r_a n' = r_a n.
Proof.
  apply (parse_new_format_keeps (fun m => r_a m = r_a n)); [| |reflexivity].
  - intros m t v ln c m' Pm E.
    destruct (assign_subject_result _ _ _ _ _ _ E) as (_ & (_ & Ha & _) & _).
    now rewrite Ha.
  - intros m t v ln c m' Pm E.
    destruct (assign_object_result _ _ _ _ _ _ E) as (_ & (_ & Ha & _) & _).
    now rewrite Ha.
Qed.

(** X15.  A line in the colon format whose first field is [perm=v].
    For [v] other than execute, any and open the result is 2.  Otherwise
    the access is set accordingly and the remaining tokens go to
    [parse_new_format], whose result is dropped: the only errors reported
    from there are 6 (no subject) and 7 (no object), whatever the remaining
    tokens are. *)
Theorem colon_perm_then_only_counts (buf dec v : string) (toks : list string)
    (d : decision_t) (lineno : Z) (n : lnode)
    (Htoks : strtok_all buf = dec :: ("perm=" ++ v) :: toks)
    (Hcolon : has_char ":" buf = true)
    (Hhash : first_char dec <> "#"%char)
    (Hdec : dec_name_to_val dec = Some d) :
  (access_of_perm v = None ->
   exists n', nv_split buf n lineno = Ret (2, n')) /\
  (forall a rc n',
     access_of_perm v = Some a ->
     nv_split buf n lineno = Ret (rc, n') ->
     (rc = 0 \/ rc = 6 \/ rc = 7) /\ r_a n' = a /\ r_d n' = d).
Proof.
  unfold nv_split. rewrite Htoks, Hcolon.
  apply Ascii.eqb_neq in Hhash. rewrite Hhash, Hdec.
  cbn [nv_split_fields].
  change (cut_at "=" ("perm=" ++ v)) with (Some ("perm", v)).
  change (strcmp "perm" "perm" =? 0) with true. cbv iota.
  unfold access_of_perm. rewrite !strcmp_eqb.
  set (n0 := with_a (with_d (with_format n RULE_FMT_COLON) d) OPEN_ACC).
  assert (R : forall m a rc n',
            r_a m = a -> r_d m = d ->
            ('(_, n) <- parse_new_format toks 0 m lineno ;; finish_up n)
            = Ret (rc, n') ->
            (rc = 0 \/ rc = 6 \/ rc = 7) /\ r_a n' = a /\ r_d n' = d).
  { intros m a rc n' Ha Hd H.
    destruct (parse_new_format toks 0 m lineno) as [[rc1 m1]| |] eqn:E;
      cbn [bind] in H; try discriminate.
    destruct (finish_up_result m1 rc n' H) as (-> & Hrc & _).
    split; [exact Hrc|].
    split; [now rewrite (parse_new_format_keeps_access _ _ _ _ _ _ E)|].
    revert E. apply (parse_new_format_keeps (fun k => r_d k = d)); auto.
    - intros k t x ln c k' Pk E.
      destruct (assign_subject_result _ _ _ _ _ _ E) as (_ & (Hd' & _) & _).
      now rewrite Hd'.
    - intros k t x ln c k' Pk E.
      destruct (assign_object_result _ _ _ _ _ _ E) as (_ & (Hd' & _) & _).
      now rewrite Hd'. }
  destruct (String.eqb v "execute").
  { split; [discriminate|]. intros a rc n' Ha. injection Ha as <-.
    now apply R. }
  destruct (String.eqb v "any").
  { split; [discriminate|]. intros a rc n' Ha. injection Ha as <-.
    now apply R. }
  destruct (String.eqb v "open"); cbn [negb].
  { split; [discriminate|]. intros a rc n' Ha. injection Ha as <-.
    now apply R. }
  split; [intros _; now eexists | discriminate].
Qed.

(** X16.  The separator of the colon format is known to
    [parse_new_format] only, which is entered after the first field with
    an = sign.  A line whose fields begin with the bare word [all] followed
    by the separator, and a line whose first field is the separator, are
    refused with the result 5, whatever follows. *)
Theorem colon_after_bare_all_is_refused (buf dec : string)
    (toks : list string) (d : decision_t) (lineno : Z) (n : lnode)
    (Hhash : first_char dec <> "#"%char)
    (Hdec : dec_name_to_val dec = Some d)
    (Hroom : (0 < MAX_FIELDS)%nat) :
  (strtok_all buf = dec :: ":" :: toks ->
   exists n', nv_split buf n lineno = Ret (5, n')) /\
  (strtok_all buf = dec :: "all" :: ":" :: toks -> s_count n = 0%nat ->
   exists n', nv_split buf n lineno = Ret (5, n')).
Proof.
  apply Ascii.eqb_neq in Hhash.
  split.
  - intros Htoks. unfold nv_split. rewrite Htoks, Hhash, Hdec.
    cbn [nv_split_fields]. cbn. now eexists.
  - intros Htoks Hs. unfold nv_split. rewrite Htoks, Hhash, Hdec.
    cbn [nv_split_fields].
    change (cut_at "=" "all") with (@None (string * string)).
    change (strcmp "all" "all" =? 0) with true. cbv iota.
    cbn [s_count with_a with_d with_format]. rewrite Hs. cbn [Nat.eqb].
    unfold assign_subject. cbn [s_count with_a with_d with_format].
    rewrite Hs. apply Nat.leb_gt in Hroom. rewrite Hroom.
    destruct (subj_code COMM <=? subj_code ALL_SUBJ);
      cbn; now eexists.
Qed.

End ColonFormat.

(** ** Tokens, array bounds and the legacy format *)

Lemma fields_nonempty (s : string) : fields s <> [].
Proof.
  destruct s as [|c r]; simpl; [discriminate|].
  destruct (Ascii.eqb c " "); [discriminate|].
  destruct (fields r); discriminate.
Qed.

Lemma fields_space (s t : string) :
  fields (s ++ String " " t) = (fields s ++ fields t)%list.
Proof.
  induction s as [|c r IH]; simpl; [reflexivity|].
  rewrite IH. destruct (Ascii.eqb c " "); [reflexivity|].
  pose proof (fields_nonempty r) as N.
  destruct (fields r); [contradiction | reflexivity].
Qed.

Lemma strtok_all_space (s t : string) :
  strtok_all (s ++ String " " t) = (strtok_all s ++ strtok_all t)%list.
Proof. unfold strtok_all. now rewrite fields_space, filter_app. Qed.

Lemma strtok_all_trailing (s : string) (k : nat) :
  strtok_all (s ++ blanks k) = strtok_all s.
Proof.
  destruct k as [|k]; simpl.
  - f_equal. induction s as [|c r IH]; simpl; [reflexivity | now rewrite IH].
  - rewrite strtok_all_space, strtok_all_only_blanks. apply app_nil_r.
Qed.

Lemma has_char_blanks_l (c : ascii) (k : nat) (s : string) :
  c <> " "%char -> has_char c (blanks k ++ s) = has_char c s.
Proof.
  intros Hc. induction k as [|k IH]; [reflexivity|].
  cbn [blanks append has_char].
  destruct (Ascii.eqb " " c) eqn:E; [|exact IH].
  apply Ascii.eqb_eq in E. congruence.
Qed.

Lemma has_char_blanks_r (c : ascii) (k : nat) (s : string) :
  c <> " "%char -> has_char c (s ++ blanks k) = has_char c s.
Proof.
  intros Hc. induction s as [|x r IH]; cbn [append has_char].
  - induction k as [|k IHk]; [reflexivity|].
    cbn [blanks has_char].
    destruct (Ascii.eqb " " c) eqn:E; [|exact IHk].
    apply Ascii.eqb_eq in E. congruence.
  - now rewrite IH.
Qed.

Section TokensAndBounds.

Context {X : Collaborators}.

(** X17.  [nv_split] sees a line through two things only: its tokens
    and whether it contains a colon.  Two lines that agree on both get the
    same result, and so spaces before the first token, spaces after the
    last one and runs of spaces between tokens make no difference, to
    [nv_split] and to [rules_append]. *)
Theorem parser_sees_tokens_only (n : lnode) (l : llist) (lineno : Z) :
  (forall b1 b2,
     strtok_all b1 = strtok_all b2 -> has_char ":" b1 = has_char ":" b2 ->
     nv_split b1 n lineno = nv_split b2 n lineno /\
     rules_append l (Some b1) lineno = rules_append l (Some b2) lineno) /\
  (forall j k buf,
     nv_split (blanks j ++ buf ++ blanks k) n lineno = nv_split buf n lineno /\
     rules_append l (Some (blanks j ++ buf ++ blanks k)) lineno
     = rules_append l (Some buf) lineno) /\
  (forall k s t,
     nv_split (s ++ String " " (blanks k ++ t)) n lineno
     = nv_split (s ++ String " " t) n lineno).
Proof.
  assert (G : forall m b1 b2,
            strtok_all b1 = strtok_all b2 ->
            has_char ":" b1 = has_char ":" b2 ->
            nv_split b1 m lineno = nv_split b2 m lineno).
  { intros m b1 b2 Ht Hc. unfold nv_split. now rewrite Ht, Hc. }
  assert (C : " "%char <> ":"%char) by discriminate.
  split; [|split].
  - intros b1 b2 Ht Hc. split; [now apply G|].
    unfold rules_append. now rewrite (G fresh_node b1 b2 Ht Hc).
  - intros j k buf.
    assert (Ht : strtok_all (blanks j ++ buf ++ blanks k) = strtok_all buf)
      by (now rewrite strtok_all_blanks, strtok_all_trailing).
    assert (Hc : has_char ":" (blanks j ++ buf ++ blanks k) = has_char ":" buf).
    { rewrite has_char_blanks_l, has_char_blanks_r; congruence. }
    split; [now apply G|].
    unfold rules_append. now rewrite (G fresh_node _ _ Ht Hc).
  - intros k s t. apply G.
    + now rewrite !strtok_all_space, strtok_all_blanks.
    + induction s as [|x r IH]; cbn [append has_char].
      * change (Ascii.eqb " " ":") with false. cbv iota.
        apply has_char_blanks_l. congruence.
      * now rewrite IH.
Qed.

Lemma parse_new_format_object_part (toks : list string) :
  forall n lineno rc n',
    parse_new_format toks 1 n lineno = Ret (rc, n') ->
    r_s n' = r_s n /\ s_count n' = s_count n /\
    (rc = 0 \/ rc = 2 \/ rc = 5).
Proof.
  induction toks as [|ptr toks IH]; intros n lineno rc n' H;
    cbn [parse_new_format] in H.
  { injection H as <- <-. auto. }
  change (1 =? 0) with false in H. cbn [andb] in H.
  destruct (cut_at "=" ptr) as [[key val]|].
  - destruct (obj_name_to_val key) as [t|];
      [|injection H as <- <-; auto].
    destruct (assign_object n t val lineno) as [[rc1 n1]| |] eqn:EA;
      cbn [bind] in H; try discriminate.
    destruct (assign_object_result _ _ _ _ _ _ EA) as (_ & _ & Hs & Hc & _).
    destruct (IH _ _ _ _ H) as (Hs' & Hc' & Hrc).
    rewrite Hs', Hc', Hs, Hc. auto.
  - destruct (strcmp ptr "all" =? 0); [|injection H as <- <-; auto].
    destruct (assign_object n ALL_OBJ "" lineno) as [[rc1 n1]| |] eqn:EA;
      cbn [bind] in H; try discriminate.
    destruct (assign_object_result _ _ _ _ _ _ EA) as (_ & _ & Hs & Hc & _).
    destruct (IH _ _ _ _ H) as (Hs' & Hc' & Hrc).
    rewrite Hs', Hc', Hs, Hc. auto.
Qed.

(** X18.  In [parse_new_format] the separator is a one-way door: after
    it every token is read as an object field, and the subject fields and
    their count stay as they were.  A field name the object dictionary does
    not know ends the loop with 2 there, a token without = other than
    [all] with 5; a second separator is such a token. *)
Theorem after_separator_only_objects (toks : list string) (n : lnode)
    (lineno rc : Z) (n' : lnode)
    (H : parse_new_format (":" :: toks) 0 n lineno = Ret (rc, n')) :
  r_s n' = r_s n /\ s_count n' = s_count n /\
  (rc = 0 \/ rc = 2 \/ rc = 5) /\
  (In ":" toks -> rc = 2 \/ rc = 5).
Proof.
  cbn in H.
  destruct (parse_new_format_object_part toks n lineno rc n' H)
    as (Hs & Hc & Hrc).
  repeat split; try assumption.
  intros Hin. destruct Hrc as [-> | Hrc]; [|exact Hrc].
  exfalso. clear Hs Hc. revert n H.
  induction toks as [|ptr toks IH]; intros n H; [destruct Hin|].
  cbn [parse_new_format] in H.
  change (1 =? 0) with false in H. cbn [andb] in H.
  destruct Hin as [Heq | Hin].
  - subst ptr. cbn in H. discriminate.
  - destruct (cut_at "=" ptr) as [[key val]|].
    + destruct (obj_name_to_val key) as [t|]; [|discriminate].
      destruct (assign_object n t val lineno) as [[rc1 n1]| |];
        cbn [bind] in H; try discriminate.
      exact (IH Hin n1 H).
    + destruct (strcmp ptr "all" =? 0); [|discriminate].
      destruct (assign_object n ALL_OBJ "" lineno) as [[rc1 n1]| |];
        cbn [bind] in H; try discriminate.
      exact (IH Hin n1 H).
Qed.

(** X19.  The arrays of a node have MAX_FIELDS slots and the parser does
    not test the count before it stores a field.  In the legacy format, a
    run of string-typed subject fields longer than the room left in the
    array makes [nv_split_fields] store past its end. *)
Theorem too_many_subject_fields_overflow (toks : list string) (lineno : Z) :
  (forall tok, In tok toks ->
     exists key val t,
       cut_at "=" tok = Some (key, val) /\
       subj_name_to_val key (rformat_code RULE_FMT_ORIG) = Some t /\
       subj_code COMM <= subj_code t) ->
  forall n,
    (s_count n <= MAX_FIELDS)%nat ->
    (MAX_FIELDS - s_count n < List.length toks)%nat ->
    nv_split_fields toks RULE_FMT_ORIG n lineno = Fault.
Proof.
  induction toks as [|tok toks IH]; intros Hall n Hle Hlen;
    [simpl in Hlen; lia|].
  destruct (Hall tok (or_introl eq_refl)) as (key & val & t & Hcut & Hname & Hstr).
  cbn [nv_split_fields]. rewrite Hcut, Hname.
  unfold assign_subject at 1.
  destruct (MAX_FIELDS <=? s_count n)%nat eqn:Er; [reflexivity|].
  apply Nat.leb_gt in Er. apply Z.leb_le in Hstr. rewrite Hstr.
  unfold subject_assigned. cbn [bind]. change (0 =? 3) with false. cbv iota.
  apply IH.
  - intros tok' Hin. apply Hall. now right.
  - cbn. lia.
  - cbn. simpl in Hlen. lia.
Qed.

(** X20.  A rule from a line without a colon has the access OPEN, which
    the legacy format has no way to change; so on an event with the
    open-exec-permission bit it has no opinion, and the pattern state is
    not touched. *)
Theorem legacy_rule_skips_exec_events (buf : string) (lineno : Z)
    (R : lnode) (e : event_t) (p : proc_info)
    (Hparse : nv_split buf fresh_node lineno = Ret (0, R))
    (Hlegacy : has_char ":" buf = false)
    (Hexec : Z.land (e_type e) FAN_OPEN_EXEC_PERM <> 0) :
  r_a R = OPEN_ACC /\ r_format R = RULE_FMT_ORIG /\
  rule_evaluate R e p = Ret (NO_OPINION, p).
Proof.
  destruct (nv_split_contract buf fresh_node lineno 0 R Hparse)
    as (_ & _ & H0).
  destruct (H0 eq_refl) as (_ & _ & _ & Hf & Ha).
  rewrite Hlegacy in Hf. specialize (Ha Hlegacy).
  split; [exact Ha|]. split; [exact Hf|].
  unfold rule_evaluate, check_access, has_flag. rewrite Ha.
  apply Z.eqb_neq in Hexec. rewrite Hexec. reflexivity.
Qed.

End TokensAndBounds.

(** ** The further properties on the sample rules and events *)

Lemma sample_store_built : built (X:=sample) sample_store.
Proof.
  apply (built_append (X:=sample)
           (mk_llist [with_num deny_uid_rule 0] (Some 0%nat) 1)
           (Some "allow perm=any all : all") 2 0);
    [|vm_compute; reflexivity].
  apply (built_append (X:=sample) rules_create
           (Some "deny perm=any uid=1000 : all") 1 0);
    [apply built_create | vm_compute; reflexivity].
Qed.

Lemma rules_append_witness :
  rules_append (X:=sample) (mk_llist [with_num deny_uid_rule 0] (Some 0%nat) 1)
    (Some "allow perm=any all : all") 2 = Ret (0, sample_store) /\
  (forall i n,
     nth_error [with_num deny_uid_rule 0] i = Some n ->
     nth_error (nodes sample_store) i = Some n).
Proof.
  assert (H : rules_append (X:=sample)
                (mk_llist [with_num deny_uid_rule 0] (Some 0%nat) 1)
                (Some "allow perm=any all : all") 2 = Ret (0, sample_store))
    by (vm_compute; reflexivity).
  split; [exact H|].
  destruct (rules_append_only_adds_at_tail (X:=sample) _ _ _ _ _ H)
    as (_ & _ & _ & K & _).
  exact K.
Defined.

Lemma built_store_numbered_witness :
  cnt sample_store = 2 /\
  (forall i n, nth_error (nodes sample_store) i = Some n ->
               r_num n = Z.of_nat i).
Proof.
  destruct (built_store_is_numbered (X:=sample) sample_store
              sample_store_built) as (_ & K).
  apply K. vm_compute. reflexivity.
Defined.

Lemma nv_split_contract_witness :
  nv_split (X:=sample) "deny perm=any uid=1000 : all"
    (fresh_node (X:=sample)) 1 = Ret (0, deny_uid_rule) /\
  (1 <= s_count deny_uid_rule)%nat /\ (1 <= o_count deny_uid_rule)%nat /\
  r_format deny_uid_rule = RULE_FMT_COLON.
Proof.
  assert (H : nv_split (X:=sample) "deny perm=any uid=1000 : all"
                (fresh_node (X:=sample)) 1 = Ret (0, deny_uid_rule))
    by (vm_compute; reflexivity).
  split; [exact H|].
  destruct (nv_split_result_contract (X:=sample) _ _ _ _ _ H) as (_ & _ & K).
  destruct (K eq_refl) as (Hs & Ho & _ & Hf & _).
  repeat split; assumption.
Defined.

Lemma short_line_witness :
  (List.length
     (strtok_all
        "deny uid=1 uid=2 uid=3 uid=4 uid=5 uid=6 uid=7 path=/usr/bin/ls")
   = S (@MAX_FIELDS sample))%nat /\
  exists l' n',
    rules_append (X:=sample) rules_create
      (Some "deny uid=1 uid=2 uid=3 uid=4 uid=5 uid=6 uid=7 path=/usr/bin/ls")
      1 = Ret (0, l') /\
    nodes l' = [n'] /\ s_count n' = 7%nat /\ o_count n' = 1%nat /\
    rule_ok (X:=sample) n'.
Proof.
  split; [vm_compute; reflexivity|].
  destruct (short_line_stays_in_bounds (X:=sample) rules_create
              "deny uid=1 uid=2 uid=3 uid=4 uid=5 uid=6 uid=7 path=/usr/bin/ls"
              1) as (_ & [E | (rc & l' & E & K)]).
  - vm_compute. lia.
  - vm_compute in E. discriminate.
  - destruct K as [-> | (-> & n' & Hn & Hok)].
    + vm_compute in E. discriminate.
    + exists l', n'. split; [exact E|]. split; [exact Hn|].
      assert (E0 : exists m, rules_append (X:=sample) rules_create
                (Some "deny uid=1 uid=2 uid=3 uid=4 uid=5 uid=6 uid=7 path=/usr/bin/ls")
                1 = Ret (0, m) /\
                match nodes m with
                | [r] => s_count r = 7%nat /\ o_count r = 1%nat
                | _ => False
                end).
      { eexists. split; [vm_compute; reflexivity|]. cbn. split; reflexivity. }
      destruct E0 as (m & Em & Hm). rewrite Em in E.
      injection E as <-. rewrite Hn in Hm. cbn in Hm.
      destruct Hm as (H7 & H1). split; [exact H7|]. split; [exact H1|].
      exact Hok.
Defined.

Lemma rule_evaluate_contract_witness :
  rule_evaluate (X:=sample) deny_uid_rule sample_event full_bad_elf
  = Ret (DENY, full_bad_elf) /\
  (DENY = NO_OPINION \/ DENY = r_d deny_uid_rule) /\
  check_object deny_uid_rule sample_event = Ret 1.
Proof.
  assert (H : rule_evaluate (X:=sample) deny_uid_rule sample_event
                full_bad_elf = Ret (DENY, full_bad_elf))
    by (vm_compute; reflexivity).
  destruct (rule_evaluate_result_contract (X:=sample) deny_uid_rule
              sample_event full_bad_elf) as (_ & _ & _ & K).
  destruct (K DENY full_bad_elf H) as (K1 & K2).
  split; [exact H|]. split; [exact K1|].
  apply K2. discriminate.
Defined.

Lemma access_check_witness :
  check_access deny_legacy_rule sample_event <> 1 /\
  rule_evaluate (X:=sample) deny_legacy_rule sample_event full_ld_so
  = Ret (NO_OPINION, full_ld_so).
Proof.
  assert (H : check_access deny_legacy_rule sample_event <> 1)
    by (vm_compute; discriminate).
  split; [exact H|].
  exact (proj2 (access_check_comes_first (X:=sample) deny_legacy_rule
                  sample_event full_ld_so) H).
Defined.

Lemma absent_attributes_witness :
  check_subject (X:=sample) allow_all_rule sample_event full_ld_so
  = Ret (1, full_ld_so) /\
  check_object allow_all_rule sample_event = Ret 1 /\
  rule_evaluate (X:=sample) allow_all_rule sample_event full_ld_so
  = Ret (if check_access allow_all_rule sample_event =? 0
         then NO_OPINION else r_d allow_all_rule, full_ld_so).
Proof.
  apply (absent_attributes_match (X:=sample) allow_all_rule sample_event
           full_ld_so).
  - intros i Hi. exists ALL_SUBJ.
    destruct i; [split; [reflexivity | now left] | simpl in Hi; lia].
  - intros i Hi. exists ALL_OBJ.
    destruct i; [split; [reflexivity | now left] | simpl in Hi; lia].
Defined.

Lemma subject_field_witness :
  check_subject_from (X:=sample) deny_exe_untrusted_rule sample_event 1 0
    full_ld_so
  = (if is_subj_trusted sample_event then Ret (0, full_ld_so)
     else check_subject_from (X:=sample) deny_exe_untrusted_rule sample_event
            0 1 full_ld_so) /\
  check_subject_from (X:=sample) deny_uid_rule sample_event 1 0 full_ld_so
  = (if 1000 =? subj_val (s_at deny_uid_rule 0)
     then check_subject_from (X:=sample) deny_uid_rule sample_event 0 1
            full_ld_so
     else Ret (0, full_ld_so)).
Proof.
  split.
  - destruct (subject_field_tests (X:=sample) deny_exe_untrusted_rule
                sample_event 0 0 full_ld_so EXE
                (mk_subject_attr (Some EXE) 0 (Some "/usr/bin/ls")))
      as (K & _);
      [ reflexivity | discriminate | discriminate | reflexivity | ].
    apply (K "/usr/bin/ls"); first [reflexivity | vm_compute; discriminate].
  - destruct (subject_field_tests (X:=sample) deny_uid_rule
                sample_event 0 0 full_ld_so UID
                (mk_subject_attr (Some UID) 1000 None))
      as (_ & _ & K);
      [ reflexivity | discriminate | discriminate | reflexivity | ].
    apply K. vm_compute. reflexivity.
Defined.

Lemma object_field_witness :
  check_object_from deny_trusted_object_rule
    trusted_object_event 1 0
  = (if Ascii.eqb "1" (first_char "1")
     then check_object_from deny_trusted_object_rule
            trusted_object_event 0 1
     else Ret 0).
Proof.
  destruct (object_field_tests deny_trusted_object_rule
              trusted_object_event 0 0
              (mk_object_attr (Some OBJ_TRUST) None 1)) as (K & _).
  apply (K "1"); reflexivity.
Defined.

Lemma built_rules_evaluate_witness :
  exists d p',
    rule_evaluate (X:=sample) (with_num deny_uid_rule 0) sample_event
      full_ld_so = Ret (d, p') /\
    (d = NO_OPINION \/ d = r_d (with_num deny_uid_rule 0)).
Proof.
  apply (built_rules_evaluate (X:=sample) sample_store
           (with_num deny_uid_rule 0) sample_event full_ld_so
           sample_store_built).
  - now left.
  - vm_compute. discriminate.
  - vm_compute. discriminate.
  - intros q. reflexivity.
  - intros _ _. discriminate.
Defined.

Lemma settled_entry_witness :
  exists rc,
    subj_pattern_test (X:=sample) (s_at deny_ld_so_rule 0) sample_event
      settled_normal = Ret (rc, @clear_proc_info sample settled_normal) /\
    (rc = 1 \/ rc = 0) /\
    (rc = 1 <-> pattern_matches (subj_val (s_at deny_ld_so_rule 0))
                  (state settled_normal)) /\
    subj_pattern_test (X:=sample) (s_at deny_ld_so_rule 0) sample_event
      (@clear_proc_info sample settled_normal)
    = Ret (rc, @clear_proc_info sample (@clear_proc_info sample settled_normal)).
Proof.
  apply (settled_entry_answers_alike (X:=sample) (s_at deny_ld_so_rule 0)
           sample_event settled_normal).
  - vm_compute. reflexivity.
  - intros q. reflexivity.
Defined.

Lemma numeric_field_witness :
  (forall c rest, isdigit c = false ->
     assign_subject (X:=sample) (fresh_node (X:=sample)) UID
       ("12" ++ String c rest) 1
     = assign_subject (X:=sample) (fresh_node (X:=sample)) UID "12" 1) /\
  assign_subject (X:=sample) (fresh_node (X:=sample)) UID "12abc" 1
  = assign_subject (X:=sample) (fresh_node (X:=sample)) UID "12" 1.
Proof.
  destruct (numeric_field_reads_leading_digits (X:=sample)
              (fresh_node (X:=sample)) UID "1" "2" 1) as (K & _).
  - vm_compute. reflexivity.
  - discriminate.
  - reflexivity.
  - vm_compute. lia.
  - reflexivity.
  - split; [exact K|]. apply (K "a"%char "bc"). reflexivity.
Defined.

Lemma check_dirs_witness :
  obj_dir_test (odir "execdirs") (odir "/usr/bin/ls") false = Ret 1 /\
  obj_dir_test (odir "systemdirs") (odir "/usr/bin/ls") false = Ret 1.
Proof.
  assert (H : obj_dir_test (odir "execdirs") (odir "/usr/bin/ls") false = Ret 1)
    by reflexivity.
  split; [exact H|].
  destruct (check_dirs_later_start_matches_less "/usr/bin/ls" false)
    as (_ & _ & K & _).
  exact (K H).
Defined.

Lemma colon_perm_witness :
  exists rc n',
    nv_split (X:=sample) "deny perm=execute uid=0 : path=/x junk"
      (fresh_node (X:=sample)) 1 = Ret (rc, n') /\
    (rc = 0 \/ rc = 6 \/ rc = 7) /\ r_a n' = EXEC_ACC /\ r_d n' = DENY.
Proof.
  destruct (nv_split (X:=sample) "deny perm=execute uid=0 : path=/x junk"
              (fresh_node (X:=sample)) 1) as [[rc n']| st |] eqn:E;
    [ | vm_compute in E; discriminate | vm_compute in E; discriminate ].
  exists rc, n'. split; [reflexivity|].
  destruct (colon_perm_then_only_counts (X:=sample)
              "deny perm=execute uid=0 : path=/x junk" "deny" "execute"
              ["uid=0"; ":"; "path=/x"; "junk"] DENY 1
              (fresh_node (X:=sample))) as (_ & K);
    [ reflexivity | reflexivity | discriminate | reflexivity | ].
  exact (K EXEC_ACC rc n' eq_refl E).
Defined.

Lemma colon_after_bare_all_witness :
  exists n',
    nv_split (X:=sample) "allow all : all" (fresh_node (X:=sample)) 1
    = Ret (5, n').
Proof.
  destruct (colon_after_bare_all_is_refused (X:=sample) "allow all : all"
              "allow" ["all"] ALLOW 1 (fresh_node (X:=sample)))
    as (_ & K); try reflexivity; try discriminate.
  - vm_compute. lia.
  - apply K; reflexivity.
Defined.

Lemma parser_sees_tokens_witness :
  nv_split (X:=sample) "  deny   all all " (fresh_node (X:=sample)) 1
  = nv_split (X:=sample) "deny all all" (fresh_node (X:=sample)) 1.
Proof.
  destruct (parser_sees_tokens_only (X:=sample) (fresh_node (X:=sample))
              rules_create 1) as (K & _).
  apply (K "  deny   all all " "deny all all"); reflexivity.
Defined.

Lemma after_separator_witness :
  exists rc n',
    parse_new_format (X:=sample) [":"; "path=/x"; ":"; "uid=0"] 0
      (fresh_node (X:=sample)) 1 = Ret (rc, n') /\
    s_count n' = 0%nat /\ (rc = 2 \/ rc = 5).
Proof.
  destruct (parse_new_format (X:=sample) [":"; "path=/x"; ":"; "uid=0"] 0
              (fresh_node (X:=sample)) 1) as [[rc n']| st |] eqn:E;
    [ | vm_compute in E; discriminate | vm_compute in E; discriminate ].
  exists rc, n'. split; [reflexivity|].
  destruct (after_separator_only_objects (X:=sample) _ _ _ _ _ E)
    as (_ & Hc & _ & K).
  split; [exact Hc|]. apply K. right. now left.
Defined.

Lemma too_many_fields_witness :
  nv_split_fields (X:=sample) (repeat "exe=/bin/x" 9) RULE_FMT_ORIG
    (fresh_node (X:=sample)) 1 = Fault.
Proof.
  apply (too_many_subject_fields_overflow (X:=sample)).
  - intros tok Hin. apply repeat_spec in Hin. subst tok.
    exists "exe", "/bin/x", EXE. repeat split. vm_compute. discriminate.
  - vm_compute. lia.
  - vm_compute. lia.
Defined.

Lemma legacy_rule_witness :
  r_a deny_legacy_rule = OPEN_ACC /\
  r_format deny_legacy_rule = RULE_FMT_ORIG /\
  rule_evaluate (X:=sample) deny_legacy_rule sample_event full_ld_so
  = Ret (NO_OPINION, full_ld_so).
Proof.
  apply (legacy_rule_skips_exec_events (X:=sample)
           "deny uid=1000 path=/usr/lib64/libc.so.6" 1).
  - vm_compute. reflexivity.
  - reflexivity.
  - vm_compute. discriminate.
Defined.

(** ** The transitions of the pattern state and the order of legacy fields *)

Section Transitions.

Context {X : Collaborators}.

(** X21.  What a query does to the entry.  Either the entry is left
    untouched, or it is handed to [clear_proc_info] with a state that is
    the old one or one of NOT_ELF, STATIC_REOPEN, LD_SO, NORMAL and
    BAD_ELF, each under its own condition; the paths and the ELF flags are
    changed by [clear_proc_info] only.  The test never sets the states
    COLLECTING, PARTIAL, STATIC_PARTIAL, FULL or STATIC. *)
Theorem pattern_test_transitions (s : subject_attr_t) (e : event_t)
    (p : proc_info) (rc : Z) (p' : proc_info)
    (H : subj_pattern_test s e p = Ret (rc, p')) :
  (p' = p /\ rc = 0) \/
  exists st,
    p' = clear_proc_info (set_state p st) /\
    (st = state p \/
     (st = STATE_NOT_ELF /\ elf_info p = 0 /\ rc = 0) \/
     (st = STATE_STATIC_REOPEN /\ state p = STATE_COLLECTING /\
      Z.land (elf_info p) IS_ELF <> 0 /\ Z.land (elf_info p) HAS_DYNAMIC = 0) \/
     (st = STATE_LD_SO /\ path1 p = Some SYSTEM_LD_SO) \/
     (st = STATE_NORMAL /\ state p = STATE_FULL /\
      path1 p <> Some SYSTEM_LD_SO /\ Z.land (elf_info p) HAS_ERROR = 0) \/
     (st = STATE_BAD_ELF /\ state p = STATE_FULL /\
      Z.land (elf_info p) HAS_ERROR <> 0 /\ rc = -1)).
Proof.
  assert (D : forall q st, q = set_state p st ->
            make_decision s q = Ret (rc, p') ->
            p' = clear_proc_info (set_state p st)).
  { intros q st -> Hq.
    destruct (make_decision_spec s (set_state p st)) as (rc0 & E & _).
    rewrite E in Hq. now injection Hq as _ <-. }
  unfold subj_pattern_test in H.
  destruct (state_code (state p) <? state_code STATE_FULL).
  - destruct (elf_info p =? 0) eqn:E0.
    { apply Z.eqb_eq in E0. injection H as <- <-.
      right. exists STATE_NOT_ELF. split; [reflexivity|]. right. left. auto. }
    destruct (has_flag (elf_info p) IS_ELF
              && state_eqb (state p) STATE_COLLECTING
              && (Z.land (elf_info p) HAS_DYNAMIC =? 0)) eqn:E1.
    { apply andb_true_iff in E1 as [E1 E3].
      apply andb_true_iff in E1 as [E1 E2].
      apply has_flag_true in E1. apply state_eqb_eq in E2.
      apply Z.eqb_eq in E3.
      right. exists STATE_STATIC_REOPEN.
      split; [exact (D _ _ eq_refl H)|]. right. right. left. auto. }
    destruct (state_eqb (state p) STATE_STATIC_PARTIAL).
    { right. exists (state p).
      split; [apply (D p); [now rewrite set_state_same | exact H] | now left]. }
    destruct (has_flag (e_type e) FAN_OPEN_EXEC_PERM && path1_is_ld_so p)
      eqn:E3.
    { apply andb_true_iff in E3 as [_ E3]. unfold path1_is_ld_so in E3.
      destruct (path1 p) as [pth|] eqn:Ep; [|discriminate].
      apply Z.eqb_eq, strcmp_zero in E3. subst pth.
      right. exists STATE_LD_SO.
      split; [exact (D _ _ eq_refl H)|]. right. right. right. left. auto. }
    injection H as <- <-. now left.
  - destruct (state_eqb (state p) STATE_FULL) eqn:Ef.
    + apply state_eqb_eq in Ef.
      destruct (has_flag (elf_info p) HAS_ERROR) eqn:Eh.
      { apply has_flag_true in Eh. injection H as <- <-.
        right. exists STATE_BAD_ELF. split; [reflexivity|].
        do 5 right. auto. }
      apply has_flag_false in Eh.
      destruct (path1 p) as [pth|] eqn:Ep; cbn [deref bind] in H;
        [|discriminate].
      destruct (strcmp pth SYSTEM_LD_SO =? 0) eqn:Es.
      * apply Z.eqb_eq, strcmp_zero in Es. subst pth.
        right. exists STATE_LD_SO.
        split; [exact (D _ _ eq_refl H)|]. right. right. right. left. auto.
      * apply Z.eqb_neq in Es. rewrite strcmp_zero in Es.
        right. exists STATE_NORMAL.
        split; [exact (D _ _ eq_refl H)|]. do 4 right. left.
        repeat split; auto. intros F. injection F as F. contradiction.
    + right. exists (state p).
      split; [apply (D p); [now rewrite set_state_same | exact H] | now left].
Qed.

Lemma assign_subject_frame (n : lnode) (t : subject_type_t) (v : string)
    (ln : Z) (ro : list object_attr_t) (k : nat) :
  assign_subject (with_o_count (with_o n ro) k) t v ln
  = ('(rc, n') <- assign_subject n t v ln ;;
     Ret (rc, with_o_count (with_o n' ro) k)).
Proof.
  unfold assign_subject, subject_assigned.
  cbn [s_count with_o with_o_count].
  destruct (MAX_FIELDS <=? s_count n)%nat; [reflexivity|].
  destruct (subj_code COMM <=? subj_code t); [reflexivity|].
  destruct (subject_type_eqb t PATTERN).
  { destruct (strcmp v PATTERN_LD_SO_STR =? 0); [reflexivity|].
    destruct (strcmp v PATTERN_STATIC_STR =? 0); reflexivity. }
  destruct (starts_with_digit v).
  { destruct (strtol10 v) as [x errno]. destruct errno; reflexivity. }
  destruct (subject_type_eqb t AUID || subject_type_eqb t UID);
    [|reflexivity].
  destruct (getpwnam v); reflexivity.
Qed.

Lemma assign_object_frame (n : lnode) (t : object_type_t) (v : string)
    (ln : Z) (rs : list subject_attr_t) (k : nat) :
  assign_object (with_s_count (with_s n rs) k) t v ln
  = ('(rc, n') <- assign_object n t v ln ;;
     Ret (rc, with_s_count (with_s n' rs) k)).
Proof.
  unfold assign_object. cbn [o_count with_s with_s_count].
  destruct (MAX_FIELDS <=? o_count n)%nat; [reflexivity|].
  destruct (object_type_eqb t ODIR); reflexivity.
Qed.

(** A subject field and an object field touch separate parts of the node:
    assigned in either order they give the same node. *)
Lemma assignments_commute (n : lnode) (ts : subject_type_t)
    (t_o : object_type_t) (vs vo : string) (ln rc1 rc2 : Z) (n1 n2 : lnode) :
  assign_subject n ts vs ln = Ret (rc1, n1) ->
  assign_object n1 t_o vo ln = Ret (rc2, n2) ->
  exists m, assign_object n t_o vo ln = Ret (rc2, m) /\
            assign_subject m ts vs ln = Ret (rc1, n2).
Proof.
  intros E1 E2.
  destruct (assign_subject_result _ _ _ _ _ _ E1)
    as (_ & (Hd & Ha & Hf & Hn) & Hro & Hoc & _).
  assert (N1 : n1 = with_s_count (with_s n (r_s n1)) (s_count n1)).
  { destruct n, n1. cbn in *. now subst. }
  rewrite N1, assign_object_frame in E2.
  destruct (assign_object n t_o vo ln) as [[rc m]| |] eqn:EO;
    cbn [bind] in E2; try discriminate.
  injection E2 as <- <-.
  exists m. split; [reflexivity|].
  destruct (assign_object_result _ _ _ _ _ _ EO)
    as (_ & (Hd' & Ha' & Hf' & Hn') & Hrs' & Hsc' & _).
  assert (M : m = with_o_count (with_o n (r_o m)) (o_count m)).
  { destruct n, m. cbn in *. now subst. }
  rewrite M at 1. rewrite assign_subject_frame, E1. cbn [bind].
  f_equal. f_equal.
  destruct n, n1, m. cbn in *. now subst.
Qed.

(** X22.  In the legacy format the subject fields and the object fields
    may come in any order: nothing ends the subject part.  A subject field
    followed by an object field, both of which the node has room for, give
    the same result as the two in the opposite order. *)
Theorem legacy_fields_in_any_order (ts to : string) (toks : list string)
    (n : lnode) (lineno : Z)
    (ks vs ko vo : string) (tys : subject_type_t) (tyo : object_type_t)
    (rc1 rc2 : Z) (n1 n2 : lnode)
    (Hs : cut_at "=" ts = Some (ks, vs))
    (Hsname : subj_name_to_val ks (rformat_code RULE_FMT_ORIG) = Some tys)
    (Ho : cut_at "=" to = Some (ko, vo))
    (Honame_s : subj_name_to_val ko (rformat_code RULE_FMT_ORIG) = None)
    (Honame : obj_name_to_val ko = Some tyo)
    (Hassign_s : assign_subject n tys vs lineno = Ret (rc1, n1))
    (Hassign_o : assign_object n1 tyo vo lineno = Ret (rc2, n2)) :
  nv_split_fields (ts :: to :: toks) RULE_FMT_ORIG n lineno
  = nv_split_fields (to :: ts :: toks) RULE_FMT_ORIG n lineno /\
  nv_split_fields (ts :: to :: toks) RULE_FMT_ORIG n lineno
  = nv_split_fields toks RULE_FMT_ORIG n2 lineno.
Proof.
  destruct (assignments_commute _ _ _ _ _ _ _ _ _ _ Hassign_s Hassign_o)
    as (m & Em & Es).
  destruct (assign_subject_result _ _ _ _ _ _ Hassign_s)
    as (_ & _ & _ & _ & Hrc & _).
  assert (E3 : (rc1 =? 3) = false)
    by (apply Z.eqb_neq; destruct Hrc as [[-> _] | [-> _]]; discriminate).
  assert (L : nv_split_fields (ts :: to :: toks) RULE_FMT_ORIG n lineno
              = nv_split_fields toks RULE_FMT_ORIG n2 lineno).
  { cbn [nv_split_fields]. rewrite Hs, Hsname, Hassign_s. cbn [bind].
    rewrite E3, Ho, Honame_s, Honame, Hassign_o. reflexivity. }
  split; [|exact L].
  rewrite L. cbn [nv_split_fields].
  rewrite Ho, Honame_s, Honame, Em. cbn [bind].
  rewrite Hs, Hsname, Es. cbn [bind]. now rewrite E3.
Qed.

End Transitions.

Lemma pattern_transitions_witness :
  (@clear_proc_info sample (set_state full_bad_elf STATE_BAD_ELF)
   = full_bad_elf /\ -1 = 0) \/
  exists st,
    @clear_proc_info sample (set_state full_bad_elf STATE_BAD_ELF)
    = @clear_proc_info sample (set_state full_bad_elf st) /\
    (st = state full_bad_elf \/
     (st = STATE_NOT_ELF /\ elf_info full_bad_elf = 0 /\ -1 = 0) \/
     (st = STATE_STATIC_REOPEN /\ state full_bad_elf = STATE_COLLECTING /\
      Z.land (elf_info full_bad_elf) (@IS_ELF sample) <> 0 /\
      Z.land (elf_info full_bad_elf) (@HAS_DYNAMIC sample) = 0) \/
     (st = STATE_LD_SO /\ path1 full_bad_elf = Some (@SYSTEM_LD_SO sample)) \/
     (st = STATE_NORMAL /\ state full_bad_elf = STATE_FULL /\
      path1 full_bad_elf <> Some (@SYSTEM_LD_SO sample) /\
      Z.land (elf_info full_bad_elf) (@HAS_ERROR sample) = 0) \/
     (st = STATE_BAD_ELF /\ state full_bad_elf = STATE_FULL /\
      Z.land (elf_info full_bad_elf) (@HAS_ERROR sample) <> 0 /\ -1 = -1)).
Proof.
  apply (pattern_test_transitions (X:=sample) (s_at deny_ld_so_rule 0)
           sample_event full_bad_elf).
  vm_compute. reflexivity.
Defined.

Lemma legacy_order_witness :
  nv_split_fields (X:=sample) ["uid=1000"; "path=/x"] RULE_FMT_ORIG
    (fresh_node (X:=sample)) 1
  = nv_split_fields (X:=sample) ["path=/x"; "uid=1000"] RULE_FMT_ORIG
      (fresh_node (X:=sample)) 1.
Proof.
  destruct (assign_subject (X:=sample) (fresh_node (X:=sample)) UID "1000" 1)
    as [[rc1 n1]| st |] eqn:E1;
    [ | vm_compute in E1; discriminate | vm_compute in E1; discriminate ].
  destruct (assign_object (X:=sample) n1 PATH "/x" 1)
    as [[rc2 n2]| st |] eqn:E2.
  - exact (proj1 (legacy_fields_in_any_order (X:=sample)
                    "uid=1000" "path=/x" [] (fresh_node (X:=sample)) 1
                    "uid" "1000" "path" "/x" UID PATH rc1 rc2 n1 n2
                    eq_refl eq_refl eq_refl eq_refl eq_refl E1 E2)).
  - vm_compute in E1. injection E1 as <- <-. vm_compute in E2. discriminate.
  - vm_compute in E1. injection E1 as <- <-. vm_compute in E2. discriminate.
Defined.
